(** * Study-aid application: quiz session and material generation

    A shallow embedding of the control flow of the application: the quiz
    page ([src/pages/Quizzes.tsx]) with its screens, the material generation
    pipeline (the Materials page and the two edge functions
    [process-material] and [generate-from-topic]) and the tutor page.

    JavaScript values are embedded as [jsval], numbers as binary64 floats,
    strings as [string] (one [ascii] per code unit, so the model covers the
    strings whose code units are below 256), objects used as maps as [gmap].
    Asynchronous handlers are tasks in a state-and-exception monad over a
    [world] that holds the component state, the storage tables, the log of
    network requests and the notifications shown. The storage follows the
    schema of [supabase/migrations] where a delete of the quiz page meets
    it: the row-level security policies for delete, and the cascade from a
    quiz to its questions and attempts. *)

From Stdlib Require Import ZArith Floats String Ascii List Lia.
From stdpp Require Import gmap strings list pretty.

Local Open Scope string_scope.
Local Open Scope Z_scope.
Local Open Scope list_scope.

(** ** JavaScript values *)

#[local] Set Warnings "-register-all".

Inductive jsval : Type :=
| JUndefined
| JNull
| JBool (b : bool)
| JNum (x : float)
| JStr (s : string)
| JArr (items : list jsval)
| JObj (props : list (string * jsval)).

(** Builtins of the runtime that the program calls and that are not
    re-implemented here. *)
Class JSRuntime : Type := {
  (** [JSON.parse]: [None] when it throws a [SyntaxError]. *)
  JSON_parse : string -> option jsval;
  (** [Number::toString] in base 10. *)
  Number_toString : float -> string
}.

(** [ToBoolean]. *)
Definition truthy (v : jsval) : bool :=
  match v with
  | JUndefined | JNull => false
  | JBool b => b
  | JNum x => negb (PrimFloat.eqb x 0 || PrimFloat.is_nan x)
  | JStr s => negb (String.eqb s "")
  | JArr _ | JObj _ => true
  end.

(** [a || b]. *)
Definition js_or (a b : jsval) : jsval := if truthy a then a else b.

(** The own property [name] of an object literal; a later binding of the
    same key overrides an earlier one. *)
Fixpoint own_property (props : list (string * jsval)) (name : string) : option jsval :=
  match props with
  | [] => None
  | (k, v) :: rest =>
      match own_property rest name with
      | Some v' => Some v'
      | None => if String.eqb k name then Some v else None
      end
  end.

(** [v.name] for the property names this program reads (none of them is a
    builtin property of a primitive or of an array): [None] is the
    [TypeError] of reading a property of [undefined] or [null]. *)
Definition get (v : jsval) (name : string) : option jsval :=
  match v with
  | JUndefined | JNull => None
  | JObj props => Some (default JUndefined (own_property props name))
  | _ => Some JUndefined
  end.

Definition Array_isArray (v : jsval) : bool :=
  match v with JArr _ => true | _ => false end.

Fixpoint distinct_keys (ks : list string) : list string :=
  match ks with
  | [] => []
  | k :: rest => if bool_decide (k ∈ rest) then distinct_keys rest else k :: distinct_keys rest
  end.

(** [Object.keys(v)] for a [v] that is not [undefined] or [null] (the
    program only calls it on [v || {}]). Only the number of keys is used. *)
Definition Object_keys (v : jsval) : list string :=
  match v with
  | JObj props => distinct_keys (map fst props)
  | JArr items => map (fun i : nat => pretty i) (seq 0 (length items))
  | JStr s => map (fun i : nat => pretty i) (seq 0 (String.length s))
  | _ => []
  end.

(** ** Strings *)

(** White space of [String.prototype.trim] and of [\s], among the code
    units below 256: TAB, LF, VT, FF, CR, SP and NBSP. *)
Definition js_space (c : ascii) : bool :=
  let n := N_of_ascii c in
  ((9 <=? n) && (n <=? 13) || (n =? 32) || (n =? 160))%N.

Fixpoint drop_spaces (l : list ascii) : list ascii :=
  match l with
  | c :: rest => if js_space c then drop_spaces rest else l
  | [] => []
  end.

Definition trim_chars (l : list ascii) : list ascii :=
  rev (drop_spaces (rev (drop_spaces l))).

Definition trim (s : string) : string :=
  string_of_list_ascii (trim_chars (list_ascii_of_string s)).

Fixpoint starts_with (p l : list ascii) : bool :=
  match p, l with
  | [], _ => true
  | a :: p', b :: l' => Ascii.eqb a b && starts_with p' l'
  | _ :: _, [] => false
  end.

Definition startsWith (s p : string) : bool :=
  starts_with (list_ascii_of_string p) (list_ascii_of_string s).

(** [s.substring(0, n)]. *)
Definition substring0 (n : nat) (s : string) : string := String.substring 0 n s.

(** [l.replace(/^<p>\s*/, '')]: the prefix [p] and the white space that
    follows it are removed when [l] starts with [p]. *)
Definition replace_leading (p l : list ascii) : list ascii :=
  if starts_with p l then drop_spaces (drop (length p) l) else l.

(** Whether [/\s*<p>$/] matches at the very start of [l]. *)
Definition trailing_match (p l : list ascii) : bool :=
  bool_decide (drop_spaces l = p).

(** [l.replace(/\s*<p>$/, '')]: the leftmost position from which the rest
    of the input is white space followed by [p] and the end of input. *)
Fixpoint replace_trailing (p l : list ascii) : list ascii :=
  if trailing_match p l then []
  else match l with
       | [] => []
       | c :: rest => c :: replace_trailing p rest
       end.

(** ** Numbers *)

(** The number with the integer value [z], for [0 <= z < 2^53]. *)
Definition Number_of_Z (z : Z) : float := PrimFloat.of_uint63 (Uint63.of_Z z).

(** [x.toFixed(0)]: the sign, then the integer nearest to the magnitude
    (the larger one on a tie); numbers of magnitude [10^21] and more are
    printed by [Number::toString]. *)
Definition nearest_integer (m : positive) (e : Z) : Z :=
  if 0 <=? e then Z.pos m * 2 ^ e
  else (2 * Z.pos m + 2 ^ (- e)) / (2 * 2 ^ (- e)).

Definition at_least_1e21 (m : positive) (e : Z) : bool :=
  if 0 <=? e then 10 ^ 21 <=? Z.pos m * 2 ^ e
  else 10 ^ 21 * 2 ^ (- e) <=? Z.pos m.

Definition toFixed0 `{JSRuntime} (x : float) : string :=
  match Prim2SF x with
  | S754_nan => "NaN"
  | S754_infinity s => if s then "-Infinity" else "Infinity"
  | S754_zero _ => "0"
  | S754_finite s m e =>
      (if s then "-" else "") +:+
      (if at_least_1e21 m e then Number_toString (PrimFloat.abs x)
       else pretty (nearest_integer m e))
  end.

(** ** Asynchronous tasks *)

Record js_error : Type := Error { message : string }.

Inductive completion (A : Type) : Type :=
| Returns (a : A)
| Throws (e : js_error).
Arguments Returns {A} a.
Arguments Throws {A} e.

(** What the client shows or records outside of its own state. *)
Inductive effect : Type :=
| toast_error (msg : string)
| toast_success (msg : string)
| console_error (label : string) (e : js_error)
| navigate (path : string).

(** How a request ends: the promise resolves with data, resolves with an
    [error] field, or rejects. *)
Inductive fate : Type :=
| Succeeds
| Fails (e : js_error)
| Rejects (e : js_error).

(** The [{ data, error }] object a request resolves with. *)
Record response (A : Type) : Type := Response { data : option A; error : option js_error }.
Arguments Response {A} data error.
Arguments data {A} r.
Arguments error {A} r.

Section Tasks.
(** [S]: component state; [B]: storage; [R]: requests. *)
Context {S B R : Type}.

Record world : Type := MkWorld {
  ui : S;
  backend : B;
  (** every request sent, oldest first *)
  requests : list R;
  (** notifications, log lines and navigations, oldest first *)
  effects : list effect;
  (** callbacks registered with [setTimeout], with their delay *)
  timers : list (Z * (S -> S * list effect));
  (** the fate of the n-th request *)
  fate_of : nat -> fate
}.

Definition task (A : Type) : Type := world -> completion A * world.

Definition ret {A} (a : A) : task A := fun w => (Returns a, w).

Definition bind {A C} (t : task A) (k : A -> task C) : task C :=
  fun w => match t w with
           | (Returns a, w') => k a w'
           | (Throws e, w') => (Throws e, w')
           end.

Definition throw {A} (e : js_error) : task A := fun w => (Throws e, w).

(** [try { body } catch (e) { handler e }]. *)
Definition try_catch {A} (body : task A) (handler : js_error -> task A) : task A :=
  fun w => match body w with
           | (Returns a, w') => (Returns a, w')
           | (Throws e, w') => handler e w'
           end.

(** [try { body } finally { fin }]. *)
Definition finally {A} (body : task A) (fin : task unit) : task A :=
  fun w => match body w with
           | (r, w') =>
               match fin w' with
               | (Returns _, w'') => (r, w'')
               | (Throws e, w'') => (Throws e, w'')
               end
           end.

Definition get_ui : task S := fun w => (Returns (ui w), w).

Definition modify_ui (f : S -> S) : task unit :=
  fun w => (Returns tt,
            MkWorld (f (ui w)) (backend w) (requests w) (effects w) (timers w) (fate_of w)).

Definition perform (x : effect) : task unit :=
  fun w => (Returns tt,
            MkWorld (ui w) (backend w) (requests w) (effects w ++ [x]) (timers w) (fate_of w)).

Definition setTimeout (cb : S -> S * list effect) (ms : Z) : task unit :=
  fun w => (Returns tt,
            MkWorld (ui w) (backend w) (requests w) (effects w) (timers w ++ [(ms, cb)]) (fate_of w)).

(** [await] of a request [r] whose effect on the storage, when it
    succeeds, is [exec]. A request that fails leaves the storage as it
    was. *)
Definition await {A} (r : R) (exec : B -> A * B) : task (response A) :=
  fun w =>
    let sent b := MkWorld (ui w) b (requests w ++ [r]) (effects w) (timers w) (fate_of w) in
    match fate_of w (length (requests w)) with
    | Succeeds =>
        let '(a, b') := exec (backend w) in
        (Returns (Response (Some a) None), sent b')
    | Fails e => (Returns (Response None (Some e)), sent (backend w))
    | Rejects e => (Throws e, sent (backend w))
    end.
End Tasks.
Arguments world : clear implicits.
Arguments task : clear implicits.

Notation "'let*' x := t 'in' k" := (bind t (fun x => k))
  (at level 10, x name, t at level 100, k at level 200).
Notation "t ;; k" := (bind t (fun _ => k))
  (at level 100, k at level 200, right associativity).

(** ** The quiz page ([src/pages/Quizzes.tsx]) *)

Module Quiz.
Record t : Type := Make { id : string; title : string; created_at : string }.
End Quiz.

Module Question.
Record t : Type := Make {
  id : string;
  question_text : string;
  question_type : string;
  options : jsval;
  correct_answer : string;
  explanation : option string
}.
End Question.

Module Quizzes.

(** *** Storage as the page sees it *)

Record QuizRow : Type := { user_id : string; quiz : Quiz.t }.
Record QuestionRow : Type := { quiz_id : string; question : Question.t }.

(** The row the page inserts into [quiz_attempts]; [user?.id] and
    [selectedQuiz?.id] are [None] when there is no user or no quiz. *)
Record Attempt : Type := {
  attempt_user_id : option string;
  attempt_quiz_id : option string;
  score : float;
  total_questions : Z
}.

Record Storage : Type := {
  quizzes_table : list QuizRow;
  questions_table : list QuestionRow;
  quiz_attempts_table : list Attempt
}.

Inductive Request : Type :=
| select_quizzes (user : string)
| select_questions (quiz : string)
| delete_questions (quiz : string)
| delete_quiz (quiz : string)
| insert_quiz_attempt (row : Attempt).

(** *** Component state *)

Record State : Type := {
  quizzes : list Quiz.t;
  selectedQuiz : option Quiz.t;
  questions : list Question.t;
  currentQuestionIndex : Z;
  userAnswers : gmap string string;
  showResults : bool;
  loading : bool;
  deleteDialogOpen : bool;
  quizToDelete : option string;
  deleting : bool
}.

Definition setQuizzes v s :=
  Build_State v (selectedQuiz s) (questions s) (currentQuestionIndex s) (userAnswers s)
    (showResults s) (loading s) (deleteDialogOpen s) (quizToDelete s) (deleting s).
Definition setSelectedQuiz v s :=
  Build_State (quizzes s) v (questions s) (currentQuestionIndex s) (userAnswers s)
    (showResults s) (loading s) (deleteDialogOpen s) (quizToDelete s) (deleting s).
Definition setQuestions v s :=
  Build_State (quizzes s) (selectedQuiz s) v (currentQuestionIndex s) (userAnswers s)
    (showResults s) (loading s) (deleteDialogOpen s) (quizToDelete s) (deleting s).
Definition setCurrentQuestionIndex v s :=
  Build_State (quizzes s) (selectedQuiz s) (questions s) v (userAnswers s)
    (showResults s) (loading s) (deleteDialogOpen s) (quizToDelete s) (deleting s).
Definition setUserAnswers v s :=
  Build_State (quizzes s) (selectedQuiz s) (questions s) (currentQuestionIndex s) v
    (showResults s) (loading s) (deleteDialogOpen s) (quizToDelete s) (deleting s).
Definition setShowResults v s :=
  Build_State (quizzes s) (selectedQuiz s) (questions s) (currentQuestionIndex s) (userAnswers s)
    v (loading s) (deleteDialogOpen s) (quizToDelete s) (deleting s).
Definition setLoading v s :=
  Build_State (quizzes s) (selectedQuiz s) (questions s) (currentQuestionIndex s) (userAnswers s)
    (showResults s) v (deleteDialogOpen s) (quizToDelete s) (deleting s).
Definition setDeleteDialogOpen v s :=
  Build_State (quizzes s) (selectedQuiz s) (questions s) (currentQuestionIndex s) (userAnswers s)
    (showResults s) (loading s) v (quizToDelete s) (deleting s).
Definition setQuizToDelete v s :=
  Build_State (quizzes s) (selectedQuiz s) (questions s) (currentQuestionIndex s) (userAnswers s)
    (showResults s) (loading s) (deleteDialogOpen s) v (deleting s).
Definition setDeleting v s :=
  Build_State (quizzes s) (selectedQuiz s) (questions s) (currentQuestionIndex s) (userAnswers s)
    (showResults s) (loading s) (deleteDialogOpen s) (quizToDelete s) v.

(** The state the component is mounted with. *)
Definition initial : State :=
  Build_State [] None [] 0 ∅ false true false None false.

Abbreviation World := (world State Storage Request).
Abbreviation Task := (task State Storage Request).

(** Which of the four screens the component renders. *)
Inductive Phase : Type := Loading | Browsing | Results | InProgress.

Definition phase (s : State) : Phase :=
  if loading s then Loading
  else match selectedQuiz s with
       | None => Browsing
       | Some _ => if showResults s then Results else InProgress
       end.

(** *** Storage requests *)

(** [.select("*").eq("user_id", user)] on [quizzes] *)
Definition stored_quizzes (user : string) (b : Storage) : list Quiz.t :=
  map quiz (filter (fun r => user_id r = user) (quizzes_table b)).

(** [.select("*").eq("quiz_id", qid)] on [questions] *)
Definition stored_questions (qid : string) (b : Storage) : list Question.t :=
  map question (filter (fun r => quiz_id r = qid) (questions_table b)).

Definition rows_of_user (user : string) (b : Storage) : list Quiz.t * Storage :=
  (stored_quizzes user b, b).

Definition rows_of_quiz (qid : string) (b : Storage) : list Question.t * Storage :=
  (stored_questions qid b, b).

(** The storage applies the row-level security policies of the schema
    ([supabase/migrations]) to a delete. [questions] has policies for select
    and insert only: a delete of questions resolves without error and
    removes no row. *)
Definition drop_questions (qid : string) (b : Storage) : unit * Storage := (tt, b).

(** [quizzes] has the delete policy [auth.uid() = user_id]: the quiz row
    with the id is removed when it belongs to the user of the session. The
    questions and the attempts that refer to a removed quiz go with it
    ([on delete cascade]). *)
Definition drop_quiz (user : option string) (qid : string) (b : Storage) : unit * Storage :=
  if bool_decide (Exists (fun r => Quiz.id (quiz r) = qid /\ user = Some (user_id r))
                    (quizzes_table b)) then
    (tt, Build_Storage
           (filter (fun r => ¬ (Quiz.id (quiz r) = qid /\ user = Some (user_id r)))
              (quizzes_table b))
           (filter (fun r => quiz_id r ≠ qid) (questions_table b))
           (filter (fun a => attempt_quiz_id a ≠ Some qid) (quiz_attempts_table b)))
  else (tt, b).

Definition add_attempt (row : Attempt) (b : Storage) : unit * Storage :=
  (tt, Build_Storage (quizzes_table b) (questions_table b) (quiz_attempts_table b ++ [row])).

(** *** Handlers *)

(** The rows come back in the order asked for ([created_at] descending);
    the table is kept in that order. *)
Definition fetchQuizzes (user : option string) : Task unit :=
  match user with
  | None => ret tt
  | Some uid =>
      finally
        (try_catch
           (let* r := await (select_quizzes uid) (rows_of_user uid) in
            match error r with
            | Some e => throw e
            | None => modify_ui (setQuizzes (default [] (data r)))
            end)
           (fun e =>
              perform (console_error "Error fetching quizzes:" e) ;;
              perform (toast_error "Failed to load quizzes")))
        (modify_ui (setLoading false))
  end.

Definition handleDeleteClick (quizId : string) (s : State) : State :=
  setDeleteDialogOpen true (setQuizToDelete (Some quizId) s).

(** [user] is the user of the session, under which the requests are sent. *)
Definition handleDeleteConfirm (user : option string) : Task unit :=
  let* s := get_ui in
  match quizToDelete s with
  | None => ret tt
  | Some "" => ret tt
  | Some qid =>
      modify_ui (setDeleting true) ;;
      finally
        (try_catch
           (let* r1 := await (delete_questions qid) (drop_questions qid) in
            match error r1 with
            | Some questionsError => throw questionsError
            | None =>
                let* r2 := await (delete_quiz qid) (drop_quiz user qid) in
                match error r2 with
                | Some quizError => throw quizError
                | None =>
                    modify_ui (setQuizzes
                                 (filter (fun q => Quiz.id q ≠ qid) (quizzes s))) ;;
                    perform (toast_success "Quiz deleted successfully!") ;;
                    modify_ui (setDeleteDialogOpen false) ;;
                    modify_ui (setQuizToDelete None)
                end
            end)
           (fun e =>
              perform (console_error "Error deleting quiz:" e) ;;
              perform (toast_error "Failed to delete quiz")))
        (modify_ui (setDeleting false))
  end.

(** [q.options && (Array.isArray(q.options) ? q.options.length > 0
                   : Object.keys(q.options || {}).length > 0)] *)
Definition has_options (q : Question.t) : bool :=
  let o := Question.options q in
  truthy o &&
  (match o with
   | JArr items => 0 <? Z.of_nat (length items)
   | _ => 0 <? Z.of_nat (length (Object_keys (js_or o (JObj []))))
   end).

Definition loadQuiz (q : Quiz.t) : Task unit :=
  finally
    (try_catch
       (modify_ui (setLoading true) ;;
        let* r := await (select_questions (Quiz.id q)) (rows_of_quiz (Quiz.id q)) in
        match error r with
        | Some e => throw e
        | None =>
            let validQuestions := List.filter has_options (default [] (data r)) in
            if Z.of_nat (length validQuestions) =? 0 then
              perform (toast_error "No valid multiple choice questions found in this quiz")
            else
              modify_ui (setQuestions validQuestions) ;;
              modify_ui (setSelectedQuiz (Some q)) ;;
              modify_ui (setCurrentQuestionIndex 0) ;;
              modify_ui (setUserAnswers ∅) ;;
              modify_ui (setShowResults false)
        end)
       (fun e =>
          perform (console_error "Error loading quiz:" e) ;;
          perform (toast_error "Failed to load quiz questions")))
    (modify_ui (setLoading false)).

Definition handleAnswerSelect (questionId answer : string) (s : State) : State :=
  setUserAnswers (<[questionId := answer]> (userAnswers s)) s.

Definition handleNext (s : State) : State :=
  if currentQuestionIndex s <? Z.of_nat (length (questions s)) - 1
  then setCurrentQuestionIndex (currentQuestionIndex s + 1) s
  else s.

Definition handlePrevious (s : State) : State :=
  if 0 <? currentQuestionIndex s
  then setCurrentQuestionIndex (currentQuestionIndex s - 1) s
  else s.

(** [userAnswers[q.id] === q.correct_answer] *)
Definition answered_correctly (answers : gmap string string) (q : Question.t) : bool :=
  bool_decide (answers !! Question.id q = Some (Question.correct_answer q)).

(** [questions.reduce((acc, q) => acc + (... ? 1 : 0), 0)] *)
Definition compute_score (qs : list Question.t) (answers : gmap string string) : Z :=
  fold_left (fun acc q => acc + (if answered_correctly answers q then 1 else 0)) qs 0.

(** [(score / questions.length) * 100] *)
Definition compute_percentage (sc : Z) (qs : list Question.t) : float :=
  (Number_of_Z sc / Number_of_Z (Z.of_nat (length qs)) * 100)%float.

Definition handleSubmit `{JSRuntime} (user : option string) : Task unit :=
  let* s := get_ui in
  let sc := compute_score (questions s) (userAnswers s) in
  let percentage := compute_percentage sc (questions s) in
  try_catch
    (let row := {| attempt_user_id := user;
                   attempt_quiz_id := Quiz.id <$> selectedQuiz s;
                   score := percentage;
                   total_questions := Z.of_nat (length (questions s)) |} in
     let* _ := await (insert_quiz_attempt row) (add_attempt row) in
     modify_ui (setShowResults true) ;;
     perform (toast_success ("Quiz completed! Score: " +:+ toFixed0 percentage +:+ "%")))
    (fun e =>
       perform (console_error "Error saving quiz attempt:" e) ;;
       perform (toast_error "Failed to save quiz results")).

Definition resetQuiz (s : State) : State :=
  setShowResults false
    (setUserAnswers ∅
       (setCurrentQuestionIndex 0
          (setQuestions [] (setSelectedQuiz None s)))).

(** The [Review Answers] button of the results screen. *)
Definition reviewAnswers (s : State) : State :=
  setCurrentQuestionIndex 0 (setShowResults false s).

(** *** The results screen *)

Record ReviewCard : Type := {
  card_heading : string;
  card_correct : bool;
  card_your_answer : string;
  card_correct_answer : option string;
  card_explanation : option string
}.

Record ResultsScreen : Type := {
  shown_percentage : string;
  shown_score : Z;
  shown_total : Z;
  shown_cards : list ReviewCard
}.

Definition review_card (answers : gmap string string) (index : nat) (q : Question.t)
  : ReviewCard :=
  let userAnswer := answers !! Question.id q in
  let isCorrect := answered_correctly answers q in
  {| card_heading := pretty (Z.of_nat index + 1) +:+ ". " +:+ Question.question_text q;
     card_correct := isCorrect;
     card_your_answer :=
       match userAnswer with
       | Some a => if String.eqb a "" then "Not answered" else a
       | None => "Not answered"
       end;
     card_correct_answer :=
       if isCorrect then None else Some (Question.correct_answer q);
     card_explanation :=
       match Question.explanation q with
       | Some e => if String.eqb e "" then None else Some e
       | None => None
       end |}.

(** What the [showResults] branch of the render function displays. *)
Definition results_screen `{JSRuntime} (s : State) : ResultsScreen :=
  let sc := compute_score (questions s) (userAnswers s) in
  let percentage := compute_percentage sc (questions s) in
  {| shown_percentage := toFixed0 percentage +:+ "%";
     shown_score := sc;
     shown_total := Z.of_nat (length (questions s));
     shown_cards := imap (review_card (userAnswers s)) (questions s) |}.

(** The events of a session in progress that do not touch the network. *)
Inductive Op : Type :=
| Next
| Previous
| AnswerSelect (questionId answer : string).

Definition step (s : State) (o : Op) : State :=
  match o with
  | Next => handleNext s
  | Previous => handlePrevious s
  | AnswerSelect i a => handleAnswerSelect i a s
  end.

(** A run of such events between two network requests. *)
Definition perform_ops (ops : list Op) : Task unit :=
  modify_ui (fun s => fold_left step ops s).

Definition run_task {A} (t : Task A) (w : World) : World := snd (t w).

End Quizzes.

(** ** More of the runtime: errors and conversions *)

(** The [TypeError] of reading the property [name] of [undefined] or
    [null], and of calling a method that [v] does not have (the wording is
    that of V8). *)
Definition nullish_name (v : jsval) : string :=
  match v with JNull => "null" | _ => "undefined" end.

Definition cannot_read (v : jsval) (name : string) : js_error :=
  Error ("Cannot read properties of " +:+ nullish_name v +:+ " (reading '" +:+ name +:+ "')").

Definition cannot_destructure (v : jsval) (name : string) : js_error :=
  Error ("Cannot destructure property '" +:+ name +:+ "' of '(intermediate value)' as it is "
         +:+ nullish_name v +:+ ".").

Definition not_a_function (what : string) : js_error :=
  Error (what +:+ " is not a function").

Fixpoint join (sep : string) (parts : list string) : string :=
  match parts with
  | [] => ""
  | [p] => p
  | p :: rest => p +:+ sep +:+ join sep rest
  end.

(** The [TypeError] of converting an object that has no usable
    [toString] and [valueOf] (the wording is that of V8). *)
Definition cannot_convert : js_error := Error "Cannot convert object to primitive value".

(** [ToString], as used by template literals and by [String(v)]. An object
    is converted by the [toString] it finds: a parsed JSON object with an
    own key [toString] shadows the method of [Object.prototype] with a value
    that cannot be called, the [valueOf] tried next gives no primitive, and
    the conversion throws. An array joins the conversions of its entries,
    [undefined] and [null] counting as empty. *)
Fixpoint ToString `{JSRuntime} (v : jsval) : completion string :=
  match v with
  | JUndefined => Returns "undefined"
  | JNull => Returns "null"
  | JBool b => Returns (if b then "true" else "false")
  | JNum x => Returns (Number_toString x)
  | JStr s => Returns s
  | JArr items =>
      match (fix parts (l : list jsval) : completion (list string) :=
               match l with
               | [] => Returns []
               | i :: rest =>
                   match match i with
                         | JUndefined | JNull => Returns ""
                         | _ => ToString i
                         end with
                   | Throws e => Throws e
                   | Returns p =>
                       match parts rest with
                       | Throws e => Throws e
                       | Returns ps => Returns (p :: ps)
                       end
                   end
               end) items with
      | Throws e => Throws e
      | Returns ps => Returns (join "," ps)
      end
  | JObj props =>
      match own_property props "toString" with
      | Some _ => Throws cannot_convert
      | None => Returns "[object Object]"
      end
  end.

Section Reads.
Context {S B R : Type}.

(** [v.name], throwing on [undefined] and [null]. *)
Definition prop (v : jsval) (name : string) : task S B R jsval :=
  match get v name with
  | Some x => ret x
  | None => throw (cannot_read v name)
  end.

(** A template literal, or [String(v)], that converts [v] to a string. *)
Definition text_of `{JSRuntime} (v : jsval) : task S B R string :=
  fun w => (ToString v, w).

(** [items.map(f)] for a callback that may throw. *)
Fixpoint Array_map {A} (f : jsval -> task S B R A) (items : list jsval)
  : task S B R (list A) :=
  match items with
  | [] => ret []
  | i :: rest =>
      let* x := f i in
      let* xs := Array_map f rest in
      ret (x :: xs)
  end.
End Reads.

(** ** The edge functions ([process-material] and [generate-from-topic]) *)

Module EdgeFunction.

Inductive name : Type := process_material | generate_from_topic.

Definition slug (fn : name) : string :=
  match fn with
  | process_material => "process-material"
  | generate_from_topic => "generate-from-topic"
  end.

(** The field of the request body that must not be blank. *)
Definition required_field (fn : name) : string :=
  match fn with process_material => "content" | generate_from_topic => "topic" end.

Definition required_message (fn : name) : string :=
  match fn with
  | process_material => "Content is required"
  | generate_from_topic => "Topic is required"
  end.

(** A JSON response: status and parsed body. *)
Record Reply : Type := { status : Z; body : jsval }.

Definition error_reply (code : Z) (msg : string) : Reply :=
  {| status := code; body := JObj [("error", JStr msg)] |}.

(** The name of the variable that holds the completion text. *)
Definition content_variable (fn : name) : string :=
  match fn with process_material => "aiContent" | generate_from_topic => "content" end.

(** What the completion endpoint answered: a status, and what
    [response.text()] and [response.json()] resolve with or reject with
    (the handler reads the body once, with one of the two). *)
Record Upstream : Type := {
  up_status : Z;
  up_text : js_error + string;
  up_json : js_error + jsval
}.

Definition ok (code : Z) : bool := (200 <=? code) && (code <=? 299).

Definition fence : list ascii := list_ascii_of_string "```".
Definition json_fence : list ascii := list_ascii_of_string "```json".

(** The cleaning of the completion text: lines 141-146 ([process-material])
    and 140-145 ([generate-from-topic]). *)
Definition cleanedContent (aiContent : string) : string :=
  let cleaned := trim aiContent in
  if startsWith cleaned "```json" then
    string_of_list_ascii
      (replace_trailing fence (replace_leading json_fence (list_ascii_of_string cleaned)))
  else if startsWith cleaned "```" then
    string_of_list_ascii
      (replace_trailing fence (replace_leading fence (list_ascii_of_string cleaned)))
  else cleaned.

(** [v?.[0]] and [v?.name] *)
Definition first_of (v : jsval) : jsval :=
  match v with
  | JArr (x :: _) => x
  | JObj props => default JUndefined (own_property props "0")
  | JStr (String c _) => JStr (String c "")
  | _ => JUndefined
  end.

Definition opt_prop (v : jsval) (name : string) : jsval :=
  default JUndefined (get v name).

(** The part of the handler that turns the completion into the parsed
    study content; [inl] is a thrown error. *)
Definition parse_completion `{JSRuntime} (fn : name) (data : jsval) : js_error + jsval :=
  match get data "choices" with
  | None => inl (cannot_read data "choices")
  | Some choices =>
      let aiContent := opt_prop (opt_prop (first_of choices) "message") "content" in
      if negb (truthy aiContent) then inl (Error "No content generated")
      else match aiContent with
           | JStr text =>
               match JSON_parse (cleanedContent text) with
               | Some parsedContent => inr parsedContent
               | None => inl (Error "AI generated invalid JSON format")
               end
           | _ => inl (not_a_function (content_variable fn +:+ ".trim"))
           end
  end.

(** The line written to the console before the completion is asked for:
    [`Processing material: ${title || 'Untitled'}`], with the [title] of the
    request body, and [`Generating content for topic: ${topic}`]. Building
    the line converts its argument to a string, which may throw. *)
Definition log_line `{JSRuntime} (fn : name) (request : jsval) (input : string)
  : completion string :=
  match fn with
  | process_material =>
      match ToString (js_or (opt_prop request "title") (JStr "Untitled")) with
      | Returns title => Returns ("Processing material: " +:+ title)
      | Throws e => Throws e
      end
  | generate_from_topic => Returns ("Generating content for topic: " +:+ input)
  end.

(** The body of the [try] block, after the request body has been read.
    The lines written to the console are not part of the reply; an error
    thrown while one is built is. *)
Definition respond `{JSRuntime} (fn : name) (request : jsval) (api_key : option string)
    (upstream : js_error + Upstream) : js_error + Reply :=
  match get request (required_field fn) with
  | None => inl (cannot_destructure request (required_field fn))
  | Some input =>
      if negb (truthy input) then inr (error_reply 400 (required_message fn))
      else match input with
           | JStr text =>
               if String.eqb (trim text) "" then inr (error_reply 400 (required_message fn))
               else match api_key with
                    | None | Some "" => inl (Error "LOVABLE_API_KEY not configured")
                    | Some _ =>
                        match log_line fn request text, upstream with
                        | Throws e, _ => inl e
                        | Returns _, inl e => inl e
                        | Returns _, inr response =>
                            if negb (ok (up_status response)) then
                              if up_status response =? 429 then
                                inr (error_reply 429
                                       "Rate limit exceeded. Please try again in a moment.")
                              else if up_status response =? 402 then
                                inr (error_reply 402
                                       "AI credits depleted. Please add credits to continue.")
                              else match up_text response with
                                   | inl e => inl e
                                   | inr _ =>
                                       inl (Error ("AI API error: "
                                                   +:+ pretty (up_status response)))
                                   end
                            else match up_json response with
                                 | inl e => inl e
                                 | inr data =>
                                     match parse_completion fn data with
                                     | inl e => inl e
                                     | inr parsedContent =>
                                         inr {| status := 200; body := parsedContent |}
                                     end
                                 end
                        end
                    end
           | _ => inl (not_a_function (required_field fn +:+ ".trim"))
           end
  end.

(** The handler passed to [serve]: [request] is the outcome of
    [req.json()]. A thrown error becomes a reply with status 500. *)
Definition handler `{JSRuntime} (fn : name) (method : string) (request : js_error + jsval)
    (api_key : option string) (upstream : js_error + Upstream) : Reply :=
  if String.eqb method "OPTIONS" then {| status := 200; body := JNull |}
  else match request with
       | inl e => error_reply 500 (message e)
       | inr req =>
           match respond fn req api_key upstream with
           | inr reply => reply
           | inl e => error_reply 500 (message e)
           end
       end.

(** What [supabase.functions.invoke] resolves with for a reply: the
    parsed body for a 2xx status, an error otherwise. *)
Definition invoke_fate (r : Reply) : fate :=
  if ok (status r) then Succeeds
  else Fails (Error "Edge Function returned a non-2xx status code").

End EdgeFunction.

(** ** The materials page and the persistence fan-out *)

Module Materials.

(** *** Rows as the page sends them *)

Module Material.
Record t : Type := Make {
  user_id : string; title : jsval; content : string; source_type : string;
  summary : jsval
}.
End Material.

Module Note.
Record t : Type := Make {
  user_id : string; material_id : string; title : string; content : jsval;
  key_points : jsval; examples : jsval
}.
End Note.

Module Flashcard.
Record t : Type := Make {
  user_id : string; material_id : string; question : jsval; answer : jsval;
  difficulty : jsval
}.
End Flashcard.

Module NewQuiz.
Record t : Type := Make { user_id : string; material_id : string; title : string }.
End NewQuiz.

Module NewQuestion.
Record t : Type := Make {
  quiz_id : string; question_text : jsval; question_type : jsval; options : jsval;
  correct_answer : jsval; explanation : jsval
}.
End NewQuestion.

(** *** Storage and edge functions as the page sees them *)

(** The rows committed so far, oldest first; materials and quizzes with
    the id the storage gave them. *)
Record Backend : Type := {
  materials : list (string * Material.t);
  notes : list Note.t;
  flashcards : list Flashcard.t;
  quizzes : list (string * NewQuiz.t);
  questions : list NewQuestion.t;
  next_id : nat;
  (** the study content an edge function answers with *)
  generated : EdgeFunction.name -> list (string * string) -> jsval
}.

Inductive Request : Type :=
| invoke (fn : EdgeFunction.name) (body : list (string * string))
| insert_material (row : Material.t)
| insert_note (row : Note.t)
| insert_flashcards (rows : list Flashcard.t)
| insert_quiz (row : NewQuiz.t)
| insert_questions (rows : list NewQuestion.t).

Definition fresh_id (b : Backend) : string := "id-" +:+ pretty (next_id b).

Definition add_material (row : Material.t) (b : Backend) : (string * Material.t) * Backend :=
  ((fresh_id b, row),
   Build_Backend (materials b ++ [(fresh_id b, row)]) (notes b) (flashcards b) (quizzes b)
     (questions b) (S (next_id b)) (generated b)).

Definition add_note (row : Note.t) (b : Backend) : unit * Backend :=
  (tt, Build_Backend (materials b) (notes b ++ [row]) (flashcards b) (quizzes b)
         (questions b) (next_id b) (generated b)).

Definition add_flashcards (rows : list Flashcard.t) (b : Backend) : unit * Backend :=
  (tt, Build_Backend (materials b) (notes b) (flashcards b ++ rows) (quizzes b)
         (questions b) (next_id b) (generated b)).

Definition add_quiz (row : NewQuiz.t) (b : Backend) : (string * NewQuiz.t) * Backend :=
  ((fresh_id b, row),
   Build_Backend (materials b) (notes b) (flashcards b) (quizzes b ++ [(fresh_id b, row)])
     (questions b) (S (next_id b)) (generated b)).

Definition add_questions (rows : list NewQuestion.t) (b : Backend) : unit * Backend :=
  (tt, Build_Backend (materials b) (notes b) (flashcards b) (quizzes b)
         (questions b ++ rows) (next_id b) (generated b)).

Definition generate (fn : EdgeFunction.name) (body : list (string * string)) (b : Backend)
  : jsval * Backend :=
  (generated b fn body, b).

(** *** Component state *)

Record State : Type := {
  text : string;
  topic : string;
  loading : bool;
  progress : list string
}.

Definition setText v s := Build_State v (topic s) (loading s) (progress s).
Definition setTopic v s := Build_State (text s) v (loading s) (progress s).
Definition setLoading v s := Build_State (text s) (topic s) v (progress s).
Definition setProgress v s := Build_State (text s) (topic s) (loading s) v.

(** [setProgress((prev) => [...prev, line])] *)
Definition pushProgress (line : string) (s : State) : State :=
  setProgress (progress s ++ [line]) s.

Abbreviation World := (world State Backend Request).
Abbreviation Task := (task State Backend Request).

(** *** The fan-out *)

(** [row.id] of the row an insert with [.select().single()] returned *)
Definition id_of {A} (row : option (string * A)) : Task string :=
  match row with
  | Some (i, _) => ret i
  | None => throw (cannot_read JNull "id")
  end.

Definition items_of (v : jsval) : list jsval :=
  match v with JArr items => items | _ => [] end.

Definition flashcard_row (uid mid : string) (card : jsval) : Task Flashcard.t :=
  let* question := prop card "question" in
  let* answer := prop card "answer" in
  let* difficulty := prop card "difficulty" in
  ret (Flashcard.Make uid mid question answer (js_or difficulty (JStr "medium"))).

Definition question_row (qid : string) (q : jsval) : Task NewQuestion.t :=
  let* question := prop q "question" in
  let* type := prop q "type" in
  let* options := prop q "options" in
  let* correct_answer := prop q "correct_answer" in
  let* explanation := prop q "explanation" in
  ret (NewQuestion.Make qid question type (js_or options JNull) correct_answer
         (js_or explanation JNull)).

(** The three steps of [saveMaterialAndContent] that follow the insert of
    the material row, each under its comment in the source. *)

(** [// Save notes] *)
Definition save_notes `{JSRuntime} (uid : string) (materialTitle : jsval)
    (generatedData summary : jsval) (material : option (string * Material.t))
  : Task unit :=
  let* key_points := prop generatedData "key_points" in
  let* examples := prop generatedData "examples" in
  if truthy (js_or key_points examples) then
    let* mid := id_of material in
    let* title := text_of materialTitle in
    let note := Note.Make uid mid (title +:+ " - Notes") summary key_points examples in
    let* _ := await (insert_note note) (add_note note) in
    ret tt
  else ret tt.

(** [// Save flashcards] *)
Definition save_flashcards (uid : string) (generatedData : jsval)
    (material : option (string * Material.t)) : Task unit :=
  let* cards := prop generatedData "flashcards" in
  if truthy cards && Array_isArray cards then
    let* flashcardsData :=
      Array_map (fun card => let* mid := id_of material in
                             flashcard_row uid mid card) (items_of cards) in
    let* _ := await (insert_flashcards flashcardsData) (add_flashcards flashcardsData) in
    ret tt
  else ret tt.

(** [// Save quiz] *)
Definition save_quiz `{JSRuntime} (uid : string) (materialTitle : jsval)
    (generatedData : jsval) (material : option (string * Material.t)) : Task unit :=
  let* quiz_questions := prop generatedData "quiz_questions" in
  if truthy quiz_questions && Array_isArray quiz_questions then
    let* mid := id_of material in
    let* title := text_of materialTitle in
    let new_quiz := NewQuiz.Make uid mid (title +:+ " - Quiz") in
    let* rq := await (insert_quiz new_quiz) (add_quiz new_quiz) in
    match data rq with
    | Some (quiz_id, _) =>
        let* questionsData :=
          Array_map (question_row quiz_id) (items_of quiz_questions) in
        let* _ := await (insert_questions questionsData) (add_questions questionsData) in
        ret tt
    | None => ret tt
    end
  else ret tt.

(** The rest of the [try] block, after the material row has been inserted. *)
Definition save_derived_content `{JSRuntime} (uid : string) (materialTitle : jsval)
    (generatedData summary : jsval) (material : option (string * Material.t))
  : Task jsval :=
  save_notes uid materialTitle generatedData summary material ;;
  save_flashcards uid generatedData material ;;
  save_quiz uid materialTitle generatedData material ;;
  ret (JBool true).

Definition saveMaterialAndContent `{JSRuntime} (user : option string)
    (materialTitle : jsval) (materialContent sourceType : string) (generatedData : jsval)
  : Task jsval :=
  match user with
  | None => ret JUndefined
  | Some uid =>
      try_catch
        ((* Save material *)
         let* summary := prop generatedData "summary" in
         let row := Material.Make uid materialTitle materialContent sourceType summary in
         let* r := await (insert_material row) (add_material row) in
         match error r with
         | Some materialError => throw materialError
         | None => save_derived_content uid materialTitle generatedData summary (data r)
         end)
        (fun e =>
           perform (console_error "Error saving to database:" e) ;;
           throw e)
  end.

(** *** The two generation handlers *)

(** [error.message || fallback] *)
Definition message_or (e : js_error) (fallback : string) : string :=
  if String.eqb (message e) "" then fallback else message e.

(** The callbacks handed to [setTimeout]. *)
Definition topic_done (s : State) : State * list effect :=
  (s, [toast_success "Study materials created successfully!"; navigate "/notes"]).

Definition text_done (s : State) : State * list effect :=
  (setText "" s, [toast_success "Material processed successfully!"; navigate "/notes"]).

(** The last progress line starts with a check mark in the source; it is
    a code unit above 255 and is left out here. *)
Definition all_done : string := " All done! Your materials are ready.".

Definition handleTopicGenerate `{JSRuntime} (user : option string) : Task unit :=
  let* s := get_ui in
  if String.eqb (trim (topic s)) "" then
    perform (toast_error "Please enter a topic")
  else
    modify_ui (setLoading true) ;;
    modify_ui (setProgress []) ;;
    finally
      (try_catch
         (modify_ui (pushProgress "Generating content from AI...") ;;
          let body := [("topic", trim (topic s))] in
          let* r := await (invoke EdgeFunction.generate_from_topic body)
                      (generate EdgeFunction.generate_from_topic body) in
          match error r with
          | Some e => throw e
          | None =>
              let data := default JNull (data r) in
              modify_ui (pushProgress "Content generated! Saving to your workspace...") ;;
              let* title := prop data "title" in
              let* _ := saveMaterialAndContent user (js_or title (JStr (topic s)))
                          (topic s) "ai_generated" data in
              modify_ui (pushProgress all_done) ;;
              setTimeout topic_done 1500
          end)
         (fun e =>
            perform (console_error "Error generating from topic:" e) ;;
            perform (toast_error (message_or e "Failed to generate materials")) ;;
            modify_ui (setProgress [])))
      (modify_ui (setLoading false)).

Definition handleTextSubmit `{JSRuntime} (user : option string) : Task unit :=
  let* s := get_ui in
  if String.eqb (trim (text s)) "" then
    perform (toast_error "Please enter some text to analyze")
  else
    modify_ui (setLoading true) ;;
    modify_ui (setProgress []) ;;
    finally
      (try_catch
         (modify_ui (pushProgress "Analyzing your material...") ;;
          let body := [("content", trim (text s));
                       ("title", substring0 100 (trim (text s)) +:+ "...")] in
          let* r := await (invoke EdgeFunction.process_material body)
                      (generate EdgeFunction.process_material body) in
          match error r with
          | Some e => throw e
          | None =>
              let data := default JNull (data r) in
              modify_ui (pushProgress "Creating study materials...") ;;
              let* _ := saveMaterialAndContent user
                          (JStr (substring0 100 (text s) +:+ "..."))
                          (text s) "paste" data in
              modify_ui (pushProgress all_done) ;;
              setTimeout text_done 1500
          end)
         (fun e =>
            perform (console_error "Error processing material:" e) ;;
            perform (toast_error (message_or e "Failed to process material")) ;;
            modify_ui (setProgress [])))
      (modify_ui (setLoading false)).

Definition run_task {A} (t : Task A) (w : World) : World := snd (t w).

End Materials.

(** ** Sample data *)

Module Sample.

Definition runtime : JSRuntime :=
  {| JSON_parse := fun s => if String.eqb s "{}" then Some (JObj []) else None;
     Number_toString := fun _ => "1e+21" |}.

Definition abcd : jsval := JArr [JStr "A"; JStr "B"; JStr "C"; JStr "D"].

Definition q1 := Question.Make "q1" "First?" "multiple_choice" abcd "A" None.
Definition q2 := Question.Make "q2" "Second?" "multiple_choice" abcd "B" (Some "Because.").
Definition q3 := Question.Make "q3" "Third?" "true_false" (JArr [JStr "True"; JStr "False"]) "True" None.
(** a short-answer question, stored without options *)
Definition q4 := Question.Make "q4" "Fourth?" "short_answer" JNull "42" None.

Definition biology := Quiz.Make "quiz-1" "Osmosis - Quiz" "2025-11-05".
Definition history := Quiz.Make "quiz-2" "Rome - Quiz" "2025-11-06".

Definition storage : Quizzes.Storage :=
  {| Quizzes.quizzes_table :=
       [ {| Quizzes.user_id := "u1"; Quizzes.quiz := history |};
         {| Quizzes.user_id := "u1"; Quizzes.quiz := biology |} ];
     Quizzes.questions_table :=
       [ {| Quizzes.quiz_id := "quiz-1"; Quizzes.question := q1 |};
         {| Quizzes.quiz_id := "quiz-1"; Quizzes.question := q2 |};
         {| Quizzes.quiz_id := "quiz-2"; Quizzes.question := q4 |};
         {| Quizzes.quiz_id := "quiz-1"; Quizzes.question := q3 |};
         {| Quizzes.quiz_id := "quiz-1"; Quizzes.question := q4 |} ];
     Quizzes.quiz_attempts_table := [] |}.

(** The list of quizzes is shown and nothing is selected. *)
Definition browsing : Quizzes.State :=
  Quizzes.setLoading false (Quizzes.setQuizzes [history; biology] Quizzes.initial).

(** Three questions loaded, the first answered correctly, the second
    wrongly, the third not at all; the last question is shown. *)
Definition answered : Quizzes.State :=
  {| Quizzes.quizzes := [history; biology];
     Quizzes.selectedQuiz := Some biology;
     Quizzes.questions := [q1; q2; q3];
     Quizzes.currentQuestionIndex := 2;
     Quizzes.userAnswers := <["q2" := "C"]> (<["q1" := "A"]> ∅);
     Quizzes.showResults := false;
     Quizzes.loading := false;
     Quizzes.deleteDialogOpen := false;
     Quizzes.quizToDelete := None;
     Quizzes.deleting := false |}.

Definition quiz_world (s : Quizzes.State) (fates : nat -> fate) : Quizzes.World :=
  MkWorld s storage [] [] [] fates.

Definition all_succeed : nat -> fate := fun _ => Succeeds.
Definition first_rejects : nat -> fate :=
  fun n => match n with O => Rejects (Error "Failed to fetch") | _ => Succeeds end.
Definition first_fails : nat -> fate :=
  fun n => match n with O => Fails (Error "permission denied") | _ => Succeeds end.

End Sample.

(** ** Sample data for the materials page *)

Module SampleMaterials.

Definition card (q a : string) (d : list (string * jsval)) : jsval :=
  JObj ([("question", JStr q); ("answer", JStr a)] ++ d).

Definition quiz_question (q : string) (opts : list string) (a : string) : jsval :=
  JObj [("question", JStr q); ("type", JStr "multiple_choice");
        ("options", JArr (map JStr opts)); ("correct_answer", JStr a);
        ("explanation", JStr "See the summary.")].

Definition osmosis : jsval :=
  JObj [("title", JStr "Osmosis");
        ("summary", JStr "Water crosses a membrane towards the higher solute concentration.");
        ("flashcards",
         JArr [card "What is osmosis?" "Diffusion of water." [("difficulty", JStr "easy")];
               card "What is a solute?" "What is dissolved." []]);
        ("key_points", JArr [JStr "Water moves, solutes stay."]);
        ("examples", JArr [JStr "A raisin swelling in water."]);
        ("quiz_questions",
         JArr [quiz_question "Which way does water move?" ["In"; "Out"] "In"])].

(** Study content with an empty list of quiz questions. *)
Definition without_questions : jsval :=
  JObj [("title", JStr "Osmosis"); ("summary", JStr "Short."); ("quiz_questions", JArr [])].

(** Study content with only a summary and one quiz question. *)
Definition only_quiz : jsval :=
  JObj [("summary", JStr "Short.");
        ("quiz_questions",
         JArr [quiz_question "Which way does water move?" ["In"; "Out"] "In"])].

Definition empty_backend (content : jsval) : Materials.Backend :=
  {| Materials.materials := []; Materials.notes := []; Materials.flashcards := [];
     Materials.quizzes := []; Materials.questions := []; Materials.next_id := 0;
     Materials.generated := fun _ _ => content |}.

Definition typed (text topic : string) : Materials.State :=
  {| Materials.text := text; Materials.topic := topic;
     Materials.loading := false; Materials.progress := [] |}.

Definition page (s : Materials.State) (content : jsval) (fates : nat -> fate)
  : Materials.World :=
  MkWorld s (empty_backend content) [] [] [] fates.

Definition fates_of (l : list fate) : nat -> fate :=
  fun n => nth n l Succeeds.

End SampleMaterials.

(** ** The screens of the quiz page *)

Module QuizView.



















End QuizView.

(** ** The tutor page ([AITutor], in the same source part as the materials page) *)

(** [s.includes(sub)]. *)
Fixpoint includes (s sub : string) : bool :=
  String.prefix sub s
  || match s with
     | EmptyString => false
     | String _ rest => includes rest sub
     end.

Module Tutor.

Inductive Role : Type := user | assistant.

Record Message : Type := { role : Role; content : string }.

Inductive TutorMode : Type := socratic | stepbystep | examcoach.

Record State : Type := {
  messages : list Message;
  input : string;
  mode : TutorMode;
  loading : bool
}.

Definition setMessages v s := Build_State v (input s) (mode s) (loading s).
Definition setInput v s := Build_State (messages s) v (mode s) (loading s).
Definition setMode v s := Build_State (messages s) (input s) v (loading s).
Definition setLoading v s := Build_State (messages s) (input s) (mode s) v.

(** [setMessages((prev) => [...prev, m])] *)
Definition pushMessage (m : Message) (s : State) : State :=
  setMessages (messages s ++ [m]) s.

(** The state the component is mounted with. *)
Definition initial : State := Build_State [] "" socratic false.

(** What the [ai-tutor] function answers with, for a history and a mode. *)
Record Backend : Type := { answer : list Message -> TutorMode -> jsval }.

Inductive Request : Type :=
| invoke (body_messages : list Message) (body_mode : TutorMode).

Definition ask (ms : list Message) (m : TutorMode) (b : Backend) : jsval * Backend :=
  (answer b ms m, b).

Abbreviation World := (world State Backend Request).
Abbreviation Task := (task State Backend Request).

Definition no_reply : string :=
  "I received your message but couldn't generate a response. Could you try rephrasing that?".

(** The dash of this text is an em dash in the source, a code unit above
    255; a hyphen stands for it here. *)
Definition cannot_process : string :=
  "Hmm, I couldn't process that - want to try asking in a different way?".

Definition connection_issue : string :=
  "Oops! Looks like there's a connection issue. Check your internet and try again?".

Definition taking_longer : string :=
  "That's taking longer than expected. Mind trying again?".

Definition need_login : string :=
  "I need you to be logged in to help you. Could you check your session?".

(** [data?.reply?.trim()]; [None] is [undefined]. *)
Definition reply_text (data : jsval) : Task (option string) :=
  match data with
  | JUndefined | JNull => ret None
  | _ =>
      match default JUndefined (get data "reply") with
      | JUndefined | JNull => ret None
      | JStr s => ret (Some (trim s))
      | _ => throw (not_a_function "data?.reply?.trim")
      end
  end.

(** [text || fallback] *)
Definition or_else (text : option string) (fallback : string) : string :=
  match text with
  | Some s => if String.eqb s "" then fallback else s
  | None => fallback
  end.

(** The text shown for an error, chosen in the [catch] block. *)
Definition errorContent (e : js_error) : string :=
  if includes (message e) "network" || includes (message e) "fetch" then connection_issue
  else if includes (message e) "timeout" then taking_longer
  else if includes (message e) "unauthorized" || includes (message e) "auth" then need_login
  else cannot_process.

Definition handleSend : Task unit :=
  let* s := get_ui in
  if String.eqb (trim (input s)) "" || loading s then ret tt
  else
    let trimmedInput := trim (input s) in
    let userMessage := {| role := user; content := trimmedInput |} in
    let newMessages := messages s ++ [userMessage] in
    modify_ui (setMessages newMessages) ;;
    modify_ui (setInput "") ;;
    modify_ui (setLoading true) ;;
    finally
      (try_catch
         (let* r := await (invoke newMessages (mode s)) (ask newMessages (mode s)) in
          match error r with
          | Some e => perform (console_error "AI Tutor Error:" e) ;; throw e
          | None =>
              let* text := reply_text (default JNull (data r)) in
              let assistantMessage :=
                {| role := assistant; content := or_else text no_reply |} in
              modify_ui (pushMessage assistantMessage)
          end)
         (fun e =>
            perform (console_error "Error communicating with AI:" e) ;;
            let errorMessage := {| role := assistant; content := errorContent e |} in
            modify_ui (pushMessage errorMessage)))
      (modify_ui (setLoading false)).

(** What the user does on the page: typing in the input, choosing a mode,
    sending. *)
Inductive Op : Type :=
| Typing (value : string)
| ChooseMode (m : TutorMode)
| Send.

Definition step (o : Op) : Task unit :=
  match o with
  | Typing value => modify_ui (setInput value)
  | ChooseMode m => modify_ui (setMode m)
  | Send => handleSend
  end.

(** The world after a run of such events, each one ending before the next
    one starts. *)
Definition run (ops : list Op) (w : World) : World :=
  fold_left (fun v o => snd (step o v)) ops w.

End Tutor.

(** ** Sample data for the tutor page *)

Module SampleTutor.

Definition replies (text : jsval) : Tutor.Backend :=
  {| Tutor.answer := fun _ _ => JObj [("reply", text)] |}.

Definition page (s : Tutor.State) (text : jsval) (fates : nat -> fate) : Tutor.World :=
  MkWorld s (replies text) [] [] [] fates.

End SampleTutor.

(** * Vocabulary of the properties *)

(** The ids of the questions whose stored answer is the question's
    [correct_answer]. *)
Definition correct_ids (qs : list Question.t) (answers : gmap string string) : gset string :=
  list_to_set
    (omap (fun q => if decide (answers !! Question.id q = Some (Question.correct_answer q))
                    then Some (Question.id q) else None) qs).

(** [n] is the integer nearest to the fraction [num / den], the larger one
    when two integers are equally near. *)
Definition nearest_to (n num den : Z) : Prop :=
  2 * num - den < 2 * n * den <= 2 * num + den.

(** [options] is missing ([undefined], [null]) or empty. *)
Definition no_options (v : jsval) : bool :=
  match v with
  | JUndefined | JNull | JArr [] | JObj [] | JStr "" => true
  | _ => false
  end.

(** The index points at one of the loaded questions. *)
Definition index_in_range (s : Quizzes.State) : Prop :=
  0 <= Quizzes.currentQuestionIndex s <= Z.of_nat (length (Quizzes.questions s)) - 1.

(** Every row of [b] is still in [b'], in its place. *)
Definition keeps_rows (b b' : Materials.Backend) : Prop :=
  Materials.materials b `prefix_of` Materials.materials b' /\
  Materials.notes b `prefix_of` Materials.notes b' /\
  Materials.flashcards b `prefix_of` Materials.flashcards b' /\
  Materials.quizzes b `prefix_of` Materials.quizzes b' /\
  Materials.questions b `prefix_of` Materials.questions b'.

(** The [catch] block of [saveMaterialAndContent]. *)
Definition save_failed {A} (e : js_error) : Materials.Task A :=
  perform (console_error "Error saving to database:" e) ;; throw e.

(** [undefined] or [null]. *)
Definition nullish (v : jsval) : bool :=
  match v with JUndefined | JNull => true | _ => false end.

(** [v.name] for a [v] that is not [undefined] or [null]. *)
Definition field (v : jsval) (name : string) : jsval := default JUndefined (get v name).

(** The flashcard row and the question row made from an entry that is not
    [undefined] or [null]. *)
Definition flashcard_of (uid mid : string) (card : jsval) : Materials.Flashcard.t :=
  Materials.Flashcard.Make uid mid (field card "question") (field card "answer")
    (js_or (field card "difficulty") (JStr "medium")).

Definition question_of (qid : string) (q : jsval) : Materials.NewQuestion.t :=
  Materials.NewQuestion.Make qid (field q "question") (field q "type")
    (js_or (field q "options") JNull) (field q "correct_answer")
    (js_or (field q "explanation") JNull).

(** Only white space, or nothing at all. *)
Definition blank (s : string) : Prop :=
  forallb js_space (list_ascii_of_string s) = true.

(** The code units of a string. *)
Definition chars (s : string) : list ascii := list_ascii_of_string s.

(** The list is not empty and its first character is not white space. *)
Definition starts_dark (l : list ascii) : Prop :=
  match l with
  | c :: _ => js_space c = false
  | [] => False
  end.

(** The request passes the checks made before the completion is asked
    for, and the line logged for it can be built. *)
Definition accepted `{JSRuntime} (fn : EdgeFunction.name) (request : jsval)
    (api_key : option string) : Prop :=
  exists input key line,
    get request (EdgeFunction.required_field fn) = Some (JStr input) /\
    trim input <> "" /\ api_key = Some key /\ key <> "" /\
    EdgeFunction.log_line fn request input = Returns line.

(** A task is orderly, for a relation [grows] between storages that says
    that every row is still there, when it only adds requests and rows, and
    when a request of its own that rejects is the last one it sends and makes
    it throw the rejection. *)
Definition orderly {U B R A : Type} (grows : B -> B -> Prop) (t : task U B R A) : Prop :=
  forall w : world U B R,
    fate_of (snd (t w)) = fate_of w /\
    (exists new, requests (snd (t w)) = requests w ++ new) /\
    grows (backend w) (backend (snd (t w))) /\
    (forall (i : nat) (e : js_error),
        (length (requests w) <= i < length (requests (snd (t w))))%nat ->
        fate_of w i = Rejects e ->
        fst (t w) = Throws e /\ S i = length (requests (snd (t w)))).

(** A completion whose text is [text]. *)
Definition completion_of (text : string) : jsval :=
  JObj [("choices", JArr [JObj [("message", JObj [("content", JStr text)])]])].

(** The answer last selected for the question [i] in a run of events. *)
Definition last_selection (ops : list Quizzes.Op) (i : string) : option string :=
  fold_left (fun acc o => match o with
                          | Quizzes.AnswerSelect j a => if String.eqb j i then Some a else acc
                          | _ => acc
                          end) ops None.

(** The event moves between questions and selects nothing. *)
Definition navigation (o : Quizzes.Op) : bool :=
  match o with Quizzes.AnswerSelect _ _ => false | _ => true end.

(** A line of the console, as opposed to something shown to the user. *)
Definition is_log (x : effect) : bool :=
  match x with console_error _ _ => true | _ => false end.

(** A task is silent when it leaves the state of the component alone,
    registers no timer and shows nothing to the user: all it may add to the
    effects are console lines. *)
Definition silent {U B R A : Type} (t : task U B R A) : Prop :=
  forall w : world U B R,
    ui (snd (t w)) = ui w /\
    timers (snd (t w)) = timers w /\
    exists logs, effects (snd (t w)) = effects w ++ logs /\ forallb is_log logs = true.

(** The shape the two generation handlers share once the input has passed
    the blank check; [title_of] computes the title from the generated data
    and may throw. *)
Definition generation_run `{JSRuntime} (user : option string) (fn : EdgeFunction.name)
    (body : list (string * string)) (title_of : jsval -> completion jsval)
    (content fallback label source first second : string)
    (done : Materials.State -> Materials.State * list effect) : Materials.Task unit :=
  modify_ui (Materials.setLoading true) ;;
  modify_ui (Materials.setProgress []) ;;
  finally
    (try_catch
       (modify_ui (Materials.pushProgress first) ;;
        let* r := await (Materials.invoke fn body) (Materials.generate fn body) in
        match error r with
        | Some e => throw e
        | None =>
            let data := default JNull (data r) in
            modify_ui (Materials.pushProgress second) ;;
            let* title := (fun v => (title_of data, v)) in
            let* _ := Materials.saveMaterialAndContent user title content source data in
            modify_ui (Materials.pushProgress Materials.all_done) ;;
            setTimeout done 1500
        end)
       (fun e =>
          perform (console_error label e) ;;
          perform (toast_error (Materials.message_or e fallback)) ;;
          modify_ui (Materials.setProgress [])))
    (modify_ui (Materials.setLoading false)).

(** The title the topic handler passes on: [data.title || topic]. *)
Definition topic_title (topic : string) (data : jsval) : completion jsval :=
  match get data "title" with
  | Some x => Returns (js_or x (JStr topic))
  | None => Throws (cannot_read data "title")
  end.

Definition topic_run `{JSRuntime} (user : option string) (topic : string)
  : Materials.Task unit :=
  generation_run user EdgeFunction.generate_from_topic [("topic", trim topic)]
    (topic_title topic) topic "Failed to generate materials" "Error generating from topic:"
    "ai_generated" "Generating content from AI..."
    "Content generated! Saving to your workspace..." Materials.topic_done.

Definition text_run `{JSRuntime} (user : option string) (text : string)
  : Materials.Task unit :=
  generation_run user EdgeFunction.process_material
    [("content", trim text); ("title", substring0 100 (trim text) +:+ "...")]
    (fun _ => Returns (JStr (substring0 100 text +:+ "..."))) text
    "Failed to process material" "Error processing material:" "paste"
    "Analyzing your material..." "Creating study materials..." Materials.text_done.

(** How a run of a generation handler ended: with the success callback
    registered, or with one error notification and the progress cleared. *)
Definition ended_one_way (w w' : Materials.World) (lines : list string) (fallback : string)
    (done : Materials.State -> Materials.State * list effect) : Prop :=
  exists logs, forallb is_log logs = true /\
    ((timers w' = timers w ++ [(1500, done)] /\
      effects w' = effects w ++ logs /\
      Materials.progress (ui w') = lines) \/
     (timers w' = timers w /\
      Materials.progress (ui w') = [] /\
      exists e, effects w'
                = effects w ++ logs ++ [toast_error (Materials.message_or e fallback)])).

(** The required field of a request body is missing, falsy or a string of
    white space only: [!input || !input.trim()] for a string or falsy
    [input]. *)
Definition missing_or_blank (input : jsval) : bool :=
  negb (truthy input) || match input with JStr s => String.eqb (trim s) "" | _ => false end.

(** The statuses an edge function answers with. *)
Definition reply_statuses : list Z := [200; 400; 402; 429; 500].

(** The JSON body of an invocation whose fields are strings. *)
Definition body_json (body : list (string * string)) : jsval :=
  JObj (map (fun kv => (fst kv, JStr (snd kv))) body).

(** The error [supabase.functions.invoke] resolves with for a reply whose
    status is not a success. *)
Definition non_2xx : js_error := Error "Edge Function returned a non-2xx status code".

(** A conversation is a sequence of exchanges: a message of the user that
    is not empty, then a message of the assistant that is not empty. *)
Fixpoint exchanges (ms : list Tutor.Message) : bool :=
  match ms with
  | [] => true
  | u :: a :: rest =>
      match Tutor.role u, Tutor.role a with
      | Tutor.user, Tutor.assistant =>
          negb (String.eqb (Tutor.content u) "") && negb (String.eqb (Tutor.content a) "")
          && exchanges rest
      | _, _ => false
      end
  | [_] => false
  end.

(** The input is taken by [handleSend]. *)
Definition sendable (s : Tutor.State) : bool :=
  negb (String.eqb (trim (Tutor.input s)) "") && negb (Tutor.loading s).

(** The texts the assistant shows in place of an answer. *)
Definition apologies : list string :=
  [Tutor.no_reply; Tutor.cannot_process; Tutor.connection_issue; Tutor.taking_longer;
   Tutor.need_login].
(** * Properties *)

(** ** Scoring *)

Lemma fold_score_from (qs : list Question.t) (answers : gmap string string) (acc : Z) :
  fold_left (fun a q => a + (if Quizzes.answered_correctly answers q then 1 else 0)) qs acc
  = acc + Z.of_nat (length (List.filter (Quizzes.answered_correctly answers) qs)).
Proof.
  revert acc. induction qs as [|q qs IH]; intros acc; simpl.
  - lia.
  - rewrite IH. destruct (Quizzes.answered_correctly answers q); simpl length; lia.
Qed.

Lemma compute_score_count (qs : list Question.t) (answers : gmap string string) :
  Quizzes.compute_score qs answers
  = Z.of_nat (length (List.filter (Quizzes.answered_correctly answers) qs)).
Proof. unfold Quizzes.compute_score. rewrite fold_score_from. lia. Qed.

Lemma correct_ids_list (qs : list Question.t) (answers : gmap string string) :
  omap (fun q => if decide (answers !! Question.id q = Some (Question.correct_answer q))
                 then Some (Question.id q) else None) qs
  = map Question.id (List.filter (Quizzes.answered_correctly answers) qs).
Proof.
  induction qs as [|q qs IH]; csimpl; [reflexivity|].
  unfold Quizzes.answered_correctly at 1.
  destruct (decide (answers !! Question.id q = Some (Question.correct_answer q))) as [Heq|Hne].
  - rewrite bool_decide_eq_true_2 by exact Heq. csimpl. now rewrite IH.
  - rewrite bool_decide_eq_false_2 by exact Hne. exact IH.
Qed.

Lemma NoDup_ids_filter (f : Question.t -> bool) (qs : list Question.t) :
  NoDup (map Question.id qs) -> NoDup (map Question.id (List.filter f qs)).
Proof.
  induction qs as [|q qs IH]; simpl; intros Hnd; [constructor|].
  apply NoDup_cons in Hnd as [Hnotin Hnd].
  destruct (f q); simpl; [|auto].
  apply NoDup_cons. split; [|auto].
  intros Hin. apply Hnotin.
  apply list_elem_of_fmap in Hin as (x & Hx & Hin).
  apply list_elem_of_fmap. exists x. split; [exact Hx|].
  apply list_elem_of_In in Hin. apply filter_In in Hin as [Hin _].
  now apply list_elem_of_In.
Qed.

Lemma elem_of_correct_ids (qs : list Question.t) (answers : gmap string string) (i : string) :
  i ∈ correct_ids qs answers <->
  exists q, q ∈ qs /\ Question.id q = i /\ answers !! i = Some (Question.correct_answer q).
Proof.
  unfold correct_ids. rewrite elem_of_list_to_set, list_elem_of_omap. split.
  - intros (q & Hq & Hsome). exists q.
    destruct (decide _) as [Heq|]; [|discriminate].
    injection Hsome as <-. auto.
  - intros (q & Hq & <- & Hans). exists q. split; [exact Hq|].
    destruct (decide _) as [|Hne]; [reflexivity|contradiction].
Qed.

Lemma score_is_size_of_correct_ids (qs : list Question.t) (answers : gmap string string) :
  NoDup (map Question.id qs) ->
  Quizzes.compute_score qs answers = Z.of_nat (size (correct_ids qs answers)).
Proof.
  intros Hnd. rewrite compute_score_count. unfold correct_ids.
  rewrite correct_ids_list, size_list_to_set by now apply NoDup_ids_filter.
  now rewrite length_map.
Qed.

(** ** Rounding for display *)

Lemma nearest_integer_nearest (m : positive) (e : Z) :
  nearest_to (nearest_integer m e) (Z.pos m * 2 ^ Z.max 0 e) (2 ^ Z.max 0 (- e)).
Proof.
  unfold nearest_to, nearest_integer.
  destruct (Z.leb_spec 0 e) as [Hge|Hlt].
  - rewrite Z.max_r by lia. rewrite Z.max_l by lia. simpl (2 ^ 0). lia.
  - rewrite Z.max_l by lia. rewrite Z.max_r by lia. rewrite Z.pow_0_r.
    set (d := 2 ^ (- e)).
    assert (Hd : 0 < d) by (apply Z.pow_pos_nonneg; lia).
    pose proof (Z.div_mod (2 * Z.pos m + d) (2 * d) ltac:(lia)) as Hdm.
    pose proof (Z.mod_pos_bound (2 * Z.pos m + d) (2 * d) ltac:(lia)) as Hb.
    set (n := (2 * Z.pos m + d) / (2 * d)) in *.
    nia.
Qed.

Lemma toFixed0_rounds `{JSRuntime} (x : float) (m : positive) (e : Z) :
  Prim2SF x = S754_finite false m e ->
  at_least_1e21 m e = false ->
  exists n : Z,
    toFixed0 x = pretty n /\
    nearest_to n (Z.pos m * 2 ^ Z.max 0 e) (2 ^ Z.max 0 (- e)).
Proof.
  intros Hx Hsmall. exists (nearest_integer m e). split.
  - unfold toFixed0. rewrite Hx, Hsmall. reflexivity.
  - apply nearest_integer_nearest.
Qed.

(** ** Submitting a quiz *)

Ltac run_task :=
  cbv [Quizzes.run_task Quizzes.handleSubmit Quizzes.loadQuiz Quizzes.handleDeleteConfirm
       Quizzes.perform_ops bind try_catch finally await get_ui modify_ui perform ret throw].

Lemma handleSubmit_succeeds `{JSRuntime} (user : option string) (w : Quizzes.World) :
  fate_of w (length (requests w)) = Succeeds ->
  let s := ui w in
  let sc := Quizzes.compute_score (Quizzes.questions s) (Quizzes.userAnswers s) in
  let pct := Quizzes.compute_percentage sc (Quizzes.questions s) in
  let row := {| Quizzes.attempt_user_id := user;
                Quizzes.attempt_quiz_id := Quiz.id <$> Quizzes.selectedQuiz s;
                Quizzes.score := pct;
                Quizzes.total_questions := Z.of_nat (length (Quizzes.questions s)) |} in
  Quizzes.handleSubmit user w =
    (Returns tt,
     MkWorld (Quizzes.setShowResults true s)
       (snd (Quizzes.add_attempt row (backend w)))
       (requests w ++ [Quizzes.insert_quiz_attempt row])
       (effects w ++ [toast_success ("Quiz completed! Score: " +:+ toFixed0 pct +:+ "%")])
       (timers w) (fate_of w)).
Proof.
  intros Hfate. run_task. rewrite Hfate. reflexivity.
Qed.

Lemma handleSubmit_rejects `{JSRuntime} (user : option string) (w : Quizzes.World) (e : js_error) :
  fate_of w (length (requests w)) = Rejects e ->
  let s := ui w in
  let sc := Quizzes.compute_score (Quizzes.questions s) (Quizzes.userAnswers s) in
  let pct := Quizzes.compute_percentage sc (Quizzes.questions s) in
  let row := {| Quizzes.attempt_user_id := user;
                Quizzes.attempt_quiz_id := Quiz.id <$> Quizzes.selectedQuiz s;
                Quizzes.score := pct;
                Quizzes.total_questions := Z.of_nat (length (Quizzes.questions s)) |} in
  Quizzes.handleSubmit user w =
    (Returns tt,
     MkWorld s (backend w)
       (requests w ++ [Quizzes.insert_quiz_attempt row])
       ((effects w ++ [console_error "Error saving quiz attempt:" e])
          ++ [toast_error "Failed to save quiz results"])
       (timers w) (fate_of w)).
Proof.
  intros Hfate. run_task. rewrite Hfate. reflexivity.
Qed.

(** C1: the score computed at submit, and recomputed by the results
    screen, is the number of question ids whose stored answer is exactly the
    question's [correct_answer]; the attempt row stores the percentage
    [(score / total) * 100] as computed, unrounded; the notification and the
    results screen show it rounded to the nearest integer, so that 1 correct
    answer out of 3 is shown as 33. *)
Theorem C1_score_counts_exact_matches `{JSRuntime}
    (user : option string) (w : Quizzes.World) :
  let s := ui w in
  let qs := Quizzes.questions s in
  let answers := Quizzes.userAnswers s in
  let sc := Quizzes.compute_score qs answers in
  let pct := (Number_of_Z sc / Number_of_Z (Z.of_nat (length qs)) * 100)%float in
  let w' := Quizzes.run_task (Quizzes.handleSubmit user) w in
  NoDup (map Question.id qs) ->
  fate_of w (length (requests w)) = Succeeds ->
  sc = Z.of_nat (size (correct_ids qs answers)) /\
  (forall i, i ∈ correct_ids qs answers <->
             exists q, q ∈ qs /\ Question.id q = i /\
                       answers !! i = Some (Question.correct_answer q)) /\
  Quizzes.quiz_attempts_table (backend w') =
    Quizzes.quiz_attempts_table (backend w) ++
    [ {| Quizzes.attempt_user_id := user;
         Quizzes.attempt_quiz_id := Quiz.id <$> Quizzes.selectedQuiz s;
         Quizzes.score := pct;
         Quizzes.total_questions := Z.of_nat (length qs) |} ] /\
  effects w' = effects w ++ [toast_success ("Quiz completed! Score: " +:+ toFixed0 pct +:+ "%")] /\
  Quizzes.phase (ui w') = Quizzes.phase (Quizzes.setShowResults true s) /\
  Quizzes.shown_score (Quizzes.results_screen (ui w')) = sc /\
  Quizzes.shown_total (Quizzes.results_screen (ui w')) = Z.of_nat (length qs) /\
  Quizzes.shown_percentage (Quizzes.results_screen (ui w')) = toFixed0 pct +:+ "%" /\
  (forall m e, Prim2SF pct = S754_finite false m e -> at_least_1e21 m e = false ->
               exists n : Z, toFixed0 pct = pretty n /\
                             nearest_to n (Z.pos m * 2 ^ Z.max 0 e) (2 ^ Z.max 0 (- e))) /\
  (sc = 1 -> length qs = 3%nat -> toFixed0 pct = "33").
Proof.
  intros s qs answers sc pct w' Hnd Hfate.
  assert (Hw' : w' = snd (Quizzes.handleSubmit user w)) by reflexivity.
  rewrite (handleSubmit_succeeds user w Hfate) in Hw'. simpl in Hw'.
  split; [now apply score_is_size_of_correct_ids|].
  split; [intros i; apply elem_of_correct_ids|].
  rewrite Hw'. simpl.
  repeat split; try reflexivity.
  - intros m e Hm He. now apply toFixed0_rounds with (m := m) (e := e).
  - intros Hsc Hlen. subst pct. rewrite Hsc, Hlen. reflexivity.
Qed.

Lemma C1_score_counts_exact_matches_witness :
  let w := Sample.quiz_world Sample.answered Sample.all_succeed in
  let w' := Quizzes.run_task (Quizzes.handleSubmit (H := Sample.runtime) (Some "u1")) w in
  Quizzes.compute_score [Sample.q1; Sample.q2; Sample.q3] (Quizzes.userAnswers Sample.answered) = 1 /\
  size (correct_ids [Sample.q1; Sample.q2; Sample.q3] (Quizzes.userAnswers Sample.answered)) = 1%nat /\
  map Quizzes.total_questions (Quizzes.quiz_attempts_table (backend w')) = [3] /\
  map (fun a => Prim2SF (Quizzes.score a)) (Quizzes.quiz_attempts_table (backend w'))
    = [S754_finite false 4691249611844266 (-47)] /\
  effects w' = [toast_success "Quiz completed! Score: 33%"].
Proof.
  intros w w'.
  assert (Hnd : NoDup (map Question.id (Quizzes.questions (ui w)))).
  { apply (bool_decide_unpack _). vm_compute. exact I. }
  destruct (C1_score_counts_exact_matches (H := Sample.runtime) (Some "u1") w Hnd eq_refl)
    as (Hsc & _ & Hrow & Hfx & _).
  split; [vm_compute; reflexivity|].
  split; [vm_compute; reflexivity|].
  fold w' in Hrow, Hfx. rewrite Hrow, Hfx.
  split; [reflexivity|]. split; vm_compute; reflexivity.
Defined.

(** C3, as the code has it: when the insert of the attempt rejects, the
    error is logged and reported and nothing else changes, so the results
    screen is not entered; when the insert succeeds, the results screen is
    entered and the notification carries the locally computed score. *)
Theorem C3_results_entered_only_when_insert_returns `{JSRuntime}
    (user : option string) (w : Quizzes.World) :
  let s := ui w in
  let pct := Quizzes.compute_percentage
               (Quizzes.compute_score (Quizzes.questions s) (Quizzes.userAnswers s))
               (Quizzes.questions s) in
  let w' := Quizzes.run_task (Quizzes.handleSubmit user) w in
  (forall e, fate_of w (length (requests w)) = Rejects e ->
     ui w' = s /\
     backend w' = backend w /\
     effects w' = effects w ++ [console_error "Error saving quiz attempt:" e;
                                toast_error "Failed to save quiz results"]) /\
  (fate_of w (length (requests w)) = Succeeds ->
     ui w' = Quizzes.setShowResults true s /\
     effects w' = effects w ++
                  [toast_success ("Quiz completed! Score: " +:+ toFixed0 pct +:+ "%")]).
Proof.
  intros s pct w'. split.
  - intros e Hfate.
    assert (Hw' : w' = snd (Quizzes.handleSubmit user w)) by reflexivity.
    rewrite (handleSubmit_rejects user w e Hfate) in Hw'. rewrite Hw'. simpl.
    rewrite <- app_assoc. auto.
  - intros Hfate.
    assert (Hw' : w' = snd (Quizzes.handleSubmit user w)) by reflexivity.
    rewrite (handleSubmit_succeeds user w Hfate) in Hw'. rewrite Hw'. simpl. auto.
Qed.

Lemma C3_results_entered_only_when_insert_returns_witness :
  let w := Sample.quiz_world Sample.answered Sample.first_rejects in
  let w' := Quizzes.run_task (Quizzes.handleSubmit (H := Sample.runtime) (Some "u1")) w in
  Quizzes.phase (ui w') = Quizzes.InProgress /\
  effects w' = [console_error "Error saving quiz attempt:" (Error "Failed to fetch");
                toast_error "Failed to save quiz results"] /\
  let v := Sample.quiz_world Sample.answered Sample.all_succeed in
  let v' := Quizzes.run_task (Quizzes.handleSubmit (H := Sample.runtime) (Some "u1")) v in
  Quizzes.phase (ui v') = Quizzes.Results /\
  effects v' = [toast_success "Quiz completed! Score: 33%"].
Proof.
  intros w w'.
  destruct (C3_results_entered_only_when_insert_returns (H := Sample.runtime) (Some "u1") w)
    as [Hrej _].
  destruct (Hrej (Error "Failed to fetch") eq_refl) as (Hui & _ & Hfx).
  fold w' in Hui, Hfx. rewrite Hui, Hfx.
  split; [reflexivity|]. split; [reflexivity|].
  intros v v'.
  destruct (C3_results_entered_only_when_insert_returns (H := Sample.runtime) (Some "u1") v)
    as [_ Hok].
  destruct (Hok eq_refl) as (Hui' & Hfx').
  fold v' in Hui', Hfx'. rewrite Hui', Hfx'.
  split; vm_compute; reflexivity.
Defined.

(** C3 as stated fails: with an insert that rejects, the error is reported
    but the results screen is not entered; with an insert that resolves with
    an error, the results screen is entered but no error is reported. *)
Lemma C3_counterexample :
  (let w := Sample.quiz_world Sample.answered Sample.first_rejects in
   let w' := Quizzes.run_task (Quizzes.handleSubmit (H := Sample.runtime) (Some "u1")) w in
   fate_of w (length (requests w)) = Rejects (Error "Failed to fetch") /\
   ~ (toast_error "Failed to save quiz results" ∈ effects w' /\
      Quizzes.phase (ui w') = Quizzes.Results)) /\
  (let w := Sample.quiz_world Sample.answered Sample.first_fails in
   let w' := Quizzes.run_task (Quizzes.handleSubmit (H := Sample.runtime) (Some "u1")) w in
   fate_of w (length (requests w)) = Fails (Error "permission denied") /\
   ~ (toast_error "Failed to save quiz results" ∈ effects w' /\
      Quizzes.phase (ui w') = Quizzes.Results)).
Proof.
  split.
  - split; [reflexivity|]. intros [_ Hphase]. vm_compute in Hphase. discriminate.
  - split; [reflexivity|]. intros [Hin _]. vm_compute in Hin.
    apply list_elem_of_singleton in Hin. discriminate.
Qed.

(** ** Loading a quiz *)

Lemma setLoading_same (s : Quizzes.State) :
  Quizzes.loading s = false -> Quizzes.setLoading false s = s.
Proof. destruct s; simpl; intros ->; reflexivity. Qed.

Lemma phase_Browsing_not_loading (s : Quizzes.State) :
  Quizzes.phase s = Quizzes.Browsing ->
  Quizzes.loading s = false /\ Quizzes.selectedQuiz s = None.
Proof.
  unfold Quizzes.phase. destruct (Quizzes.loading s); [discriminate|].
  destruct (Quizzes.selectedQuiz s); [|auto].
  destruct (Quizzes.showResults s); discriminate.
Qed.

Lemma has_options_not_missing (x : Question.t) :
  Quizzes.has_options x = true -> no_options (Question.options x) = false.
Proof.
  unfold Quizzes.has_options. destruct (Question.options x) as [| |b|f|s|items|props]; simpl;
    try discriminate; try reflexivity.
  - destruct s; [discriminate|reflexivity].
  - destruct items; [discriminate|reflexivity].
  - destruct props; [discriminate|reflexivity].
Qed.

Lemma loadQuiz_fetched (q : Quiz.t) (w : Quizzes.World) :
  fate_of w (length (requests w)) = Succeeds ->
  let fetched := Quizzes.stored_questions (Quiz.id q) (backend w) in
  let playable := List.filter Quizzes.has_options fetched in
  let s := ui w in
  Quizzes.loadQuiz q w =
    (Returns tt,
     MkWorld
       (if Z.of_nat (length playable) =? 0 then Quizzes.setLoading false s
        else Quizzes.Build_State (Quizzes.quizzes s) (Some q) playable 0 ∅ false false
               (Quizzes.deleteDialogOpen s) (Quizzes.quizToDelete s) (Quizzes.deleting s))
       (backend w)
       (requests w ++ [Quizzes.select_questions (Quiz.id q)])
       (if Z.of_nat (length playable) =? 0
        then effects w ++ [toast_error "No valid multiple choice questions found in this quiz"]
        else effects w)
       (timers w) (fate_of w)).
Proof.
  intros Hfate fetched playable s. subst playable fetched s.
  run_task. cbn [fate_of requests]. rewrite Hfate.
  cbv [Quizzes.rows_of_quiz]. cbn [ui backend requests effects timers fate_of error data].
  unfold default, id.
  match goal with |- context [Z.of_nat ?n =? 0] => destruct (Z.of_nat n =? 0) end;
    reflexivity.
Qed.

(** C4: loading a quiz keeps no question whose [options] is missing or
    empty; when no question is left the load reports an error, sends
    nothing else, and leaves the browsing state as it was: no quiz selected,
    and the questions, the index and the answers unchanged. *)
Theorem C4_load_excludes_questions_without_options (q : Quiz.t) (w : Quizzes.World) :
  let fetched := Quizzes.stored_questions (Quiz.id q) (backend w) in
  let playable := List.filter Quizzes.has_options fetched in
  let w' := Quizzes.run_task (Quizzes.loadQuiz q) w in
  fate_of w (length (requests w)) = Succeeds ->
  (forall x, no_options (Question.options x) = true -> x ∉ playable) /\
  (playable <> [] ->
     Quizzes.questions (ui w') = playable /\
     Quizzes.selectedQuiz (ui w') = Some q /\
     Quizzes.currentQuestionIndex (ui w') = 0 /\
     Quizzes.userAnswers (ui w') = ∅ /\
     Quizzes.phase (ui w') = Quizzes.InProgress) /\
  (playable = [] ->
     effects w' =
       effects w ++ [toast_error "No valid multiple choice questions found in this quiz"] /\
     backend w' = backend w /\
     ui w' = Quizzes.setLoading false (ui w) /\
     (Quizzes.phase (ui w) = Quizzes.Browsing ->
        ui w' = ui w /\ Quizzes.phase (ui w') = Quizzes.Browsing)).
Proof.
  intros fetched playable w' Hfate.
  assert (Hw' : w' = snd (Quizzes.loadQuiz q w)) by reflexivity.
  rewrite (loadQuiz_fetched q w Hfate) in Hw'. cbn [snd] in Hw'.
  fold fetched in Hw'. fold playable in Hw'.
  split; [|split].
  - intros x Hno Hin. apply list_elem_of_In, filter_In in Hin as [_ Hopt].
    apply has_options_not_missing in Hopt. congruence.
  - intros Hne.
    destruct (Z.eqb_spec (Z.of_nat (length playable)) 0) as [Hz|_].
    + destruct playable; [contradiction|simpl in Hz; lia].
    + rewrite Hw'. simpl. repeat split; reflexivity.
  - intros Hempty. rewrite Hempty in Hw'. simpl in Hw'. rewrite Hw'. simpl.
    repeat split; try reflexivity.
    + apply setLoading_same. now apply phase_Browsing_not_loading.
    + rewrite setLoading_same by now apply phase_Browsing_not_loading. assumption.
Qed.

Lemma C4_load_excludes_questions_without_options_witness :
  let w := Sample.quiz_world Sample.browsing Sample.all_succeed in
  let w1 := Quizzes.run_task (Quizzes.loadQuiz Sample.biology) w in
  let w2 := Quizzes.run_task (Quizzes.loadQuiz Sample.history) w in
  ((Sample.q4 ∉ Quizzes.questions (ui w1)) /\
   Quizzes.questions (ui w1) = [Sample.q1; Sample.q2; Sample.q3]) /\
  (ui w2 = Sample.browsing /\
   Quizzes.phase (ui w2) = Quizzes.Browsing /\
   effects w2 = [toast_error "No valid multiple choice questions found in this quiz"]).
Proof.
  intros w w1 w2. subst w1 w2. split.
  - destruct (C4_load_excludes_questions_without_options Sample.biology w eq_refl)
      as (Hdrop & Hsome & _).
    destruct Hsome as (Hqs & _); [discriminate|].
    rewrite Hqs. split; [|reflexivity].
    apply Hdrop. reflexivity.
  - destruct (C4_load_excludes_questions_without_options Sample.history w eq_refl)
      as (_ & _ & Hnone).
    destruct Hnone as (Hfx & _ & _ & Hstay); [reflexivity|].
    destruct Hstay as [Hui Hphase]; [reflexivity|].
    rewrite Hfx, Hui. repeat split; reflexivity.
Defined.

(** ** Navigation *)

Lemma step_questions (s : Quizzes.State) (o : Quizzes.Op) :
  Quizzes.questions (Quizzes.step s o) = Quizzes.questions s /\
  Quizzes.selectedQuiz (Quizzes.step s o) = Quizzes.selectedQuiz s.
Proof.
  destruct o; simpl; unfold Quizzes.handleNext, Quizzes.handlePrevious;
    repeat match goal with |- context [if ?c then _ else _] => destruct c end; auto.
Qed.

Lemma steps_questions (ops : list Quizzes.Op) (s : Quizzes.State) :
  Quizzes.questions (fold_left Quizzes.step ops s) = Quizzes.questions s /\
  Quizzes.selectedQuiz (fold_left Quizzes.step ops s) = Quizzes.selectedQuiz s.
Proof.
  revert s. induction ops as [|o ops IH]; intros s; simpl; [auto|].
  destruct (IH (Quizzes.step s o)) as [-> ->]. apply step_questions.
Qed.

Lemma step_in_range (s : Quizzes.State) (o : Quizzes.Op) :
  index_in_range s -> index_in_range (Quizzes.step s o).
Proof.
  unfold index_in_range. intros Hr.
  destruct o; simpl; unfold Quizzes.handleNext, Quizzes.handlePrevious.
  - destruct (Z.ltb_spec (Quizzes.currentQuestionIndex s)
                (Z.of_nat (length (Quizzes.questions s)) - 1)); simpl; lia.
  - destruct (Z.ltb_spec 0 (Quizzes.currentQuestionIndex s)); simpl; lia.
  - simpl. lia.
Qed.

Lemma steps_in_range (ops : list Quizzes.Op) (s : Quizzes.State) :
  index_in_range s -> index_in_range (fold_left Quizzes.step ops s).
Proof.
  revert s. induction ops as [|o ops IH]; intros s Hr; simpl; [assumption|].
  apply IH. now apply step_in_range.
Qed.

(** C8: in a session in progress, [Previous] at index 0 and [Next] at the
    last index change nothing; elsewhere they move the index by exactly
    one; and after any sequence of [Next], [Previous] and answer selections
    the index is still within [0, count - 1]. *)
Theorem C8_navigation_is_clamped (s : Quizzes.State) (ops : list Quizzes.Op) :
  let count := Z.of_nat (length (Quizzes.questions s)) in
  let i := Quizzes.currentQuestionIndex s in
  0 <= i <= count - 1 ->
  (i = 0 -> Quizzes.handlePrevious s = s) /\
  (i = count - 1 -> Quizzes.handleNext s = s) /\
  (0 < i -> Quizzes.handlePrevious s = Quizzes.setCurrentQuestionIndex (i - 1) s) /\
  (i < count - 1 -> Quizzes.handleNext s = Quizzes.setCurrentQuestionIndex (i + 1) s) /\
  Quizzes.currentQuestionIndex (Quizzes.handlePrevious s) = Z.max 0 (i - 1) /\
  Quizzes.currentQuestionIndex (Quizzes.handleNext s) = Z.min (count - 1) (i + 1) /\
  0 <= Quizzes.currentQuestionIndex (fold_left Quizzes.step ops s) <= count - 1 /\
  Quizzes.questions (fold_left Quizzes.step ops s) = Quizzes.questions s.
Proof.
  intros count i Hr.
  pose proof (steps_in_range ops s Hr) as Hseq.
  pose proof (steps_questions ops s) as [Hqs _].
  unfold index_in_range in Hseq. rewrite Hqs in Hseq. fold count in Hseq.
  unfold Quizzes.handlePrevious, Quizzes.handleNext. fold i. fold count.
  destruct (Z.ltb_spec 0 i) as [Hp|Hp];
    destruct (Z.ltb_spec i (count - 1)) as [Hn|Hn];
    cbn [Quizzes.currentQuestionIndex Quizzes.setCurrentQuestionIndex]; fold i;
    repeat split; intros; try reflexivity; try lia; try exact Hqs.
Qed.

Lemma C8_navigation_is_clamped_witness :
  Quizzes.currentQuestionIndex
    (fold_left Quizzes.step
       [Quizzes.Next; Quizzes.Next; Quizzes.AnswerSelect "q3" "True";
        Quizzes.Previous; Quizzes.Previous; Quizzes.Previous; Quizzes.Previous;
        Quizzes.Next; Quizzes.Next; Quizzes.Next]
       Sample.answered) <= 2 /\
  Quizzes.handleNext Sample.answered = Sample.answered.
Proof.
  assert (Hr : 0 <= Quizzes.currentQuestionIndex Sample.answered
               <= Z.of_nat (length (Quizzes.questions Sample.answered)) - 1)
    by (simpl; lia).
  destruct (C8_navigation_is_clamped Sample.answered
              [Quizzes.Next; Quizzes.Next; Quizzes.AnswerSelect "q3" "True";
               Quizzes.Previous; Quizzes.Previous; Quizzes.Previous; Quizzes.Previous;
               Quizzes.Next; Quizzes.Next; Quizzes.Next] Hr)
    as (_ & Hlast & _ & _ & _ & _ & Hseq & _).
  split; [apply Hseq | apply Hlast; reflexivity].
Defined.

(** ** Deleting a quiz *)

Lemma length_snoc {A} (l : list A) (x : A) : length (l ++ [x]) = S (length l).
Proof. rewrite length_app. simpl. lia. Qed.

Lemma handleDeleteConfirm_run (user : option string) (w : Quizzes.World) (qid : string) :
  Quizzes.quizToDelete (ui w) = Some qid -> qid <> "" ->
  let s := ui w in
  let n := length (requests w) in
  let done :=
    MkWorld
      (Quizzes.setDeleting false
         (Quizzes.setQuizToDelete None
            (Quizzes.setDeleteDialogOpen false
               (Quizzes.setQuizzes (filter (fun q => Quiz.id q ≠ qid) (Quizzes.quizzes s))
                  (Quizzes.setDeleting true s)))))
      (snd (Quizzes.drop_quiz user qid (backend w)))
      (requests w ++ [Quizzes.delete_questions qid; Quizzes.delete_quiz qid])
      (effects w ++ [toast_success "Quiz deleted successfully!"])
      (timers w) (fate_of w) in
  let failed reqs e :=
    MkWorld (Quizzes.setDeleting false (Quizzes.setDeleting true s)) (backend w)
      (requests w ++ reqs)
      (effects w ++ [console_error "Error deleting quiz:" e; toast_error "Failed to delete quiz"])
      (timers w) (fate_of w) in
  Quizzes.run_task (Quizzes.handleDeleteConfirm user) w =
    match fate_of w n with
    | Succeeds =>
        match fate_of w (S n) with
        | Succeeds => done
        | Fails e | Rejects e =>
            failed [Quizzes.delete_questions qid; Quizzes.delete_quiz qid] e
        end
    | Fails e | Rejects e => failed [Quizzes.delete_questions qid] e
    end.
Proof.
  intros Hq Hne s n done failed. subst s n done failed.
  run_task. rewrite Hq.
  destruct qid as [|c qid]; [contradiction|].
  cbv [Quizzes.drop_questions].
  cbn [fate_of requests ui backend effects timers].
  destruct (fate_of w (length (requests w))) as [|e|e];
    cbn [fate_of requests ui backend effects timers error data snd fst];
    [|rewrite <- app_assoc; reflexivity|rewrite <- app_assoc; reflexivity].
  rewrite length_snoc.
  destruct (fate_of w (S (length (requests w)))) as [|e|e];
    cbn [fate_of requests ui backend effects timers error data snd fst];
    [|rewrite <- !app_assoc; reflexivity|rewrite <- !app_assoc; reflexivity].
  destruct (Quizzes.drop_quiz user (String c qid) (backend w)) as [[] b'].
  cbn [fate_of requests ui backend effects timers error data snd fst].
  rewrite <- !app_assoc. reflexivity.
Qed.

Lemma drop_quiz_tables (user : option string) (qid : string) (b : Quizzes.Storage) :
  let owned r := Quiz.id (Quizzes.quiz r) = qid /\ user = Some (Quizzes.user_id r) in
  let after := snd (Quizzes.drop_quiz user qid b) in
  Quizzes.quizzes_table after = filter (fun r => ¬ owned r) (Quizzes.quizzes_table b) /\
  (Exists owned (Quizzes.quizzes_table b) ->
     Quizzes.questions_table after
       = filter (fun r => Quizzes.quiz_id r ≠ qid) (Quizzes.questions_table b) /\
     Quizzes.quiz_attempts_table after
       = filter (fun a => Quizzes.attempt_quiz_id a ≠ Some qid) (Quizzes.quiz_attempts_table b)) /\
  (~ Exists owned (Quizzes.quizzes_table b) -> after = b).
Proof.
  intros owned after. subst after. unfold Quizzes.drop_quiz. fold owned.
  destruct (bool_decide_reflect (Exists owned (Quizzes.quizzes_table b))) as [Hex|Hno];
    cbn [snd Quizzes.quizzes_table Quizzes.questions_table Quizzes.quiz_attempts_table].
  - split; [reflexivity|]. split; [auto|]. intros Hc. contradiction.
  - split; [|split; [intros Hc; contradiction|reflexivity]].
    symmetry. induction (Quizzes.quizzes_table b) as [|r l IH]; [reflexivity|].
    rewrite filter_cons. rewrite decide_True.
    + f_equal. apply IH. intros Hc. apply Hno. now apply Exists_cons_tl.
    + intros Hc. apply Hno. now apply Exists_cons_hd.
Qed.




(** ** The attempt row *)

(** C10: the attempt row written at submit records, as [total_questions],
    the number of questions that passed the options filter at load time, and
    its score is the percentage over that same number. *)
Theorem C10_attempt_total_is_playable_count `{JSRuntime}
    (user : option string) (q : Quiz.t) (ops : list Quizzes.Op) (w : Quizzes.World) :
  let n := length (requests w) in
  let playable :=
    List.filter Quizzes.has_options (Quizzes.stored_questions (Quiz.id q) (backend w)) in
  let w' := Quizzes.run_task
              (Quizzes.loadQuiz q ;; Quizzes.perform_ops ops ;; Quizzes.handleSubmit user) w in
  fate_of w n = Succeeds -> fate_of w (S n) = Succeeds -> playable <> [] ->
  exists answers : gmap string string,
    Quizzes.quiz_attempts_table (backend w') =
      Quizzes.quiz_attempts_table (backend w) ++
      [ {| Quizzes.attempt_user_id := user;
           Quizzes.attempt_quiz_id := Some (Quiz.id q);
           Quizzes.score :=
             (Number_of_Z (Quizzes.compute_score playable answers)
              / Number_of_Z (Z.of_nat (length playable)) * 100)%float;
           Quizzes.total_questions := Z.of_nat (length playable) |} ].
Proof.
  intros n playable w' H1 H2 Hne.
  pose proof (loadQuiz_fetched q w H1) as Hload. cbv zeta in Hload. fold playable in Hload.
  destruct (Z.eqb_spec (Z.of_nat (length playable)) 0) as [Hz|_].
  { destruct playable; [contradiction|simpl in Hz; lia]. }
  set (s1 := Quizzes.Build_State (Quizzes.quizzes (ui w)) (Some q) playable 0 ∅ false false
               (Quizzes.deleteDialogOpen (ui w)) (Quizzes.quizToDelete (ui w))
               (Quizzes.deleting (ui w))) in *.
  set (s2 := fold_left Quizzes.step ops s1).
  exists (Quizzes.userAnswers s2).
  destruct (steps_questions ops s1) as [Hqs Hsel]. fold s2 in Hqs, Hsel.
  subst w'. unfold Quizzes.run_task, bind at 1. rewrite Hload.
  unfold bind at 1, Quizzes.perform_ops, modify_ui. cbn [ui backend requests effects timers fate_of].
  fold s2.
  match goal with |- context [Quizzes.handleSubmit user ?v] => set (w2 := v) end.
  assert (Hf : fate_of w2 (length (requests w2)) = Succeeds).
  { subst w2. cbn [fate_of requests]. rewrite length_snoc. exact H2. }
  rewrite (handleSubmit_succeeds user w2 Hf).
  subst w2. cbn [snd backend ui Quizzes.add_attempt Quizzes.quiz_attempts_table].
  rewrite Hqs, Hsel. reflexivity.
Qed.

Lemma C10_attempt_total_is_playable_count_witness :
  let w := Sample.quiz_world Sample.browsing Sample.all_succeed in
  let ops := [Quizzes.AnswerSelect "q1" "A"; Quizzes.Next; Quizzes.AnswerSelect "q2" "C";
              Quizzes.Next] in
  let w' := Quizzes.run_task
              (Quizzes.loadQuiz Sample.biology ;; Quizzes.perform_ops ops ;;
               Quizzes.handleSubmit (H := Sample.runtime) (Some "u1")) w in
  length (Quizzes.stored_questions "quiz-1" (backend w)) = 4%nat /\
  map Quizzes.total_questions (Quizzes.quiz_attempts_table (backend w')) = [3].
Proof.
  intros w ops w'. split; [reflexivity|].
  destruct (C10_attempt_total_is_playable_count (H := Sample.runtime) (Some "u1")
              Sample.biology ops w eq_refl eq_refl ltac:(discriminate)) as [answers Hrow].
  fold w' in Hrow. rewrite Hrow. reflexivity.
Defined.
(** ** Tasks that stop at the first rejected request *)

Section Orderly.
Context {U B R : Type}.
(** [grows b b']: the storage [b'] holds every row of [b]. *)
Variable grows : B -> B -> Prop.
Hypothesis grows_refl : forall b, grows b b.
Hypothesis grows_trans : forall b1 b2 b3, grows b1 b2 -> grows b2 b3 -> grows b1 b3.

Lemma orderly_quiet {A} (t : task U B R A) :
  (forall w, fate_of (snd (t w)) = fate_of w /\
             requests (snd (t w)) = requests w /\
             backend (snd (t w)) = backend w) ->
  @orderly U B R _ grows t.
Proof.
  intros Hq w. destruct (Hq w) as (Hf & Hr & Hb).
  split; [exact Hf|]. split; [exists []; now rewrite app_nil_r|].
  split; [rewrite Hb; apply grows_refl|].
  intros i e Hi. rewrite Hr in Hi. lia.
Qed.

Lemma orderly_ret {A} (a : A) : @orderly U B R _ grows (ret a).
Proof. apply orderly_quiet. intros w. auto. Qed.

Lemma orderly_throw {A} (e : js_error) : @orderly U B R _ grows (throw (A := A) e).
Proof. apply orderly_quiet. intros w. auto. Qed.

Lemma orderly_perform (x : effect) : @orderly U B R _ grows (perform x).
Proof. apply orderly_quiet. intros w. auto. Qed.

Lemma orderly_modify_ui (f : U -> U) : @orderly U B R _ grows (modify_ui f).
Proof. apply orderly_quiet. intros w. auto. Qed.

Lemma orderly_get_ui : @orderly U B R _ grows get_ui.
Proof. apply orderly_quiet. intros w. auto. Qed.

Lemma orderly_prop (v : jsval) (name : string) : @orderly U B R _ grows (prop v name).
Proof. unfold prop. destruct (get v name); [apply orderly_ret|apply orderly_throw]. Qed.

Lemma orderly_text_of `{JSRuntime} (v : jsval) : @orderly U B R _ grows (text_of v).
Proof. apply orderly_quiet. intros w. auto. Qed.

Lemma orderly_await {A} (r : R) (exec : B -> A * B) :
  (forall b, grows b (snd (exec b))) -> @orderly U B R _ grows (await r exec).
Proof.
  intros Hexec w. unfold await.
  destruct (fate_of w (length (requests w))) as [|e|e] eqn:Hfate;
    [destruct (exec (backend w)) as [a b'] eqn:Hx|..]; cbn [fst snd fate_of requests backend];
    (split; [reflexivity|]); (split; [eexists; reflexivity|]);
    (split; [try apply grows_refl; try (specialize (Hexec (backend w)); now rewrite Hx in Hexec)|]);
    intros i e' Hi Hrej; rewrite length_app in Hi; simpl in Hi;
    assert (i = length (requests w)) as -> by lia;
    rewrite Hfate in Hrej; try discriminate.
  injection Hrej as ->. split; [reflexivity|]. rewrite length_app. simpl. lia.
Qed.

Lemma orderly_bind {A C} (t : task U B R A) (k : A -> task U B R C) :
  @orderly U B R _ grows t -> (forall a, @orderly U B R _ grows (k a)) -> @orderly U B R _ grows (bind t k).
Proof.
  intros Ht Hk w. unfold bind.
  destruct (Ht w) as (Hf & (new & Hr) & Hg & Hrej).
  destruct (t w) as [[a|e0] w1] eqn:Htw; cbn [fst snd] in *.
  - destruct (Hk a w1) as (Hf' & (new' & Hr') & Hg' & Hrej').
    destruct (k a w1) as [r w2] eqn:Hkw; cbn [fst snd] in *.
    split; [congruence|].
    split; [exists (new ++ new'); rewrite Hr', Hr; now rewrite app_assoc|].
    split; [eapply grows_trans; eassumption|].
    intros i e Hi Hfate.
    destruct (Nat.lt_ge_cases i (length (requests w1))) as [Hlt|Hge].
    + destruct (Hrej i e) as [Hthrow _]; [lia|exact Hfate|discriminate].
    + apply Hrej'; [lia|congruence].
  - split; [exact Hf|]. split; [exists new; exact Hr|]. split; [exact Hg|].
    intros i e Hi Hfate. destruct (Hrej i e Hi Hfate) as [Hthrow Hlast].
    split; [congruence|exact Hlast].
Qed.

(** [try { body } catch (e) { log; throw e }] *)
Lemma orderly_rethrow {A} (body : task U B R A) (log : js_error -> effect) :
  @orderly U B R _ grows body ->
  @orderly U B R _ grows (try_catch body (fun e => bind (perform (log e)) (fun _ => throw e))).
Proof.
  intros Hb w. unfold try_catch, bind, perform, throw.
  destruct (Hb w) as (Hf & Hr & Hg & Hrej).
  destruct (body w) as [[a|e0] w1]; cbn [fst snd fate_of requests backend] in *; auto.
Qed.

Lemma orderly_Array_map {A} (f : jsval -> task U B R A) (items : list jsval) :
  (forall i, @orderly U B R _ grows (f i)) -> @orderly U B R _ grows (Array_map f items).
Proof.
  intros Hf. induction items as [|i rest IH]; simpl.
  - apply orderly_ret.
  - apply orderly_bind; [apply Hf|]. intros x.
    apply orderly_bind; [exact IH|]. intros xs. apply orderly_ret.
Qed.
End Orderly.

(** ** The persistence fan-out *)

Lemma keeps_rows_refl (b : Materials.Backend) : keeps_rows b b.
Proof. unfold keeps_rows. repeat split; reflexivity. Qed.

Lemma keeps_rows_trans (b1 b2 b3 : Materials.Backend) :
  keeps_rows b1 b2 -> keeps_rows b2 b3 -> keeps_rows b1 b3.
Proof.
  unfold keeps_rows. intros (?&?&?&?&?) (?&?&?&?&?).
  repeat split; etransitivity; eassumption.
Qed.

Ltac rows_kept :=
  intros b; unfold keeps_rows; cbn;
  repeat split; try reflexivity; apply prefix_app_r; reflexivity.

Lemma id_of_orderly {A} (row : option (string * A)) :
  orderly keeps_rows (Materials.id_of row).
Proof.
  unfold Materials.id_of. destruct row as [[i x]|];
    [apply orderly_ret|apply orderly_throw]; apply keeps_rows_refl.
Qed.

Create HintDb orderly.
#[local] Hint Resolve keeps_rows_refl keeps_rows_trans : orderly.
#[local] Hint Resolve orderly_ret orderly_throw orderly_perform orderly_modify_ui
  orderly_get_ui orderly_prop orderly_text_of orderly_Array_map id_of_orderly : orderly.

Ltac orderly_step :=
  match goal with
  | |- forall _, _ => intro
  | |- orderly _ (bind _ _) => apply orderly_bind; [exact keeps_rows_trans| |]
  | |- orderly _ (await _ _) => apply orderly_await; [exact keeps_rows_refl|rows_kept]
  | |- orderly _ (Array_map _ _) => apply orderly_Array_map; [exact keeps_rows_refl|exact keeps_rows_trans|]
  | |- orderly _ (if ?c then _ else _) => destruct c
  | |- orderly _ (match ?x with _ => _ end) => destruct x
  | |- orderly _ _ => solve [eauto with orderly]
  end.

Lemma save_derived_content_orderly `{JSRuntime} (uid : string) (materialTitle : jsval)
    (generatedData summary : jsval) (material : option (string * Materials.Material.t)) :
  orderly keeps_rows
    (Materials.save_derived_content uid materialTitle generatedData summary material).
Proof.
  unfold Materials.save_derived_content, Materials.save_notes, Materials.save_flashcards,
    Materials.save_quiz, Materials.flashcard_row, Materials.question_row.
  repeat orderly_step.
Qed.

Lemma saveMaterialAndContent_orderly `{JSRuntime} (user : option string)
    (materialTitle : jsval) (materialContent sourceType : string) (generatedData : jsval) :
  orderly keeps_rows
    (Materials.saveMaterialAndContent user materialTitle materialContent sourceType
       generatedData).
Proof.
  unfold Materials.saveMaterialAndContent.
  destruct user as [uid|]; [|eauto with orderly].
  apply orderly_rethrow.
  pose proof save_derived_content_orderly.
  repeat orderly_step.
Qed.

Lemma saveMaterialAndContent_head `{JSRuntime} (uid : string)
    (materialTitle : jsval) (materialContent sourceType : string)
    (generatedData summary : jsval) (w : Materials.World) :
  let row := Materials.Material.Make uid materialTitle materialContent sourceType summary in
  let sent b :=
    MkWorld (ui w) b (requests w ++ [Materials.insert_material row]) (effects w) (timers w)
      (fate_of w) in
  get generatedData "summary" = Some summary ->
  Materials.saveMaterialAndContent (Some uid) materialTitle materialContent sourceType
    generatedData w =
  match fate_of w (length (requests w)) with
  | Succeeds =>
      try_catch
        (Materials.save_derived_content uid materialTitle generatedData summary
           (Some (Materials.fresh_id (backend w), row)))
        save_failed
        (sent (snd (Materials.add_material row (backend w))))
  | Fails e | Rejects e => save_failed e (sent (backend w))
  end.
Proof.
  intros row sent Hsum. subst row sent.
  unfold Materials.saveMaterialAndContent, prop. rewrite Hsum.
  cbv [try_catch bind ret await throw perform save_failed].
  destruct (fate_of w (length (requests w))); reflexivity.
Qed.

Lemma get_field (v : jsval) (name : string) :
  nullish v = false -> get v name = Some (field v name).
Proof. unfold field. destruct v; simpl; intros Hn; try discriminate; reflexivity. Qed.

Lemma truthy_array (v : jsval) : truthy v && Array_isArray v = Array_isArray v.
Proof. destruct v; simpl; try reflexivity; apply andb_false_r. Qed.

(** C2, as the code has it: the material insert either commits the
    material row or makes the fan-out throw with nothing written; a request
    of any step that rejects is the last request the fan-out sends and makes
    it throw; whatever happens, no row committed before or during the
    fan-out is removed; a quiz insert that resolves with an error ends the
    quiz step without a throw and without an insert of questions; and a title
    that cannot be converted to a string makes the note step and the quiz
    step throw before their insert is sent. *)
Theorem C2_fanout_aborts_without_rollback `{JSRuntime} (uid : string)
    (materialTitle : jsval) (materialContent sourceType : string)
    (generatedData summary : jsval) (w : Materials.World) :
  let t := Materials.saveMaterialAndContent (Some uid) materialTitle materialContent
             sourceType generatedData in
  let outcome := fst (t w) in
  let w' := snd (t w) in
  let n := length (requests w) in
  let row := Materials.Material.Make uid materialTitle materialContent sourceType summary in
  get generatedData "summary" = Some summary ->
  (forall e, fate_of w n = Fails e \/ fate_of w n = Rejects e ->
     outcome = Throws e /\
     backend w' = backend w /\
     requests w' = requests w ++ [Materials.insert_material row]) /\
  (fate_of w n = Succeeds ->
     (Materials.materials (backend w) ++ [(Materials.fresh_id (backend w), row)])
       `prefix_of` Materials.materials (backend w')) /\
  (forall (i : nat) (e : js_error),
     (n <= i < length (requests w'))%nat -> fate_of w i = Rejects e ->
     outcome = Throws e /\ S i = length (requests w')) /\
  keeps_rows (backend w) (backend w') /\
  (forall (v : Materials.World) (mid : string) (stored : Materials.Material.t)
          (quiz_questions : jsval) (title : string) (e : js_error),
     get generatedData "quiz_questions" = Some quiz_questions ->
     Array_isArray quiz_questions = true ->
     ToString materialTitle = Returns title ->
     fate_of v (length (requests v)) = Fails e ->
     Materials.save_quiz uid materialTitle generatedData (Some (mid, stored)) v =
       (Returns tt,
        MkWorld (ui v) (backend v)
          (requests v ++ [Materials.insert_quiz
                            (Materials.NewQuiz.Make uid mid (title +:+ " - Quiz"))])
          (effects v) (timers v) (fate_of v))) /\
  (forall (v : Materials.World) (mid : string) (stored : Materials.Material.t)
          (e : js_error),
     ToString materialTitle = Throws e ->
     (truthy (js_or (field generatedData "key_points") (field generatedData "examples"))
        = true ->
      Materials.save_notes uid materialTitle generatedData summary (Some (mid, stored)) v
        = (Throws e, v)) /\
     (Array_isArray (field generatedData "quiz_questions") = true ->
      Materials.save_quiz uid materialTitle generatedData (Some (mid, stored)) v
        = (Throws e, v))).
Proof.
  intros t outcome w' n row Hsum.
  pose proof (saveMaterialAndContent_orderly (Some uid) materialTitle materialContent
                sourceType generatedData w) as (_ & _ & Hkeep & Hrej).
  fold t in Hkeep, Hrej. fold w' in Hkeep, Hrej. fold outcome in Hrej. fold n in Hrej.
  pose proof (saveMaterialAndContent_head uid materialTitle materialContent sourceType
                generatedData summary w Hsum) as Hhead.
  cbv zeta in Hhead. fold t in Hhead. fold n in Hhead. fold row in Hhead.
  split; [|split; [|split; [assumption|split; [assumption|split]]]].
  - intros e Hfate. subst outcome w'. rewrite Hhead.
    destruct Hfate as [Hfate|Hfate]; rewrite Hfate; cbn; auto.
  - intros Hfate. subst outcome w'. rewrite Hhead, Hfate.
    match goal with
    | |- context [try_catch ?body _ ?v] =>
        pose proof (orderly_rethrow keeps_rows body (console_error "Error saving to database:")
                      (save_derived_content_orderly _ _ _ _ _) v) as (_ & _ & (Hm & _) & _)
    end.
    exact Hm.
  - intros v mid stored quiz_questions title e Hget Harr Htitle Hfate.
    unfold Materials.save_quiz, prop. rewrite Hget.
    destruct quiz_questions; try discriminate.
    cbv [bind ret await Materials.id_of text_of]. cbn [truthy Array_isArray andb].
    rewrite Htitle, Hfate. reflexivity.
  - intros v mid stored e Hthrow.
    assert (Hdata : nullish generatedData = false)
      by (destruct generatedData; try discriminate; reflexivity).
    split.
    + intros Hnote. unfold Materials.save_notes, prop.
      rewrite !(get_field generatedData _ Hdata).
      cbv [bind ret Materials.id_of text_of]. rewrite Hnote, Hthrow. reflexivity.
    + intros Harr. unfold Materials.save_quiz, prop.
      rewrite (get_field generatedData _ Hdata).
      cbv [bind ret Materials.id_of text_of]. rewrite truthy_array, Harr, Hthrow.
      reflexivity.
Qed.

Lemma C2_fanout_aborts_without_rollback_witness :
  let w := SampleMaterials.page (SampleMaterials.typed "" "Osmosis") SampleMaterials.osmosis
             (SampleMaterials.fates_of [Succeeds; Succeeds; Rejects (Error "Failed to fetch")]) in
  let t := Materials.saveMaterialAndContent (H := Sample.runtime) (Some "u1")
             (JStr "Osmosis") "Osmosis" "ai_generated" SampleMaterials.osmosis in
  fst (t w) = Throws (Error "Failed to fetch") /\
  length (requests (snd (t w))) = 3%nat /\
  length (Materials.materials (backend (snd (t w)))) = 1%nat /\
  length (Materials.notes (backend (snd (t w)))) = 1%nat /\
  Materials.flashcards (backend (snd (t w))) = [].
Proof.
  intros w t.
  destruct (C2_fanout_aborts_without_rollback (H := Sample.runtime) "u1" (JStr "Osmosis")
              "Osmosis" "ai_generated" SampleMaterials.osmosis
              (JStr "Water crosses a membrane towards the higher solute concentration.")
              w eq_refl) as (_ & _ & Hrej & _ & _).
  destruct (Hrej 2%nat (Error "Failed to fetch")) as [Hthrow Hlast].
  { vm_compute. lia. }
  { reflexivity. }
  fold t in Hthrow, Hlast. rewrite Hthrow, <- Hlast.
  repeat split; vm_compute; reflexivity.
Defined.

(** C2 as stated fails: when the quiz insert resolves with an error, the
    quiz step neither succeeds nor throws; the questions are skipped and the
    fan-out returns [true]. *)
Lemma C2_counterexample :
  let w := SampleMaterials.page (SampleMaterials.typed "" "Osmosis") SampleMaterials.only_quiz
             (SampleMaterials.fates_of [Succeeds; Fails (Error "permission denied")]) in
  let t := Materials.saveMaterialAndContent (H := Sample.runtime) (Some "u1")
             (JStr "Osmosis") "Osmosis" "ai_generated" SampleMaterials.only_quiz in
  fate_of w 1%nat = Fails (Error "permission denied") /\
  (exists row, requests (snd (t w)) !! 1%nat = Some (Materials.insert_quiz row)) /\
  fst (t w) = Returns (JBool true) /\
  Materials.quizzes (backend (snd (t w))) = [] /\
  Materials.questions (backend (snd (t w))) = [].
Proof.
  intros w t. split; [reflexivity|]. split; [eexists; vm_compute; reflexivity|].
  repeat split; vm_compute; reflexivity.
Qed.

(** ** What the fan-out writes when every request succeeds *)

Lemma prop_field {U B R} (v : jsval) (name : string) (w : world U B R) :
  nullish v = false -> prop v name w = (Returns (field v name), w).
Proof. intros Hn. unfold prop. now rewrite (get_field v name Hn). Qed.

Lemma Array_map_pure {U B R A} (f : jsval -> task U B R A) (g : jsval -> A)
    (items : list jsval) (w : world U B R) :
  Forall (fun i => forall v, f i v = (Returns (g i), v)) items ->
  Array_map f items w = (Returns (map g items), w).
Proof.
  induction 1 as [|i rest Hi _ IH]; simpl; [reflexivity|].
  unfold bind at 1. rewrite Hi. unfold bind at 1. rewrite IH. reflexivity.
Qed.

Lemma flashcard_row_pure (uid mid : string) (items : list jsval) :
  Forall (fun c => nullish c = false) items ->
  Forall (fun c => forall v : Materials.World,
            Materials.flashcard_row uid mid c v = (Returns (flashcard_of uid mid c), v)) items.
Proof.
  intros Hall. eapply Forall_impl; [exact Hall|]. intros c Hc v. cbn beta in Hc.
  unfold Materials.flashcard_row, bind, ret.
  rewrite !(prop_field c _ _ Hc). reflexivity.
Qed.

Lemma question_row_pure (qid : string) (items : list jsval) :
  Forall (fun c => nullish c = false) items ->
  Forall (fun c => forall v : Materials.World,
            Materials.question_row qid c v = (Returns (question_of qid c), v)) items.
Proof.
  intros Hall. eapply Forall_impl; [exact Hall|]. intros c Hc v. cbn beta in Hc.
  unfold Materials.question_row, bind, ret.
  rewrite !(prop_field c _ _ Hc). reflexivity.
Qed.

Lemma items_of_not_array (v : jsval) : Array_isArray v = false -> Materials.items_of v = [].
Proof. destruct v; simpl; try reflexivity; discriminate. Qed.

(** C5, as the code has it: with a signed-in user, a title that converts
    to a string and every request succeeding, the fan-out sends, in this
    order: one insert of the material
    row; one insert of a note that refers to the new material, exactly when
    [key_points] or [examples] is truthy; one insert of one flashcard row per
    entry, each referring to the new material and with difficulty "medium"
    when the entry has none, exactly when [flashcards] is an array; and,
    exactly when [quiz_questions] is an array (an empty one included), one
    insert of a quiz that refers to the new material followed by one insert
    of one question row per entry, each referring to the new quiz. *)
Theorem C5_fanout_order_and_conditions `{JSRuntime} (uid : string)
    (materialTitle : jsval) (materialContent sourceType : string)
    (generatedData : jsval) (title : string) (w : Materials.World) :
  let t := Materials.saveMaterialAndContent (Some uid) materialTitle materialContent
             sourceType generatedData in
  let b := backend w in
  let b' := backend (snd (t w)) in
  let summary := field generatedData "summary" in
  let key_points := field generatedData "key_points" in
  let examples := field generatedData "examples" in
  let cards := field generatedData "flashcards" in
  let quiz_questions := field generatedData "quiz_questions" in
  let mid := Materials.fresh_id b in
  let qid := "id-" +:+ pretty (S (Materials.next_id b)) in
  let material := Materials.Material.Make uid materialTitle materialContent sourceType summary in
  let note := Materials.Note.Make uid mid (title +:+ " - Notes")
                summary key_points examples in
  let flashcard_rows := map (flashcard_of uid mid) (Materials.items_of cards) in
  let quiz := Materials.NewQuiz.Make uid mid (title +:+ " - Quiz") in
  let question_rows := map (question_of qid) (Materials.items_of quiz_questions) in
  nullish generatedData = false ->
  ToString materialTitle = Returns title ->
  Forall (fun c => nullish c = false) (Materials.items_of cards) ->
  Forall (fun q => nullish q = false) (Materials.items_of quiz_questions) ->
  (forall k, fate_of w k = Succeeds) ->
  fst (t w) = Returns (JBool true) /\
  requests (snd (t w)) =
    requests w
    ++ [Materials.insert_material material]
    ++ (if truthy (js_or key_points examples) then [Materials.insert_note note] else [])
    ++ (if Array_isArray cards then [Materials.insert_flashcards flashcard_rows] else [])
    ++ (if Array_isArray quiz_questions
        then [Materials.insert_quiz quiz; Materials.insert_questions question_rows]
        else []) /\
  Materials.materials b' = Materials.materials b ++ [(mid, material)] /\
  Materials.notes b' =
    Materials.notes b ++ (if truthy (js_or key_points examples) then [note] else []) /\
  Materials.flashcards b' = Materials.flashcards b ++ flashcard_rows /\
  Materials.quizzes b' =
    Materials.quizzes b ++ (if Array_isArray quiz_questions then [(qid, quiz)] else []) /\
  Materials.questions b' = Materials.questions b ++ question_rows /\
  length flashcard_rows = length (Materials.items_of cards) /\
  length question_rows = length (Materials.items_of quiz_questions) /\
  (forall card, card ∈ Materials.items_of cards ->
     Materials.Flashcard.material_id (flashcard_of uid mid card) = mid /\
     (field card "difficulty" = JUndefined ->
      Materials.Flashcard.difficulty (flashcard_of uid mid card) = JStr "medium")) /\
  (forall q, q ∈ Materials.items_of quiz_questions ->
     Materials.NewQuestion.quiz_id (question_of qid q) = qid).
Proof.
  intros t b b' summary key_points examples cards quiz_questions mid qid material note
    flashcard_rows quiz question_rows Hdata Htitle Hcards Hqs Hall.
  assert (Hrun : t w =
    (Returns (JBool true),
     MkWorld (ui w)
       (Materials.Build_Backend
          (Materials.materials b ++ [(mid, material)])
          (Materials.notes b ++ (if truthy (js_or key_points examples) then [note] else []))
          (Materials.flashcards b ++ flashcard_rows)
          (Materials.quizzes b ++ (if Array_isArray quiz_questions then [(qid, quiz)] else []))
          (Materials.questions b ++ question_rows)
          (if Array_isArray quiz_questions then S (S (Materials.next_id b))
           else S (Materials.next_id b))
          (Materials.generated b))
       (requests w
        ++ [Materials.insert_material material]
        ++ (if truthy (js_or key_points examples) then [Materials.insert_note note] else [])
        ++ (if Array_isArray cards then [Materials.insert_flashcards flashcard_rows] else [])
        ++ (if Array_isArray quiz_questions
            then [Materials.insert_quiz quiz; Materials.insert_questions question_rows]
            else []))
       (effects w) (timers w) (fate_of w))).
  { subst t.
    rewrite (saveMaterialAndContent_head uid materialTitle materialContent sourceType
               generatedData summary w (get_field _ _ Hdata)).
    rewrite Hall. fold material. fold b. fold mid.
    cbv [Materials.save_derived_content Materials.save_notes Materials.save_flashcards
         Materials.save_quiz try_catch bind ret await throw perform prop text_of
         Materials.id_of save_failed].
    rewrite Htitle.
    rewrite !(get_field generatedData _ Hdata).
    fold key_points examples cards quiz_questions.
    rewrite !truthy_array.
    pose proof (flashcard_row_pure uid mid _ Hcards) as Hfc.
    pose proof (question_row_pure qid _ Hqs) as Hqr.
    subst flashcard_rows question_rows.
    destruct (truthy (js_or key_points examples));
      destruct (Array_isArray cards) eqn:Hca;
      destruct (Array_isArray quiz_questions) eqn:Hqa;
      try rewrite (items_of_not_array _ Hca) in *;
      try rewrite (items_of_not_array _ Hqa) in *;
      repeat (cbv beta iota;
              cbn [fate_of requests backend ui effects timers data error snd fst
                   Materials.add_material Materials.add_note Materials.add_flashcards
                   Materials.add_quiz Materials.add_questions
                   Materials.materials Materials.notes Materials.flashcards
                   Materials.quizzes Materials.questions Materials.next_id
                   Materials.generated Materials.fresh_id];
              try rewrite Hall;
              try rewrite (Array_map_pure _ _ _ _ Hfc);
              try rewrite (Array_map_pure _ _ _ _ Hqr));
      cbn [map]; rewrite <- ?app_assoc, ?app_nil_r; cbn [app]; reflexivity. }
  subst b'. rewrite Hrun. cbn [fst snd requests backend Materials.materials Materials.notes
                                 Materials.flashcards Materials.quizzes Materials.questions].
  repeat (split; [reflexivity|]).
  subst flashcard_rows question_rows. rewrite !length_map.
  repeat (split; [reflexivity|]).
  split.
  - intros card _. split; [reflexivity|].
    intros Hd. unfold flashcard_of. cbn. rewrite Hd. reflexivity.
  - intros q _. reflexivity.
Qed.

Lemma C5_fanout_order_and_conditions_witness :
  let w := SampleMaterials.page (SampleMaterials.typed "" "Osmosis") SampleMaterials.osmosis
             (fun _ => Succeeds) in
  let t := Materials.saveMaterialAndContent (H := Sample.runtime) (Some "u1")
             (JStr "Osmosis") "Osmosis" "ai_generated" SampleMaterials.osmosis in
  let b' := backend (snd (t w)) in
  fst (t w) = Returns (JBool true) /\
  map fst (Materials.materials b') = ["id-0"] /\
  map Materials.Note.material_id (Materials.notes b') = ["id-0"] /\
  map Materials.Flashcard.material_id (Materials.flashcards b') = ["id-0"; "id-0"] /\
  map Materials.Flashcard.difficulty (Materials.flashcards b') = [JStr "easy"; JStr "medium"] /\
  map fst (Materials.quizzes b') = ["id-1"] /\
  map Materials.NewQuestion.quiz_id (Materials.questions b') = ["id-1"].
Proof.
  intros w t b'.
  assert (Hcards : Forall (fun c => nullish c = false)
                     (Materials.items_of (field SampleMaterials.osmosis "flashcards")))
    by (repeat constructor).
  assert (Hqs : Forall (fun c => nullish c = false)
                  (Materials.items_of (field SampleMaterials.osmosis "quiz_questions")))
    by (repeat constructor).
  destruct (C5_fanout_order_and_conditions (H := Sample.runtime) "u1" (JStr "Osmosis")
              "Osmosis" "ai_generated" SampleMaterials.osmosis "Osmosis" w eq_refl eq_refl
              Hcards Hqs
              (fun _ => eq_refl))
    as (Hret & _ & Hm & Hn & Hf & Hz & Hq & _).
  fold t in Hret, Hm, Hn, Hf, Hz, Hq. fold b' in Hm, Hn, Hf, Hz, Hq.
  rewrite Hret, Hm, Hn, Hf, Hz, Hq.
  repeat split; vm_compute; reflexivity.
Defined.

(** C5 as stated fails: with an empty list of quiz questions a quiz row is
    inserted all the same (and an insert of no question rows is sent). *)
Lemma C5_counterexample :
  let w := SampleMaterials.page (SampleMaterials.typed "" "Osmosis")
             SampleMaterials.without_questions (fun _ => Succeeds) in
  let t := Materials.saveMaterialAndContent (H := Sample.runtime) (Some "u1")
             (JStr "Osmosis") "Osmosis" "ai_generated" SampleMaterials.without_questions in
  field SampleMaterials.without_questions "quiz_questions" = JArr [] /\
  requests (snd (t w)) =
    [Materials.insert_material
       (Materials.Material.Make "u1" (JStr "Osmosis") "Osmosis" "ai_generated" (JStr "Short."));
     Materials.insert_quiz (Materials.NewQuiz.Make "u1" "id-0" "Osmosis - Quiz");
     Materials.insert_questions []] /\
  Materials.quizzes (backend (snd (t w))) =
    [("id-1", Materials.NewQuiz.Make "u1" "id-0" "Osmosis - Quiz")].
Proof.
  intros w t. repeat split; vm_compute; reflexivity.
Qed.


(** ** Blank input *)

Lemma drop_spaces_blank (ws l : list ascii) :
  forallb js_space ws = true -> drop_spaces (ws ++ l) = drop_spaces l.
Proof.
  induction ws as [|c ws IH]; simpl; [reflexivity|].
  intros Hb. apply andb_prop in Hb as [Hc Hws]. rewrite Hc. auto.
Qed.

Lemma drop_spaces_all (ws : list ascii) :
  forallb js_space ws = true -> drop_spaces ws = [].
Proof.
  intros Hb. rewrite <- (app_nil_r ws). now rewrite drop_spaces_blank.
Qed.

Lemma trim_blank (s : string) : blank s -> trim s = "".
Proof.
  unfold blank, trim, trim_chars. intros Hb.
  rewrite (drop_spaces_all _ Hb). reflexivity.
Qed.

(** C7: a topic or a pasted text that is empty or only white space is
    rejected with a notification before any request is sent: nothing is
    written, no request is made, and the state of the page is unchanged. *)
Theorem C7_blank_input_is_rejected `{JSRuntime} (user : option string) (w : Materials.World) :
  (blank (Materials.topic (ui w)) ->
     Materials.handleTopicGenerate user w =
       (Returns tt,
        MkWorld (ui w) (backend w) (requests w)
          (effects w ++ [toast_error "Please enter a topic"]) (timers w) (fate_of w))) /\
  (blank (Materials.text (ui w)) ->
     Materials.handleTextSubmit user w =
       (Returns tt,
        MkWorld (ui w) (backend w) (requests w)
          (effects w ++ [toast_error "Please enter some text to analyze"]) (timers w)
          (fate_of w))).
Proof.
  split; intros Hb.
  - unfold Materials.handleTopicGenerate, bind at 1, get_ui.
    rewrite (trim_blank _ Hb). reflexivity.
  - unfold Materials.handleTextSubmit, bind at 1, get_ui.
    rewrite (trim_blank _ Hb). reflexivity.
Qed.

Lemma C7_blank_input_is_rejected_witness :
  let w := SampleMaterials.page
             (SampleMaterials.typed (String "009" (String "010" " ")) "   ")
             SampleMaterials.osmosis (fun _ => Succeeds) in
  requests (snd (Materials.handleTopicGenerate (H := Sample.runtime) (Some "u1") w)) = [] /\
  Materials.materials
    (backend (snd (Materials.handleTopicGenerate (H := Sample.runtime) (Some "u1") w))) = [] /\
  effects (snd (Materials.handleTextSubmit (H := Sample.runtime) (Some "u1") w))
    = [toast_error "Please enter some text to analyze"].
Proof.
  intros w.
  destruct (C7_blank_input_is_rejected (H := Sample.runtime) (Some "u1") w) as [Htopic Htext].
  rewrite (Htopic eq_refl), (Htext eq_refl). repeat split; reflexivity.
Defined.

(** ** Stripping the fences *)

Lemma chars_app (a b : string) : chars (a +:+ b) = chars a ++ chars b.
Proof. unfold chars. induction a as [|c a IH]; simpl; [reflexivity|]. now rewrite IH. Qed.

Lemma drop_spaces_dark (l : list ascii) : starts_dark l -> drop_spaces l = l.
Proof. destruct l as [|c l]; simpl; [contradiction|]. now intros ->. Qed.

Lemma drop_spaces_length (l : list ascii) : (length (drop_spaces l) <= length l)%nat.
Proof.
  induction l as [|c l IH]; simpl; [lia|].
  destruct (js_space c); simpl; lia.
Qed.

Lemma drop_spaces_fixed (l : list ascii) : drop_spaces l = l -> l <> [] -> starts_dark l.
Proof.
  destruct l as [|c l]; [contradiction|]. simpl. intros Heq _.
  destruct (js_space c) eqn:Hc; [|reflexivity].
  pose proof (drop_spaces_length l) as Hlen. rewrite Heq in Hlen. simpl in Hlen. lia.
Qed.

Lemma trim_chars_fixed (l : list ascii) :
  trim_chars l = l -> l <> [] -> starts_dark l /\ starts_dark (rev l).
Proof.
  unfold trim_chars. intros Heq Hne.
  assert (Hlen : length (drop_spaces l) = length l).
  { apply Nat.le_antisymm; [apply drop_spaces_length|].
    rewrite <- Heq at 1. rewrite length_rev.
    etransitivity; [apply drop_spaces_length|]. now rewrite length_rev. }
  assert (Hfront : drop_spaces l = l).
  { destruct l as [|c l]; [reflexivity|]. simpl in *.
    destruct (js_space c); [|reflexivity].
    pose proof (drop_spaces_length l). lia. }
  split; [now apply drop_spaces_fixed|].
  rewrite Hfront in Heq. apply drop_spaces_fixed.
  - rewrite <- (rev_involutive (drop_spaces (rev l))). now rewrite Heq.
  - intros Hr. apply Hne. rewrite <- (rev_involutive l), Hr. reflexivity.
Qed.

Lemma forallb_space_rev (l : list ascii) :
  forallb js_space l = true -> forallb js_space (rev l) = true.
Proof.
  induction l as [|c l IH]; simpl; [reflexivity|].
  intros Hb. apply andb_prop in Hb as [Hc Hl].
  rewrite forallb_app, IH by exact Hl. simpl. now rewrite Hc.
Qed.

Lemma trim_chars_core (lead core trail : list ascii) :
  forallb js_space lead = true -> forallb js_space trail = true ->
  starts_dark core -> starts_dark (rev core) ->
  trim_chars (lead ++ core ++ trail) = core.
Proof.
  intros Hl Ht Hc Hr. unfold trim_chars.
  rewrite (drop_spaces_blank lead) by exact Hl.
  rewrite (drop_spaces_dark (core ++ trail)) by (destruct core; [contradiction|exact Hc]).
  rewrite rev_app_distr.
  rewrite (drop_spaces_blank (rev trail)) by (now apply forallb_space_rev).
  rewrite (drop_spaces_dark (rev core)) by exact Hr. apply rev_involutive.
Qed.

Lemma starts_with_app (p l : list ascii) : starts_with p (p ++ l) = true.
Proof.
  induction p as [|c p IH]; simpl; [reflexivity|].
  now rewrite Ascii.eqb_refl.
Qed.

Lemma replace_leading_app (p ws l : list ascii) :
  forallb js_space ws = true -> starts_dark l ->
  replace_leading p (p ++ ws ++ l) = l.
Proof.
  intros Hws Hl. unfold replace_leading.
  rewrite starts_with_app, drop_app_length.
  rewrite (drop_spaces_blank ws) by exact Hws.
  now apply drop_spaces_dark.
Qed.

Lemma drop_spaces_keeps_tail (l t : list ascii) :
  starts_dark (rev l) -> (length t < length (drop_spaces (l ++ t)))%nat.
Proof.
  induction l as [|c l IH]; [contradiction|].
  intros Hlast. cbn [app drop_spaces].
  destruct (js_space c) eqn:Hc.
  - destruct l as [|d l].
    + simpl in Hlast. congruence.
    + apply IH. simpl in Hlast |- *.
      destruct (rev l ++ [d]) as [|x xs] eqn:Hx; [now destruct (rev l)|].
      exact Hlast.
  - simpl. rewrite length_app. lia.
Qed.

Lemma replace_trailing_app (body ws : list ascii) :
  forallb js_space ws = true -> body = [] \/ starts_dark (rev body) ->
  replace_trailing EdgeFunction.fence (body ++ ws ++ EdgeFunction.fence) = body.
Proof.
  intros Hws. induction body as [|c body IH]; intros Hlast.
  - cbn [app]. assert (Hm : trailing_match EdgeFunction.fence (ws ++ EdgeFunction.fence) = true).
    { unfold trailing_match. apply bool_decide_eq_true.
      rewrite drop_spaces_blank by exact Hws. reflexivity. }
    destruct ws; simpl; simpl in Hm; rewrite ?Hm; reflexivity.
  - destruct Hlast as [Hnil|Hlast]; [discriminate|].
    assert (Hm : trailing_match EdgeFunction.fence ((c :: body) ++ ws ++ EdgeFunction.fence)
                 = false).
    { unfold trailing_match. apply bool_decide_eq_false. intros Heq.
      pose proof (drop_spaces_keeps_tail (c :: body) (ws ++ EdgeFunction.fence) Hlast) as Hlen.
      rewrite Heq, length_app in Hlen. simpl in Hlen. lia. }
    cbn [app replace_trailing] in Hm |- *. rewrite Hm. f_equal. apply IH.
    destruct body as [|d body]; [now left|right].
    simpl in Hlast |- *.
    destruct (rev body ++ [d]) as [|x xs] eqn:Hx; [now destruct (rev body)|].
    exact Hlast.
Qed.

Lemma cleanedContent_fenced (label : list ascii) (lead ws1 ws2 trail body : string) :
  label = EdgeFunction.json_fence \/
  (label = EdgeFunction.fence /\ head (chars ws1 ++ chars body) <> Some "j"%char) ->
  blank lead -> blank ws1 -> blank ws2 -> blank trail ->
  trim body = body -> body <> "" ->
  EdgeFunction.cleanedContent
    (lead +:+ string_of_list_ascii label +:+ ws1 +:+ body +:+ ws2 +:+ "```" +:+ trail) = body.
Proof.
  intros Hlabel Hlead Hws1 Hws2 Htrail Htrim Hne.
  assert (Hbody : chars body <> []).
  { intros Hnil. apply Hne. rewrite <- (string_of_list_ascii_of_string body).
    unfold chars in Hnil. now rewrite Hnil. }
  assert (Hdark : starts_dark (chars body) /\ starts_dark (rev (chars body))).
  { apply trim_chars_fixed; [|exact Hbody].
    unfold trim in Htrim. apply (f_equal chars) in Htrim. unfold chars in Htrim |- *.
    now rewrite list_ascii_of_string_of_list_ascii in Htrim. }
  destruct Hdark as [Hfirst Hlast].
  set (rest := chars ws1 ++ chars body ++ chars ws2 ++ EdgeFunction.fence).
  assert (Htrimmed :
    chars (trim (lead +:+ string_of_list_ascii label +:+ ws1 +:+ body +:+ ws2 +:+ "```"
                 +:+ trail)) = label ++ rest).
  { unfold trim. fold (chars (lead +:+ string_of_list_ascii label +:+ ws1 +:+ body +:+ ws2
                              +:+ "```" +:+ trail)).
    unfold chars at 1. rewrite list_ascii_of_string_of_list_ascii.
    rewrite !chars_app. unfold chars at 2. rewrite list_ascii_of_string_of_list_ascii.
    change (chars "```") with EdgeFunction.fence.
    replace (chars lead ++ label ++ chars ws1 ++ chars body ++ chars ws2
             ++ EdgeFunction.fence ++ chars trail)
      with (chars lead ++ (label ++ rest) ++ chars trail)
      by (subst rest; now rewrite <- !app_assoc).
    apply trim_chars_core; [exact Hlead|exact Htrail| |].
    - destruct Hlabel as [->|[-> _]]; reflexivity.
    - subst rest. rewrite !rev_app_distr. reflexivity. }
  assert (Hrest : replace_trailing EdgeFunction.fence
                    (drop_spaces rest) = chars body).
  { subst rest. rewrite (drop_spaces_blank (chars ws1)) by exact Hws1.
    rewrite (drop_spaces_dark (chars body ++ chars ws2 ++ EdgeFunction.fence))
      by (destruct (chars body); [contradiction|exact Hfirst]).
    apply replace_trailing_app; [exact Hws2|now right]. }
  unfold EdgeFunction.cleanedContent, startsWith.
  fold (chars (trim (lead +:+ string_of_list_ascii label +:+ ws1 +:+ body +:+ ws2 +:+ "```"
                     +:+ trail))).
  rewrite Htrimmed.
  change (list_ascii_of_string "```json") with EdgeFunction.json_fence.
  change (list_ascii_of_string "```") with EdgeFunction.fence.
  destruct Hlabel as [->|[-> Hj]].
  - rewrite starts_with_app. unfold replace_leading.
    rewrite starts_with_app, drop_app_length, Hrest.
    apply string_of_list_ascii_of_string.
  - assert (Hno : starts_with EdgeFunction.json_fence (EdgeFunction.fence ++ rest) = false).
    { subst rest.
      replace (chars ws1 ++ chars body ++ chars ws2 ++ EdgeFunction.fence)
        with ((chars ws1 ++ chars body) ++ chars ws2 ++ EdgeFunction.fence)
        by (now rewrite <- app_assoc).
      destruct (chars ws1 ++ chars body) as [|x xs] eqn:Hx.
      - destruct (chars ws1); [simpl in Hx; contradiction|discriminate].
      - change (starts_with EdgeFunction.json_fence
                  (EdgeFunction.fence ++ (x :: xs) ++ chars ws2 ++ EdgeFunction.fence))
          with (Ascii.eqb "j" x
                && starts_with (list_ascii_of_string "son")
                     (xs ++ chars ws2 ++ EdgeFunction.fence)).
        destruct (Ascii.eqb_spec "j"%char x) as [<-|]; [|reflexivity].
        exfalso. apply Hj. reflexivity. }
    rewrite Hno, starts_with_app. unfold replace_leading.
    rewrite starts_with_app, drop_app_length, Hrest.
    apply string_of_list_ascii_of_string.
Qed.

(** ** A generation that fails *)

Lemma parse_completion_text `{JSRuntime} (fn : EdgeFunction.name) (text : string) :
  text <> "" ->
  EdgeFunction.parse_completion fn (completion_of text) =
    match JSON_parse (EdgeFunction.cleanedContent text) with
    | Some parsedContent => inr parsedContent
    | None => inl (Error "AI generated invalid JSON format")
    end.
Proof.
  intros Hne. unfold EdgeFunction.parse_completion. cbn.
  destruct text as [|c text]; [contradiction|]. reflexivity.
Qed.

Lemma handler_completion `{JSRuntime} (fn : EdgeFunction.name) (request : jsval)
    (api_key : option string) (code : Z) (body_text : js_error + string) (text : string) :
  accepted fn request api_key -> EdgeFunction.ok code = true -> text <> "" ->
  EdgeFunction.handler fn "POST" (inr request) api_key
    (inr {| EdgeFunction.up_status := code; EdgeFunction.up_text := body_text;
            EdgeFunction.up_json := inr (completion_of text) |}) =
    match JSON_parse (EdgeFunction.cleanedContent text) with
    | Some parsedContent => {| EdgeFunction.status := 200; EdgeFunction.body := parsedContent |}
    | None => EdgeFunction.error_reply 500 "AI generated invalid JSON format"
    end.
Proof.
  intros Hacc Hok Hne. unfold accepted in Hacc.
  destruct Hacc as (input & key & line & Hget & Htrim & -> & Hkey & Hline).
  unfold EdgeFunction.handler, EdgeFunction.respond.
  cbn [String.eqb Ascii.eqb Bool.eqb]. rewrite Hget.
  assert (Hin : input <> "") by (intros ->; apply Htrim; reflexivity).
  assert (Ht : truthy (JStr input) = true).
  { simpl. destruct input; [contradiction|reflexivity]. }
  rewrite Ht. cbn [negb].
  destruct (String.eqb_spec (trim input) "") as [Heq|_]; [contradiction|].
  destruct key as [|k key]; [contradiction|]. rewrite Hline.
  cbn [EdgeFunction.up_status EdgeFunction.up_json]. rewrite Hok. cbn [negb].
  rewrite (parse_completion_text fn text Hne).
  destruct (JSON_parse (EdgeFunction.cleanedContent text)); reflexivity.
Qed.

Lemma handleTopicGenerate_fails `{JSRuntime} (user : option string) (w : Materials.World)
    (e : js_error) :
  trim (Materials.topic (ui w)) <> "" ->
  fate_of w (length (requests w)) = Fails e ->
  let w' := snd (Materials.handleTopicGenerate user w) in
  backend w' = backend w /\
  requests w' = requests w ++ [Materials.invoke EdgeFunction.generate_from_topic
                                 [("topic", trim (Materials.topic (ui w)))]] /\
  effects w' = effects w ++ [console_error "Error generating from topic:" e;
                             toast_error (Materials.message_or e "Failed to generate materials")] /\
  timers w' = timers w.
Proof.
  intros Htrim Hfate.
  unfold Materials.handleTopicGenerate.
  cbv [bind get_ui try_catch finally await modify_ui perform throw ret].
  destruct (String.eqb_spec (trim (Materials.topic (ui w))) "") as [Heq|_]; [contradiction|].
  cbn [fate_of requests]. rewrite Hfate. cbn. rewrite <- ?app_assoc. auto.
Qed.

Lemma handleTextSubmit_fails `{JSRuntime} (user : option string) (w : Materials.World)
    (e : js_error) :
  trim (Materials.text (ui w)) <> "" ->
  fate_of w (length (requests w)) = Fails e ->
  let w' := snd (Materials.handleTextSubmit user w) in
  backend w' = backend w /\
  requests w' = requests w ++ [Materials.invoke EdgeFunction.process_material
                                 [("content", trim (Materials.text (ui w)));
                                  ("title", substring0 100 (trim (Materials.text (ui w)))
                                            +:+ "...")]] /\
  effects w' = effects w ++ [console_error "Error processing material:" e;
                             toast_error (Materials.message_or e "Failed to process material")] /\
  timers w' = timers w.
Proof.
  intros Htrim Hfate.
  unfold Materials.handleTextSubmit.
  cbv [bind get_ui try_catch finally await modify_ui perform throw ret].
  destruct (String.eqb_spec (trim (Materials.text (ui w))) "") as [Heq|_]; [contradiction|].
  cbn [fate_of requests]. rewrite Hfate. cbn. rewrite <- ?app_assoc. auto.
Qed.

(** C6: a completion text wrapped in a fence, labeled [json] or without a
    label, is reduced to its body before [JSON.parse] is called, so that a
    fenced body that parses is answered with status 200 and the parsed
    content; when the cleaned text does not parse, the edge function answers
    with status 500 and the message of the format error, and the page that
    receives this answer writes nothing. *)
Theorem C6_fences_are_stripped_before_parsing `{JSRuntime} (fn : EdgeFunction.name)
    (lead ws1 ws2 trail body : string) :
  let labeled := lead +:+ "```json" +:+ ws1 +:+ body +:+ ws2 +:+ "```" +:+ trail in
  let unlabeled := lead +:+ "```" +:+ ws1 +:+ body +:+ ws2 +:+ "```" +:+ trail in
  let answer request api_key code body_text text :=
    EdgeFunction.handler fn "POST" (inr request) api_key
      (inr {| EdgeFunction.up_status := code; EdgeFunction.up_text := body_text;
              EdgeFunction.up_json := inr (completion_of text) |}) in
  let format_error := EdgeFunction.error_reply 500 "AI generated invalid JSON format" in
  let no_j := head (chars ws1 ++ chars body) <> Some "j"%char in
  blank lead -> blank ws1 -> blank ws2 -> blank trail ->
  trim body = body -> body <> "" ->
  EdgeFunction.cleanedContent labeled = body /\
  (no_j -> EdgeFunction.cleanedContent unlabeled = body) /\
  (forall request api_key code body_text parsedContent,
     accepted fn request api_key -> EdgeFunction.ok code = true ->
     JSON_parse body = Some parsedContent ->
     answer request api_key code body_text labeled
       = {| EdgeFunction.status := 200; EdgeFunction.body := parsedContent |} /\
     (no_j ->
      answer request api_key code body_text unlabeled
        = {| EdgeFunction.status := 200; EdgeFunction.body := parsedContent |})) /\
  (forall request api_key code body_text text,
     accepted fn request api_key -> EdgeFunction.ok code = true -> text <> "" ->
     JSON_parse (EdgeFunction.cleanedContent text) = None ->
     answer request api_key code body_text text = format_error) /\
  (forall (user : option string) (w : Materials.World),
     fate_of w (length (requests w)) = EdgeFunction.invoke_fate format_error ->
     (trim (Materials.topic (ui w)) <> "" ->
      backend (snd (Materials.handleTopicGenerate user w)) = backend w /\
      length (requests (snd (Materials.handleTopicGenerate user w)))
        = S (length (requests w)) /\
      toast_error "Edge Function returned a non-2xx status code"
        ∈ effects (snd (Materials.handleTopicGenerate user w))) /\
     (trim (Materials.text (ui w)) <> "" ->
      backend (snd (Materials.handleTextSubmit user w)) = backend w /\
      length (requests (snd (Materials.handleTextSubmit user w)))
        = S (length (requests w)) /\
      toast_error "Edge Function returned a non-2xx status code"
        ∈ effects (snd (Materials.handleTextSubmit user w)))).
Proof.
  intros labeled unlabeled answer format_error no_j Hlead Hws1 Hws2 Htrail Htrim Hne.
  assert (Hlab : EdgeFunction.cleanedContent labeled = body).
  { apply (cleanedContent_fenced EdgeFunction.json_fence); auto. }
  assert (Hunl : no_j -> EdgeFunction.cleanedContent unlabeled = body).
  { intros Hj. apply (cleanedContent_fenced EdgeFunction.fence); auto. }
  assert (Hnel : labeled <> "").
  { intros Heq. rewrite Heq in Hlab. apply Hne. rewrite <- Hlab. reflexivity. }
  assert (Hneu : no_j -> unlabeled <> "").
  { intros Hj Heq. specialize (Hunl Hj). rewrite Heq in Hunl. apply Hne.
    rewrite <- Hunl. reflexivity. }
  split; [exact Hlab|]. split; [exact Hunl|]. split; [|split].
  - intros request api_key code body_text parsedContent Hacc Hok Hparse. subst answer.
    cbv beta. split.
    + rewrite handler_completion by assumption. now rewrite Hlab, Hparse.
    + intros Hj. rewrite handler_completion by auto. now rewrite (Hunl Hj), Hparse.
  - intros request api_key code body_text text Hacc Hok Htext Hparse. subst answer.
    cbv beta. rewrite handler_completion by assumption. now rewrite Hparse.
  - intros user w Hfate. change (EdgeFunction.invoke_fate format_error)
      with (Fails (Error "Edge Function returned a non-2xx status code")) in Hfate.
    split; intros Hinput.
    + destruct (handleTopicGenerate_fails user w _ Hinput Hfate) as (Hb & Hr & Hfx & _).
      rewrite Hb, Hr, Hfx, length_snoc. repeat split.
      apply elem_of_app. right. apply elem_of_cons. right. apply list_elem_of_singleton.
      reflexivity.
    + destruct (handleTextSubmit_fails user w _ Hinput Hfate) as (Hb & Hr & Hfx & _).
      rewrite Hb, Hr, Hfx, length_snoc. repeat split.
      apply elem_of_app. right. apply elem_of_cons. right. apply list_elem_of_singleton.
      reflexivity.
Qed.

Lemma C6_fences_are_stripped_before_parsing_witness :
  EdgeFunction.cleanedContent (String "010" ("```json" +:+ String "010" ("{}" +:+
    String "010" ("```" +:+ String "010" "")))) = "{}" /\
  EdgeFunction.handler (H := Sample.runtime) EdgeFunction.generate_from_topic "POST"
    (inr (JObj [("topic", JStr "Osmosis")])) (Some "secret")
    (inr {| EdgeFunction.up_status := 200; EdgeFunction.up_text := inr "";
            EdgeFunction.up_json :=
              inr (completion_of ("```" +:+ String "010" ("{}" +:+
                     String "010" "```"))) |})
    = {| EdgeFunction.status := 200; EdgeFunction.body := JObj [] |}.
Proof.
  assert (Hj : head (chars (String "010" "") ++ chars "{}") <> Some "j"%char) by discriminate.
  destruct (C6_fences_are_stripped_before_parsing (H := Sample.runtime)
              EdgeFunction.generate_from_topic (String "010" "") (String "010" "")
              (String "010" "") (String "010" "") "{}"
              eq_refl eq_refl eq_refl eq_refl eq_refl ltac:(discriminate))
    as (Hlab & _ & Hparsed & _).
  split; [exact Hlab|].
  assert (Hacc : accepted (H := Sample.runtime) EdgeFunction.generate_from_topic
                   (JObj [("topic", JStr "Osmosis")]) (Some "secret")).
  { exists "Osmosis", "secret", "Generating content for topic: Osmosis".
    repeat split; discriminate. }
  destruct (Hparsed (JObj [("topic", JStr "Osmosis")]) (Some "secret") 200 (inr "")
              (JObj []) Hacc eq_refl eq_refl) as [_ Hunl].
  exact (Hunl Hj).
Defined.
(** * Further properties of the quiz page *)

(** ** Listing the quizzes *)

Lemma elem_of_stored_quizzes (uid : string) (b : Quizzes.Storage) (q : Quiz.t) :
  q ∈ Quizzes.stored_quizzes uid b <->
  exists r, r ∈ Quizzes.quizzes_table b /\ Quizzes.user_id r = uid /\ Quizzes.quiz r = q.
Proof.
  unfold Quizzes.stored_quizzes. rewrite list_elem_of_fmap. split.
  - intros (r & -> & Hr). apply list_elem_of_filter in Hr as [Hu Hr]. eauto.
  - intros (r & Hr & Hu & <-). exists r. split; [reflexivity|].
    apply list_elem_of_filter. auto.
Qed.

(** X1: [fetchQuizzes] puts in the list exactly the stored quizzes of the
    signed-in user and ends the loading state; when the request fails the
    list is left as it was and an error is shown; without a user nothing is
    sent and nothing changes. *)
Theorem X1_fetchQuizzes_lists_own_quizzes (user : option string) (w : Quizzes.World) :
  let n := length (requests w) in
  let w' := Quizzes.run_task (Quizzes.fetchQuizzes user) w in
  (user = None -> w' = w) /\
  (forall uid, user = Some uid -> fate_of w n = Succeeds ->
     Quizzes.quizzes (ui w') = Quizzes.stored_quizzes uid (backend w) /\
     (forall q, q ∈ Quizzes.quizzes (ui w') <->
                exists r, r ∈ Quizzes.quizzes_table (backend w) /\
                          Quizzes.user_id r = uid /\ Quizzes.quiz r = q) /\
     Quizzes.loading (ui w') = false /\
     requests w' = requests w ++ [Quizzes.select_quizzes uid] /\
     effects w' = effects w /\ backend w' = backend w) /\
  (forall uid e, user = Some uid -> fate_of w n = Fails e \/ fate_of w n = Rejects e ->
     Quizzes.quizzes (ui w') = Quizzes.quizzes (ui w) /\
     Quizzes.loading (ui w') = false /\
     effects w' = effects w ++ [console_error "Error fetching quizzes:" e;
                                toast_error "Failed to load quizzes"] /\
     backend w' = backend w).
Proof.
  intros n w'. split; [|split].
  - intros ->. subst w'. destruct w. reflexivity.
  - intros uid -> Hfate. subst w' n.
    unfold Quizzes.run_task, Quizzes.fetchQuizzes.
    cbv [bind try_catch finally await modify_ui perform throw ret Quizzes.rows_of_user].
    rewrite Hfate. cbn [snd fst ui backend requests effects error data].
    unfold default, id. cbn [Quizzes.quizzes Quizzes.loading Quizzes.setQuizzes
                                Quizzes.setLoading].
    repeat split; try reflexivity; apply elem_of_stored_quizzes.
  - intros uid e -> Hfate. subst w' n.
    unfold Quizzes.run_task, Quizzes.fetchQuizzes.
    cbv [bind try_catch finally await modify_ui perform throw ret Quizzes.rows_of_user].
    destruct Hfate as [Hfate|Hfate]; rewrite Hfate;
      cbn [snd fst ui backend requests effects error data Quizzes.quizzes Quizzes.loading
           Quizzes.setLoading];
      rewrite <- app_assoc; repeat split; reflexivity.
Qed.

Lemma X1_fetchQuizzes_lists_own_quizzes_witness :
  let w := Sample.quiz_world Quizzes.initial Sample.all_succeed in
  Quizzes.quizzes (ui (Quizzes.run_task (Quizzes.fetchQuizzes (Some "u1")) w))
    = [Sample.history; Sample.biology] /\
  Quizzes.quizzes (ui (Quizzes.run_task (Quizzes.fetchQuizzes (Some "u2")) w)) = [] /\
  Quizzes.loading (ui (Quizzes.run_task (Quizzes.fetchQuizzes None) w)) = true.
Proof.
  intros w.
  destruct (X1_fetchQuizzes_lists_own_quizzes (Some "u1") w) as (_ & Hok & _).
  destruct (Hok "u1" eq_refl eq_refl) as (H1 & _).
  destruct (X1_fetchQuizzes_lists_own_quizzes (Some "u2") w) as (_ & Hok2 & _).
  destruct (Hok2 "u2" eq_refl eq_refl) as (H2 & _).
  destruct (X1_fetchQuizzes_lists_own_quizzes None w) as (Hnone & _).
  rewrite H1, H2, (Hnone eq_refl). repeat split; vm_compute; reflexivity.
Defined.

(** ** Loading a quiz that cannot be fetched *)

(** X2: when the questions cannot be fetched, [loadQuiz] reports it and
    enters no quiz: nothing is stored or changed except the loading flag,
    which is reset, so a browsing state stays exactly as it was. *)
Theorem X2_loadQuiz_fetch_failure (q : Quiz.t) (w : Quizzes.World) (e : js_error) :
  let w' := Quizzes.run_task (Quizzes.loadQuiz q) w in
  fate_of w (length (requests w)) = Fails e \/ fate_of w (length (requests w)) = Rejects e ->
  ui w' = Quizzes.setLoading false (ui w) /\
  backend w' = backend w /\
  requests w' = requests w ++ [Quizzes.select_questions (Quiz.id q)] /\
  effects w' = effects w ++ [console_error "Error loading quiz:" e;
                             toast_error "Failed to load quiz questions"] /\
  (Quizzes.phase (ui w) = Quizzes.Browsing ->
     ui w' = ui w /\ Quizzes.phase (ui w') = Quizzes.Browsing).
Proof.
  intros w' Hfate.
  assert (Hrun : w' = MkWorld (Quizzes.setLoading false (ui w)) (backend w)
                        (requests w ++ [Quizzes.select_questions (Quiz.id q)])
                        (effects w ++ [console_error "Error loading quiz:" e;
                                       toast_error "Failed to load quiz questions"])
                        (timers w) (fate_of w)).
  { subst w'. run_task. cbn [fate_of requests].
    destruct Hfate as [Hfate|Hfate]; rewrite Hfate;
      cbn [snd fst ui backend requests effects timers fate_of error data];
      rewrite <- app_assoc; reflexivity. }
  rewrite Hrun. cbn [ui backend requests effects].
  repeat split; try reflexivity.
  - apply setLoading_same. now apply phase_Browsing_not_loading.
  - rewrite setLoading_same by now apply phase_Browsing_not_loading. assumption.
Qed.

Lemma X2_loadQuiz_fetch_failure_witness :
  let w := Sample.quiz_world Sample.browsing Sample.first_rejects in
  ui (Quizzes.run_task (Quizzes.loadQuiz Sample.biology) w) = Sample.browsing /\
  effects (Quizzes.run_task (Quizzes.loadQuiz Sample.biology) w)
    = [console_error "Error loading quiz:" (Error "Failed to fetch");
       toast_error "Failed to load quiz questions"].
Proof.
  intros w.
  destruct (X2_loadQuiz_fetch_failure Sample.biology w (Error "Failed to fetch")
              (or_intror eq_refl)) as (_ & _ & _ & Hfx & Hstay).
  destruct Hstay as [Hui _]; [reflexivity|].
  rewrite Hui, Hfx. split; reflexivity.
Defined.

(** ** Answers during a session *)

Lemma step_answers (s : Quizzes.State) (o : Quizzes.Op) :
  Quizzes.userAnswers (Quizzes.step s o) =
    match o with
    | Quizzes.AnswerSelect i a => <[i := a]> (Quizzes.userAnswers s)
    | _ => Quizzes.userAnswers s
    end.
Proof.
  destruct o; simpl; unfold Quizzes.handleNext, Quizzes.handlePrevious;
    repeat match goal with |- context [if ?c then _ else _] => destruct c end; reflexivity.
Qed.

Lemma last_selection_snoc (ops : list Quizzes.Op) (o : Quizzes.Op) (i : string) :
  last_selection (ops ++ [o]) i =
    match o with
    | Quizzes.AnswerSelect j a => if String.eqb j i then Some a else last_selection ops i
    | _ => last_selection ops i
    end.
Proof. unfold last_selection. rewrite fold_left_app. reflexivity. Qed.

(** X3: the answers are kept by question id across navigation: after any
    run of [Next], [Previous] and answer selections, the stored answer of a
    question is the one selected last for it, or the one stored before the
    run when none was selected; navigation alone changes no answer. *)
Theorem X3_answers_follow_last_selection (s : Quizzes.State) (ops : list Quizzes.Op)
    (i : string) :
  Quizzes.userAnswers (fold_left Quizzes.step ops s) !! i =
    match last_selection ops i with
    | Some a => Some a
    | None => Quizzes.userAnswers s !! i
    end /\
  (forallb navigation ops = true ->
   Quizzes.userAnswers (fold_left Quizzes.step ops s) = Quizzes.userAnswers s).
Proof.
  split.
  - induction ops as [|o ops IH] using rev_ind; [reflexivity|].
    rewrite fold_left_app, last_selection_snoc. cbn [fold_left].
    rewrite step_answers. destruct o as [| |j a]; try exact IH.
    destruct (String.eqb_spec j i) as [->|Hne].
    + apply lookup_insert_eq.
    + rewrite lookup_insert_ne by exact Hne. exact IH.
  - revert s. induction ops as [|o ops IH]; intros s Hnav; [reflexivity|].
    cbn [forallb] in Hnav. apply andb_prop in Hnav as [Ho Hnav].
    cbn [fold_left]. rewrite (IH _ Hnav), step_answers.
    destruct o; [reflexivity|reflexivity|discriminate].
Qed.

Lemma X3_answers_follow_last_selection_witness :
  Quizzes.userAnswers
    (fold_left Quizzes.step [Quizzes.Previous; Quizzes.Previous; Quizzes.Next]
       Sample.answered) !! "q1" = Some "A".
Proof.
  destruct (X3_answers_follow_last_selection Sample.answered
              [Quizzes.Previous; Quizzes.Previous; Quizzes.Next] "q1") as [_ Hnav].
  rewrite (Hnav eq_refl). reflexivity.
Defined.

(** ** Leaving and opening a quiz again *)

Lemma step_frame (s : Quizzes.State) (o : Quizzes.Op) :
  Quizzes.quizzes (Quizzes.step s o) = Quizzes.quizzes s /\
  Quizzes.showResults (Quizzes.step s o) = Quizzes.showResults s /\
  Quizzes.loading (Quizzes.step s o) = Quizzes.loading s /\
  Quizzes.deleteDialogOpen (Quizzes.step s o) = Quizzes.deleteDialogOpen s /\
  Quizzes.quizToDelete (Quizzes.step s o) = Quizzes.quizToDelete s /\
  Quizzes.deleting (Quizzes.step s o) = Quizzes.deleting s.
Proof.
  destruct o; simpl; unfold Quizzes.handleNext, Quizzes.handlePrevious;
    repeat match goal with |- context [if ?c then _ else _] => destruct c end;
    repeat split; reflexivity.
Qed.

Lemma steps_frame (ops : list Quizzes.Op) (s : Quizzes.State) :
  Quizzes.quizzes (fold_left Quizzes.step ops s) = Quizzes.quizzes s /\
  Quizzes.showResults (fold_left Quizzes.step ops s) = Quizzes.showResults s /\
  Quizzes.loading (fold_left Quizzes.step ops s) = Quizzes.loading s /\
  Quizzes.deleteDialogOpen (fold_left Quizzes.step ops s) = Quizzes.deleteDialogOpen s /\
  Quizzes.quizToDelete (fold_left Quizzes.step ops s) = Quizzes.quizToDelete s /\
  Quizzes.deleting (fold_left Quizzes.step ops s) = Quizzes.deleting s.
Proof.
  revert s. induction ops as [|o ops IH]; intros s; cbn [fold_left]; [repeat split|].
  destruct (IH (Quizzes.step s o)) as (-> & -> & -> & -> & -> & ->).
  apply step_frame.
Qed.

(** X4: leaving a quiz with [resetQuiz] discards the loaded questions, the
    index and every answer and shows the list again; opening the same quiz
    again then gives exactly the state of the first opening, whatever was
    answered or visited in between. *)
Theorem X4_reopening_starts_afresh (q : Quiz.t) (ops : list Quizzes.Op) (w : Quizzes.World) :
  let n := length (requests w) in
  let first := Quizzes.loadQuiz q in
  let left := first ;; Quizzes.perform_ops ops ;; modify_ui Quizzes.resetQuiz in
  let again := left ;; Quizzes.loadQuiz q in
  fate_of w n = Succeeds -> fate_of w (S n) = Succeeds ->
  List.filter Quizzes.has_options (Quizzes.stored_questions (Quiz.id q) (backend w)) <> [] ->
  Quizzes.phase (ui (Quizzes.run_task left w)) = Quizzes.Browsing /\
  Quizzes.questions (ui (Quizzes.run_task left w)) = [] /\
  Quizzes.userAnswers (ui (Quizzes.run_task left w)) = ∅ /\
  Quizzes.currentQuestionIndex (ui (Quizzes.run_task left w)) = 0 /\
  Quizzes.quizzes (ui (Quizzes.run_task left w)) = Quizzes.quizzes (ui w) /\
  ui (Quizzes.run_task again w) = ui (Quizzes.run_task first w).
Proof.
  intros n first left again H1 H2 Hne.
  pose proof (loadQuiz_fetched q w H1) as Hload. cbv zeta in Hload.
  set (playable := List.filter Quizzes.has_options
                     (Quizzes.stored_questions (Quiz.id q) (backend w))) in *.
  destruct (Z.eqb_spec (Z.of_nat (length playable)) 0) as [Hz|_].
  { destruct playable; [contradiction|simpl in Hz; lia]. }
  set (s1 := Quizzes.Build_State (Quizzes.quizzes (ui w)) (Some q) playable 0 ∅ false false
               (Quizzes.deleteDialogOpen (ui w)) (Quizzes.quizToDelete (ui w))
               (Quizzes.deleting (ui w))) in *.
  set (s2 := fold_left Quizzes.step ops s1).
  destruct (steps_frame ops s1) as (Hq & Hsr & Hl & Hd & Hqd & Hdel). fold s2 in Hq, Hsr, Hl, Hd, Hqd, Hdel.
  assert (Hleft : left w =
            (Returns tt,
             MkWorld (Quizzes.resetQuiz s2) (backend w)
               (requests w ++ [Quizzes.select_questions (Quiz.id q)])
               (effects w) (timers w) (fate_of w))).
  { subst left first. unfold bind at 1. rewrite Hload.
    cbv [bind Quizzes.perform_ops modify_ui]. reflexivity. }
  assert (Hfirst : ui (Quizzes.run_task first w) = s1).
  { subst first. unfold Quizzes.run_task. rewrite Hload. reflexivity. }
  unfold Quizzes.run_task at 1 2 3 4 5. rewrite Hleft. cbn [snd ui].
  split; [|split; [reflexivity|split; [reflexivity|split; [reflexivity|split]]]].
  - unfold Quizzes.phase, Quizzes.resetQuiz. cbn. now rewrite Hl.
  - cbn. exact Hq.
  - rewrite Hfirst. subst again. unfold Quizzes.run_task, bind at 1. rewrite Hleft.
    match goal with |- context [Quizzes.loadQuiz q ?v] => set (w2 := v) end.
    assert (Hf2 : fate_of w2 (length (requests w2)) = Succeeds).
    { subst w2. cbn [fate_of requests]. rewrite length_snoc. exact H2. }
    pose proof (loadQuiz_fetched q w2 Hf2) as Hload2. cbv zeta in Hload2.
    rewrite Hload2. subst w2. cbn [snd ui backend].
    fold playable.
    destruct (Z.eqb_spec (Z.of_nat (length playable)) 0) as [Hz|_].
    { destruct playable; [contradiction|simpl in Hz; lia]. }
    unfold Quizzes.resetQuiz. cbn. subst s1. f_equal; assumption.
Qed.

Lemma X4_reopening_starts_afresh_witness :
  let w := Sample.quiz_world Sample.browsing Sample.all_succeed in
  let ops := [Quizzes.AnswerSelect "q1" "B"; Quizzes.Next; Quizzes.Next] in
  let again := (Quizzes.loadQuiz Sample.biology ;; Quizzes.perform_ops ops ;;
                modify_ui Quizzes.resetQuiz) ;; Quizzes.loadQuiz Sample.biology in
  Quizzes.currentQuestionIndex (ui (Quizzes.run_task again w)) = 0 /\
  Quizzes.userAnswers (ui (Quizzes.run_task again w)) = ∅.
Proof.
  intros w ops again.
  destruct (X4_reopening_starts_afresh Sample.biology ops w eq_refl eq_refl
              ltac:(discriminate)) as (_ & _ & _ & _ & _ & Hsame).
  subst again. rewrite Hsame. split; vm_compute; reflexivity.
Defined.

(** ** The results screen *)

Lemma compute_score_bounds (qs : list Question.t) (answers : gmap string string) :
  0 <= Quizzes.compute_score qs answers <= Z.of_nat (length qs).
Proof.
  rewrite compute_score_count.
  pose proof (filter_length (Quizzes.answered_correctly answers) qs). lia.
Qed.

Lemma correct_cards_count (answers : gmap string string)
    (f : nat -> Question.t -> Quizzes.ReviewCard) (qs : list Question.t) :
  (forall i q, Quizzes.card_correct (f i q) = Quizzes.answered_correctly answers q) ->
  length (List.filter Quizzes.card_correct (imap f qs))
  = length (List.filter (Quizzes.answered_correctly answers) qs).
Proof.
  revert f. induction qs as [|q qs IH]; intros f Hf; [reflexivity|].
  rewrite imap_cons. cbn [List.filter]. rewrite Hf.
  destruct (Quizzes.answered_correctly answers q); cbn [length];
    rewrite IH by (intros i x; apply Hf); reflexivity.
Qed.

(** X5: the results screen is consistent with itself: it shows one review
    card per question, in order; the number of cards marked correct is the
    score shown, which lies between 0 and the number of questions; and a
    question without a stored answer is shown as "Not answered", marked
    wrong, with its correct answer. *)
Theorem X5_results_screen_is_consistent `{JSRuntime} (s : Quizzes.State) :
  let r := Quizzes.results_screen s in
  let cards := Quizzes.shown_cards r in
  length cards = length (Quizzes.questions s) /\
  Z.of_nat (length (List.filter Quizzes.card_correct cards)) = Quizzes.shown_score r /\
  0 <= Quizzes.shown_score r <= Quizzes.shown_total r /\
  (forall (k : nat) (q : Question.t),
     Quizzes.questions s !! k = Some q ->
     exists card,
       cards !! k = Some card /\
       Quizzes.card_heading card
         = pretty (Z.of_nat k + 1) +:+ ". " +:+ Question.question_text q /\
       Quizzes.card_correct card = Quizzes.answered_correctly (Quizzes.userAnswers s) q /\
       (Quizzes.userAnswers s !! Question.id q = None ->
          Quizzes.card_your_answer card = "Not answered" /\
          Quizzes.card_correct card = false /\
          Quizzes.card_correct_answer card = Some (Question.correct_answer q))).
Proof.
  intros r cards. subst cards r. unfold Quizzes.results_screen.
  cbn [Quizzes.shown_cards Quizzes.shown_score Quizzes.shown_total].
  split; [apply length_imap|]. split; [|split; [apply compute_score_bounds|]].
  - rewrite compute_score_count. f_equal. apply correct_cards_count. reflexivity.
  - intros k q Hk. eexists. split.
    + rewrite list_lookup_imap, Hk. reflexivity.
    + unfold Quizzes.review_card.
      cbn [Quizzes.card_heading Quizzes.card_correct Quizzes.card_your_answer
           Quizzes.card_correct_answer].
      split; [reflexivity|]. split; [reflexivity|].
      intros Hnone. unfold Quizzes.answered_correctly. rewrite Hnone.
      rewrite bool_decide_eq_false_2 by discriminate. auto.
Qed.

Lemma X5_results_screen_is_consistent_witness :
  exists card,
    Quizzes.shown_cards (Quizzes.results_screen (H := Sample.runtime) Sample.answered)
      !! 2%nat = Some card /\
    Quizzes.card_heading card = "3. Third?" /\
    Quizzes.card_your_answer card = "Not answered" /\
    Quizzes.card_correct card = false.
Proof.
  destruct (X5_results_screen_is_consistent (H := Sample.runtime) Sample.answered)
    as (_ & _ & _ & Hcards).
  destruct (Hcards 2%nat Sample.q3 eq_refl) as (card & Hk & Hh & _ & Hnone).
  destruct (Hnone eq_refl) as (Ha & Hc & _).
  exists card. rewrite Hh, Ha, Hc. repeat split. exact Hk.
Defined.

(** ** Deletions that fail *)

(** X6: when no quiz is marked for deletion, confirming does nothing; when
    the deletion of the questions fails, the quiz itself is never asked to
    be deleted: storage and list are unchanged, the dialog stays open on the
    same quiz, an error is shown and the progress flag is cleared. *)
Theorem X6_failed_question_delete_keeps_quiz (user : option string) (w : Quizzes.World) :
  let n := length (requests w) in
  let w' := Quizzes.run_task (Quizzes.handleDeleteConfirm user) w in
  (Quizzes.quizToDelete (ui w) = None \/ Quizzes.quizToDelete (ui w) = Some "" -> w' = w) /\
  (forall qid e,
     Quizzes.quizToDelete (ui w) = Some qid -> qid <> "" ->
     fate_of w n = Fails e \/ fate_of w n = Rejects e ->
     requests w' = requests w ++ [Quizzes.delete_questions qid] /\
     backend w' = backend w /\
     ui w' = Quizzes.setDeleting false (ui w) /\
     effects w' = effects w ++ [console_error "Error deleting quiz:" e;
                                toast_error "Failed to delete quiz"]).
Proof.
  intros n w'. split.
  - intros Hq. subst w'. unfold Quizzes.run_task, Quizzes.handleDeleteConfirm, bind, get_ui.
    destruct Hq as [-> | ->]; destruct w; reflexivity.
  - intros qid e Hq Hne Hfate.
    pose proof (handleDeleteConfirm_run user w qid Hq Hne) as Hrun. cbv zeta in Hrun.
    fold w' in Hrun. fold n in Hrun. rewrite Hrun.
    destruct Hfate as [Hfate|Hfate]; rewrite Hfate; cbn [requests backend ui effects];
      repeat split; reflexivity.
Qed.

Lemma X6_failed_question_delete_keeps_quiz_witness :
  let s := Quizzes.handleDeleteClick "quiz-1" Sample.browsing in
  let w' := Quizzes.run_task (Quizzes.handleDeleteConfirm (Some "u1"))
              (Sample.quiz_world s Sample.first_fails) in
  backend w' = Sample.storage /\
  Quizzes.quizToDelete (ui w') = Some "quiz-1" /\
  Quizzes.deleteDialogOpen (ui w') = true /\
  Quizzes.quizzes (ui w') = [Sample.history; Sample.biology].
Proof.
  intros s w'.
  destruct (X6_failed_question_delete_keeps_quiz (Some "u1")
              (Sample.quiz_world s Sample.first_fails))
    as [_ Hfail].
  destruct (Hfail "quiz-1" (Error "permission denied") eq_refl ltac:(discriminate)
              (or_introl eq_refl)) as (_ & Hb & Hui & _).
  fold w' in Hb, Hui. rewrite Hb, Hui. repeat split; reflexivity.
Defined.

(** X7: when the delete of the questions has resolved without an error
    and the delete of the quiz then fails or rejects, nothing is lost: the
    storage is exactly as it was, the questions of the quiz included, since
    the delete of the questions removes no row under the policies of the
    schema; an error is shown, the list is unchanged and the dialog stays
    open on the same quiz. *)
Theorem X7_failed_quiz_delete_changes_nothing (user : option string) (w : Quizzes.World)
    (qid : string) (e : js_error) :
  let n := length (requests w) in
  let w' := Quizzes.run_task (Quizzes.handleDeleteConfirm user) w in
  Quizzes.quizToDelete (ui w) = Some qid -> qid <> "" ->
  fate_of w n = Succeeds ->
  fate_of w (S n) = Fails e \/ fate_of w (S n) = Rejects e ->
  backend w' = backend w /\
  ui w' = Quizzes.setDeleting false (ui w) /\
  requests w' = requests w ++ [Quizzes.delete_questions qid; Quizzes.delete_quiz qid] /\
  effects w' = effects w ++ [console_error "Error deleting quiz:" e;
                             toast_error "Failed to delete quiz"].
Proof.
  intros n w' Hq Hne H1 H2.
  pose proof (handleDeleteConfirm_run user w qid Hq Hne) as Hrun. cbv zeta in Hrun.
  fold w' in Hrun. fold n in Hrun. rewrite Hrun, H1.
  destruct H2 as [H2|H2]; rewrite H2; cbn [requests backend ui effects];
    repeat split; reflexivity.
Qed.

Lemma X7_failed_quiz_delete_changes_nothing_witness :
  let s := Quizzes.handleDeleteClick "quiz-1" Sample.browsing in
  let fates := fun k => match k with 1%nat => Rejects (Error "Failed to fetch")
                                   | _ => Succeeds end in
  let w' := Quizzes.run_task (Quizzes.handleDeleteConfirm (Some "u1"))
              (Sample.quiz_world s fates) in
  backend w' = Sample.storage /\
  Quizzes.quizToDelete (ui w') = Some "quiz-1" /\
  Quizzes.quizzes (ui w') = [Sample.history; Sample.biology].
Proof.
  intros s fates w'.
  destruct (X7_failed_quiz_delete_changes_nothing (Some "u1") (Sample.quiz_world s fates)
              "quiz-1" (Error "Failed to fetch") eq_refl ltac:(discriminate) eq_refl
              (or_intror eq_refl)) as (Hb & Hui & _).
  fold w' in Hb, Hui. rewrite Hb, Hui. repeat split; reflexivity.
Defined.

(** ** Submitting more than once, and inserts that return an error *)

Lemma handleSubmit_fails `{JSRuntime} (user : option string) (w : Quizzes.World) (e : js_error) :
  fate_of w (length (requests w)) = Fails e ->
  let s := ui w in
  let sc := Quizzes.compute_score (Quizzes.questions s) (Quizzes.userAnswers s) in
  let pct := Quizzes.compute_percentage sc (Quizzes.questions s) in
  let row := {| Quizzes.attempt_user_id := user;
                Quizzes.attempt_quiz_id := Quiz.id <$> Quizzes.selectedQuiz s;
                Quizzes.score := pct;
                Quizzes.total_questions := Z.of_nat (length (Quizzes.questions s)) |} in
  Quizzes.handleSubmit user w =
    (Returns tt,
     MkWorld (Quizzes.setShowResults true s) (backend w)
       (requests w ++ [Quizzes.insert_quiz_attempt row])
       (effects w ++ [toast_success ("Quiz completed! Score: " +:+ toFixed0 pct +:+ "%")])
       (timers w) (fate_of w)).
Proof.
  intros Hfate. run_task. rewrite Hfate. reflexivity.
Qed.

(** X8: [handleSubmit] does not look at the result of the insert: when the
    insert resolves with an error, no attempt row is stored, and the results
    screen is entered with the same success notification as when the row is
    stored. *)
Theorem X8_submit_ignores_error_result `{JSRuntime} (user : option string)
    (w : Quizzes.World) (e : js_error) :
  let s := ui w in
  let pct := Quizzes.compute_percentage
               (Quizzes.compute_score (Quizzes.questions s) (Quizzes.userAnswers s))
               (Quizzes.questions s) in
  let w' := Quizzes.run_task (Quizzes.handleSubmit user) w in
  fate_of w (length (requests w)) = Fails e ->
  backend w' = backend w /\
  ui w' = Quizzes.setShowResults true s /\
  effects w' = effects w ++
               [toast_success ("Quiz completed! Score: " +:+ toFixed0 pct +:+ "%")].
Proof.
  intros s pct w' Hfate. subst w'. unfold Quizzes.run_task.
  rewrite (handleSubmit_fails user w e Hfate). repeat split; reflexivity.
Qed.

Lemma X8_submit_ignores_error_result_witness :
  let w := Sample.quiz_world Sample.answered Sample.first_fails in
  let w' := Quizzes.run_task (Quizzes.handleSubmit (H := Sample.runtime) (Some "u1")) w in
  Quizzes.quiz_attempts_table (backend w') = [] /\
  Quizzes.phase (ui w') = Quizzes.Results /\
  effects w' = [toast_success "Quiz completed! Score: 33%"].
Proof.
  intros w w'.
  destruct (X8_submit_ignores_error_result (H := Sample.runtime) (Some "u1") w
              (Error "permission denied") eq_refl) as (Hb & Hui & Hfx).
  fold w' in Hb, Hui, Hfx. rewrite Hb, Hui, Hfx. repeat split; vm_compute; reflexivity.
Defined.

(** X9: the [Review Answers] button goes back to the first question with
    every answer kept and still open to change; submitting again after a
    review stores a second attempt row, computed from the answers as they
    are then, after the first one. *)
Theorem X9_review_then_submit_again `{JSRuntime} (user : option string)
    (ops : list Quizzes.Op) (w : Quizzes.World) :
  let n := length (requests w) in
  let s := ui w in
  let reviewed := Quizzes.reviewAnswers (Quizzes.setShowResults true s) in
  let s' := fold_left Quizzes.step ops reviewed in
  let row (answers : gmap string string) :=
    {| Quizzes.attempt_user_id := user;
       Quizzes.attempt_quiz_id := Quiz.id <$> Quizzes.selectedQuiz s;
       Quizzes.score :=
         Quizzes.compute_percentage (Quizzes.compute_score (Quizzes.questions s) answers)
           (Quizzes.questions s);
       Quizzes.total_questions := Z.of_nat (length (Quizzes.questions s)) |} in
  let w' := Quizzes.run_task
              (Quizzes.handleSubmit user ;; modify_ui Quizzes.reviewAnswers ;;
               Quizzes.perform_ops ops ;; Quizzes.handleSubmit user) w in
  fate_of w n = Succeeds -> fate_of w (S n) = Succeeds ->
  Quizzes.currentQuestionIndex reviewed = 0 /\
  Quizzes.userAnswers reviewed = Quizzes.userAnswers s /\
  Quizzes.showResults reviewed = false /\
  Quizzes.quiz_attempts_table (backend w') =
    Quizzes.quiz_attempts_table (backend w)
    ++ [row (Quizzes.userAnswers s); row (Quizzes.userAnswers s')].
Proof.
  intros n s reviewed s' row w' H1 H2.
  split; [reflexivity|]. split; [reflexivity|]. split; [reflexivity|].
  subst w'. unfold Quizzes.run_task, bind at 1.
  rewrite (handleSubmit_succeeds user w H1).
  cbv [bind modify_ui Quizzes.perform_ops]. cbn [ui backend requests effects timers fate_of].
  fold s. fold reviewed. fold s'.
  match goal with |- context [Quizzes.handleSubmit user ?v] => set (w2 := v) end.
  assert (Hf : fate_of w2 (length (requests w2)) = Succeeds).
  { subst w2. cbn [fate_of requests]. rewrite length_snoc. exact H2. }
  rewrite (handleSubmit_succeeds user w2 Hf).
  subst w2. cbn [snd backend ui Quizzes.add_attempt Quizzes.quiz_attempts_table].
  destruct (steps_questions ops reviewed) as [Hqs Hsel]. fold s' in Hqs, Hsel.
  rewrite Hqs, Hsel. rewrite <- app_assoc. reflexivity.
Qed.

Lemma X9_review_then_submit_again_witness :
  let w := Sample.quiz_world Sample.answered Sample.all_succeed in
  let ops := [Quizzes.Next; Quizzes.AnswerSelect "q2" "B"; Quizzes.Next;
              Quizzes.AnswerSelect "q3" "True"] in
  let w' := Quizzes.run_task
              (Quizzes.handleSubmit (H := Sample.runtime) (Some "u1") ;;
               modify_ui Quizzes.reviewAnswers ;; Quizzes.perform_ops ops ;;
               Quizzes.handleSubmit (H := Sample.runtime) (Some "u1")) w in
  map (fun a => toFixed0 (H := Sample.runtime) (Quizzes.score a))
    (Quizzes.quiz_attempts_table (backend w')) = ["33"; "100"].
Proof.
  intros w ops w'.
  destruct (X9_review_then_submit_again (H := Sample.runtime) (Some "u1") ops w
              eq_refl eq_refl) as (_ & _ & _ & Hrows).
  fold w' in Hrows. rewrite Hrows. vm_compute. reflexivity.
Defined.

(** ** What is on screen during a session *)









Lemma step_playable (s : Quizzes.State) (ops : list Quizzes.Op) :
  Forall (fun q => Quizzes.has_options q = true) (Quizzes.questions s) ->
  Forall (fun q => Quizzes.has_options q = true)
    (Quizzes.questions (fold_left Quizzes.step ops s)).
Proof. destruct (steps_questions ops s) as [-> _]. auto. Qed.



(** ** Handlers catch what they throw *)

Ltac crunch_fates :=
  repeat (cbn [fate_of requests ui backend effects timers error data fst snd];
          match goal with
          | |- context [match fate_of ?w ?n with _ => _ end] => destruct (fate_of w n)
          | |- context [if ?c then _ else _] => destruct c
          end);
  cbn [fate_of requests ui backend effects timers error data fst snd].

(** X11: the handlers of the quiz page never let an error escape: listing,
    loading, deleting and submitting all return normally whatever the
    requests do; and the flags that disable the page are always cleared:
    [loading] after a load or a listing, [deleting] after a confirmed
    deletion. *)
Theorem X11_quiz_handlers_catch_everything `{JSRuntime} (user : option string) (q : Quiz.t)
    (w : Quizzes.World) :
  fst (Quizzes.fetchQuizzes user w) = Returns tt /\
  fst (Quizzes.loadQuiz q w) = Returns tt /\
  fst (Quizzes.handleDeleteConfirm user w) = Returns tt /\
  fst (Quizzes.handleSubmit user w) = Returns tt /\
  Quizzes.loading (ui (snd (Quizzes.loadQuiz q w))) = false /\
  (user <> None -> Quizzes.loading (ui (snd (Quizzes.fetchQuizzes user w))) = false) /\
  (forall qid, Quizzes.quizToDelete (ui w) = Some qid -> qid <> "" ->
               Quizzes.deleting (ui (snd (Quizzes.handleDeleteConfirm user w))) = false).
Proof.
  repeat split.
  - unfold Quizzes.fetchQuizzes. destruct user as [uid|]; [|reflexivity].
    cbv [bind try_catch finally await modify_ui perform throw ret Quizzes.rows_of_user].
    crunch_fates; reflexivity.
  - run_task. cbv [Quizzes.rows_of_quiz]. crunch_fates; reflexivity.
  - run_task. destruct (Quizzes.quizToDelete (ui w)) as [[|c qid]|]; try reflexivity.
    cbv [Quizzes.drop_questions Quizzes.drop_quiz]. crunch_fates; reflexivity.
  - run_task. cbv [Quizzes.add_attempt]. crunch_fates; reflexivity.
  - run_task. cbv [Quizzes.rows_of_quiz]. crunch_fates; reflexivity.
  - intros Huser. unfold Quizzes.fetchQuizzes. destruct user as [uid|]; [|contradiction].
    cbv [bind try_catch finally await modify_ui perform throw ret Quizzes.rows_of_user].
    crunch_fates; reflexivity.
  - intros qid Hq Hne. run_task. rewrite Hq. destruct qid as [|c qid]; [contradiction|].
    cbv [Quizzes.drop_questions Quizzes.drop_quiz]. crunch_fates; reflexivity.
Qed.

Lemma X11_quiz_handlers_catch_everything_witness :
  let s := Quizzes.handleDeleteClick "quiz-1" Sample.browsing in
  let w := Sample.quiz_world s Sample.first_rejects in
  Quizzes.deleting (ui (snd (Quizzes.handleDeleteConfirm None w))) = false /\
  fst (Quizzes.handleDeleteConfirm None w) = Returns tt.
Proof.
  intros s w.
  destruct (X11_quiz_handlers_catch_everything (H := Sample.runtime) None Sample.biology w)
    as (_ & _ & Hret & _ & _ & _ & Hdel).
  split; [apply (Hdel "quiz-1" eq_refl); discriminate|exact Hret].
Defined.

(** ** The list after a deletion *)

Lemma stored_quizzes_without (uid qid : string) (rows : list Quizzes.QuizRow) :
  map Quizzes.quiz
    (filter (fun r => Quizzes.user_id r = uid)
       (filter (fun r => ¬ (Quiz.id (Quizzes.quiz r) = qid /\ Some uid = Some (Quizzes.user_id r)))
          rows))
  = filter (fun q => Quiz.id q ≠ qid)
      (map Quizzes.quiz (filter (fun r => Quizzes.user_id r = uid) rows)).
Proof.
  induction rows as [|r rows IH]; [reflexivity|].
  destruct (decide (Quizzes.user_id r = uid)) as [Hu|Hu];
    destruct (decide (Quiz.id (Quizzes.quiz r) = qid)) as [Hid|Hid].
  - rewrite (filter_cons_False _ r rows) by (intros Hc; apply Hc; split; congruence).
    rewrite (filter_cons_True (fun r => Quizzes.user_id r = uid) r rows) by exact Hu.
    cbn [map]. rewrite filter_cons_False by (intros Hc; contradiction). exact IH.
  - rewrite (filter_cons_True _ r rows) by (intros [Hc _]; contradiction).
    rewrite !(filter_cons_True (fun r => Quizzes.user_id r = uid) r _) by exact Hu.
    cbn [map]. rewrite filter_cons_True by exact Hid. now rewrite IH.
  - rewrite (filter_cons_True _ r rows) by (intros [_ Hc]; congruence).
    rewrite !(filter_cons_False (fun r => Quizzes.user_id r = uid) r _) by exact Hu.
    exact IH.
  - rewrite (filter_cons_True _ r rows) by (intros [Hc _]; contradiction).
    rewrite !(filter_cons_False (fun r => Quizzes.user_id r = uid) r _) by exact Hu.
    exact IH.
Qed.

(** X12: deleting keeps the list in step with the storage. When the list
    held in memory is the list of the stored quizzes of the user, it still is
    after a deletion that went through, although the page filters it locally
    and does not fetch it again: listing the quizzes anew right after gives
    the same list, and the deleted quiz is not in it. *)
Theorem X12_list_stays_in_step_after_delete (uid qid : string) (w : Quizzes.World) :
  let n := length (requests w) in
  let w1 := Quizzes.run_task (Quizzes.handleDeleteConfirm (Some uid)) w in
  let w2 := Quizzes.run_task (Quizzes.fetchQuizzes (Some uid)) w1 in
  Quizzes.quizToDelete (ui w) = Some qid -> qid <> "" ->
  fate_of w n = Succeeds -> fate_of w (S n) = Succeeds -> fate_of w (S (S n)) = Succeeds ->
  Quizzes.quizzes (ui w) = Quizzes.stored_quizzes uid (backend w) ->
  Quizzes.quizzes (ui w1) = Quizzes.stored_quizzes uid (backend w1) /\
  Quizzes.quizzes (ui w2) = Quizzes.quizzes (ui w1) /\
  (forall q, q ∈ Quizzes.quizzes (ui w1) -> Quiz.id q <> qid).
Proof.
  intros n w1 w2 Hq Hne H1 H2 H3 Hsync.
  pose proof (handleDeleteConfirm_run (Some uid) w qid Hq Hne) as Hrun. cbv zeta in Hrun.
  fold w1 in Hrun. fold n in Hrun. rewrite H1, H2 in Hrun.
  assert (Hlist : Quizzes.quizzes (ui w1) = Quizzes.stored_quizzes uid (backend w1)).
  { rewrite Hrun. cbn [ui backend Quizzes.quizzes Quizzes.setDeleting Quizzes.setQuizToDelete
                        Quizzes.setDeleteDialogOpen Quizzes.setQuizzes].
    unfold Quizzes.stored_quizzes.
    destruct (drop_quiz_tables (Some uid) qid (backend w)) as (-> & _).
    rewrite stored_quizzes_without. rewrite Hsync. reflexivity. }
  split; [exact Hlist|]. split.
  - subst w2. unfold Quizzes.run_task, Quizzes.fetchQuizzes.
    cbv [bind try_catch finally await modify_ui perform throw ret Quizzes.rows_of_user].
    assert (Hfate : fate_of w1 (length (requests w1)) = Succeeds).
    { rewrite Hrun. cbn [fate_of requests]. rewrite length_app. cbn [length].
      replace (length (requests w) + 2)%nat with (S (S n)) by (subst n; lia). exact H3. }
    rewrite Hfate. cbn [snd fst ui backend requests effects error data].
    unfold default, id. cbn [Quizzes.quizzes Quizzes.loading Quizzes.setQuizzes
                               Quizzes.setLoading].
    symmetry. exact Hlist.
  - intros q Hin. rewrite Hrun in Hin.
    cbn [ui Quizzes.quizzes Quizzes.setDeleting Quizzes.setQuizToDelete
         Quizzes.setDeleteDialogOpen Quizzes.setQuizzes] in Hin.
    apply list_elem_of_filter in Hin as [Hid _]. exact Hid.
Qed.

Lemma X12_list_stays_in_step_after_delete_witness :
  let s := Quizzes.handleDeleteClick (Quiz.id Sample.biology) Sample.browsing in
  let w := Sample.quiz_world s Sample.all_succeed in
  let w1 := Quizzes.run_task (Quizzes.handleDeleteConfirm (Some "u1")) w in
  Quizzes.quizzes (ui w1) = Quizzes.stored_quizzes "u1" (backend w1) /\
  Sample.biology ∉ Quizzes.quizzes (ui w1).
Proof.
  intros s w w1.
  destruct (X12_list_stays_in_step_after_delete "u1" (Quiz.id Sample.biology) w
              eq_refl ltac:(discriminate) eq_refl eq_refl eq_refl eq_refl)
    as (Hsync & _ & Hgone).
  split; [exact Hsync|]. intros Hin. exact (Hgone _ Hin eq_refl).
Defined.
(** * Further properties of the materials page *)

(** ** Tasks that show nothing to the user *)

Section Silent.
Context {U B R : Type}.

Lemma silent_still {A} (t : task U B R A) :
  (forall w, ui (snd (t w)) = ui w /\ timers (snd (t w)) = timers w /\
             effects (snd (t w)) = effects w) ->
  @silent U B R A t.
Proof.
  intros Hq w. destruct (Hq w) as (Hu & Ht & He). split; [exact Hu|]. split; [exact Ht|].
  exists []. rewrite app_nil_r. auto.
Qed.

Lemma silent_ret {A} (a : A) : @silent U B R A (ret a).
Proof. apply silent_still. auto. Qed.

Lemma silent_throw {A} (e : js_error) : @silent U B R A (throw e).
Proof. apply silent_still. auto. Qed.

Lemma silent_prop (v : jsval) (name : string) : @silent U B R jsval (prop v name).
Proof. unfold prop. destruct (get v name); [apply silent_ret|apply silent_throw]. Qed.

Lemma silent_text_of `{JSRuntime} (v : jsval) : @silent U B R string (text_of v).
Proof. apply silent_still. auto. Qed.

Lemma silent_await {A} (r : R) (exec : B -> A * B) : @silent U B R _ (await r exec).
Proof.
  apply silent_still. intros w. unfold await.
  destruct (fate_of w (length (requests w))); [destruct (exec (backend w))|..]; auto.
Qed.

Lemma silent_log (label : string) (e : js_error) :
  @silent U B R unit (perform (console_error label e)).
Proof.
  intros w. split; [reflexivity|]. split; [reflexivity|].
  exists [console_error label e]. auto.
Qed.

Lemma silent_bind {A C} (t : task U B R A) (k : A -> task U B R C) :
  silent t -> (forall a, silent (k a)) -> silent (bind t k).
Proof.
  intros Ht Hk w. unfold bind. destruct (Ht w) as (Hu & Htm & logs & Hfx & Hlogs).
  destruct (t w) as [[a|e] w1]; cbn [snd] in *.
  - destruct (Hk a w1) as (Hu' & Htm' & logs' & Hfx' & Hlogs').
    split; [congruence|]. split; [congruence|]. exists (logs ++ logs').
    rewrite Hfx', Hfx, app_assoc, forallb_app, Hlogs, Hlogs'. auto.
  - split; [exact Hu|]. split; [exact Htm|]. exists logs. auto.
Qed.

Lemma silent_try_catch {A} (body : task U B R A) (h : js_error -> task U B R A) :
  silent body -> (forall e, silent (h e)) -> silent (try_catch body h).
Proof.
  intros Hb Hh w. unfold try_catch. destruct (Hb w) as (Hu & Htm & logs & Hfx & Hlogs).
  destruct (body w) as [[a|e] w1]; cbn [snd] in *.
  - split; [exact Hu|]. split; [exact Htm|]. exists logs. auto.
  - destruct (Hh e w1) as (Hu' & Htm' & logs' & Hfx' & Hlogs').
    split; [congruence|]. split; [congruence|]. exists (logs ++ logs').
    rewrite Hfx', Hfx, app_assoc, forallb_app, Hlogs, Hlogs'. auto.
Qed.

Lemma silent_Array_map {A} (f : jsval -> task U B R A) (items : list jsval) :
  (forall i, silent (f i)) -> silent (Array_map f items).
Proof.
  intros Hf. induction items as [|i rest IH]; simpl.
  - apply silent_ret.
  - apply silent_bind; [apply Hf|]. intros x.
    apply silent_bind; [exact IH|]. intros xs. apply silent_ret.
Qed.
End Silent.

Lemma silent_id_of {A} (row : option (string * A)) : silent (Materials.id_of row).
Proof.
  unfold Materials.id_of. destruct row as [[i x]|]; [apply silent_ret|apply silent_throw].
Qed.

Ltac silent_step :=
  match goal with
  | |- forall _, _ => intro
  | |- silent (bind _ _) => apply silent_bind
  | |- silent (try_catch _ _) => apply silent_try_catch
  | |- silent (await _ _) => apply silent_await
  | |- silent (Array_map _ _) => apply silent_Array_map
  | |- silent (prop _ _) => apply silent_prop
  | |- silent (text_of _) => apply silent_text_of
  | |- silent (ret _) => apply silent_ret
  | |- silent (throw _) => apply silent_throw
  | |- silent (perform (console_error _ _)) => apply silent_log
  | |- silent (Materials.id_of _) => apply silent_id_of
  | |- silent (if ?c then _ else _) => destruct c
  | |- silent (match ?x with _ => _ end) => destruct x
  end.

Lemma saveMaterialAndContent_silent `{JSRuntime} (user : option string)
    (materialTitle : jsval) (materialContent sourceType : string) (generatedData : jsval) :
  silent (Materials.saveMaterialAndContent user materialTitle materialContent sourceType
            generatedData).
Proof.
  unfold Materials.saveMaterialAndContent, Materials.save_derived_content,
    Materials.save_notes, Materials.save_flashcards, Materials.save_quiz,
    Materials.flashcard_row, Materials.question_row.
  repeat silent_step.
Qed.

(** ** How a generation ends *)

Lemma generation_ends `{JSRuntime} (user : option string) (w : Materials.World)
    (fn : EdgeFunction.name) (body : list (string * string))
    (title_of : jsval -> completion jsval) (content fallback label source first second : string)
    (done : Materials.State -> Materials.State * list effect) :
  let t := generation_run user fn body title_of content fallback label source first second
             done in
  fst (t w) = Returns tt /\
  Materials.loading (ui (snd (t w))) = false /\
  ended_one_way w (snd (t w)) [first; second; Materials.all_done] fallback done.
Proof.
  intros t. subst t. unfold ended_one_way, generation_run.
  cbv [bind try_catch finally await modify_ui perform throw ret setTimeout Materials.generate].
  cbn [fate_of requests ui backend effects timers].
  destruct (fate_of w (length (requests w))) as [|e|e];
    cbn [fate_of requests ui backend effects timers error data fst snd].
  - unfold default, id.
    destruct (title_of (Materials.generated (backend w) fn body)) as [title|e].
    + match goal with
      | |- context [Materials.saveMaterialAndContent user ?ti content source ?d ?v] =>
          pose proof (saveMaterialAndContent_silent user ti content source d v)
            as (Hu & Htm & logs & Hfx & Hlogs);
          destruct (Materials.saveMaterialAndContent user ti content source d v)
            as [[r|e] v1]
      end; cbn [fst snd ui timers effects] in *.
      * split; [reflexivity|]. split; [reflexivity|]. exists logs. split; [exact Hlogs|].
        left. rewrite Hu, Htm, Hfx. repeat split; reflexivity.
      * split; [reflexivity|]. split; [reflexivity|].
        exists (logs ++ [console_error label e]). split.
        { rewrite forallb_app, Hlogs. reflexivity. }
        right. rewrite Hu, Htm, Hfx. split; [reflexivity|]. split; [reflexivity|].
        exists e. now rewrite <- !app_assoc.
    + split; [reflexivity|]. split; [reflexivity|].
      exists [console_error label e]. split; [reflexivity|].
      right. split; [reflexivity|]. split; [reflexivity|]. exists e.
      now rewrite <- !app_assoc.
  - split; [reflexivity|]. split; [reflexivity|].
    exists [console_error label e]. split; [reflexivity|].
    right. split; [reflexivity|]. split; [reflexivity|]. exists e. now rewrite <- !app_assoc.
  - split; [reflexivity|]. split; [reflexivity|].
    exists [console_error label e]. split; [reflexivity|].
    right. split; [reflexivity|]. split; [reflexivity|]. exists e. now rewrite <- !app_assoc.
Qed.

Lemma handleTopicGenerate_run `{JSRuntime} (user : option string) (w : Materials.World) :
  trim (Materials.topic (ui w)) <> "" ->
  Materials.handleTopicGenerate user w = topic_run user (Materials.topic (ui w)) w.
Proof.
  intros Hne. unfold Materials.handleTopicGenerate, topic_run, generation_run, topic_title.
  unfold bind at 1, get_ui.
  destruct (String.eqb_spec (trim (Materials.topic (ui w))) "") as [Heq|_]; [contradiction|].
  cbv [bind try_catch finally await modify_ui perform throw ret setTimeout prop
       Materials.generate].
  cbn [fate_of requests ui backend effects timers].
  destruct (fate_of w (length (requests w)));
    cbn [fate_of requests ui backend effects timers error data fst snd]; try reflexivity.
  unfold default, id.
  destruct (get _ "title"); reflexivity.
Qed.

Lemma handleTextSubmit_run `{JSRuntime} (user : option string) (w : Materials.World) :
  trim (Materials.text (ui w)) <> "" ->
  Materials.handleTextSubmit user w = text_run user (Materials.text (ui w)) w.
Proof.
  intros Hne. unfold Materials.handleTextSubmit, text_run, generation_run.
  unfold bind at 1, get_ui.
  destruct (String.eqb_spec (trim (Materials.text (ui w))) "") as [Heq|_]; [contradiction|].
  reflexivity.
Qed.

Lemma blank_handlers_return `{JSRuntime} (user : option string) (w : Materials.World) :
  fst (Materials.handleTopicGenerate user w) = Returns tt /\
  fst (Materials.handleTextSubmit user w) = Returns tt.
Proof.
  split.
  - destruct (String.eqb_spec (trim (Materials.topic (ui w))) "") as [Heq|Hne].
    + unfold Materials.handleTopicGenerate, bind at 1, get_ui. rewrite Heq. reflexivity.
    + rewrite handleTopicGenerate_run by exact Hne. apply generation_ends.
  - destruct (String.eqb_spec (trim (Materials.text (ui w))) "") as [Heq|Hne].
    + unfold Materials.handleTextSubmit, bind at 1, get_ui. rewrite Heq. reflexivity.
    + rewrite handleTextSubmit_run by exact Hne. apply generation_ends.
Qed.

(** X13: the two generation handlers never let an error escape, and a run
    on an input that is not blank always ends with [loading] cleared and in
    exactly one of two ways: the success callback is registered after the
    three progress lines and nothing is shown yet, or exactly one error
    notification is shown, no callback is registered and the progress is
    cleared. Apart from that only console lines are added. *)
Theorem X13_generation_ends_one_way `{JSRuntime} (user : option string) (w : Materials.World) :
  let by_topic := Materials.handleTopicGenerate user w in
  let by_text := Materials.handleTextSubmit user w in
  fst by_topic = Returns tt /\
  fst by_text = Returns tt /\
  (trim (Materials.topic (ui w)) <> "" ->
     Materials.loading (ui (snd by_topic)) = false /\
     ended_one_way w (snd by_topic)
       ["Generating content from AI..."; "Content generated! Saving to your workspace...";
        Materials.all_done]
       "Failed to generate materials" Materials.topic_done) /\
  (trim (Materials.text (ui w)) <> "" ->
     Materials.loading (ui (snd by_text)) = false /\
     ended_one_way w (snd by_text)
       ["Analyzing your material..."; "Creating study materials..."; Materials.all_done]
       "Failed to process material" Materials.text_done).
Proof.
  intros by_topic by_text. subst by_topic by_text.
  destruct (blank_handlers_return user w) as [Ht Hx].
  split; [exact Ht|]. split; [exact Hx|]. split; intros Hne.
  - rewrite handleTopicGenerate_run by exact Hne. apply generation_ends.
  - rewrite handleTextSubmit_run by exact Hne. apply generation_ends.
Qed.

Lemma X13_generation_ends_one_way_witness :
  let w := SampleMaterials.page (SampleMaterials.typed "" "Osmosis") SampleMaterials.osmosis
             (SampleMaterials.fates_of [Succeeds; Succeeds; Rejects (Error "Failed to fetch")]) in
  let w' := snd (Materials.handleTopicGenerate (H := Sample.runtime) (Some "u1") w) in
  Materials.loading (ui w') = false /\
  timers w' = [] /\
  filter (fun x => is_log x = false) (effects w') = [toast_error "Failed to fetch"].
Proof.
  intros w w'.
  destruct (X13_generation_ends_one_way (H := Sample.runtime) (Some "u1") w)
    as (_ & _ & Htopic & _).
  destruct (Htopic ltac:(discriminate)) as [Hload _].
  split; [exact Hload|]. split; vm_compute; reflexivity.
Defined.

(** ** The replies of the edge functions *)

Ltac split_handler :=
  repeat match goal with
         | |- context [match ?x with _ => _ end] =>
             lazymatch x with
             | context [match _ with _ => _ end] => fail
             | _ => destruct x eqn:?
             end
         end.

Lemma ok_200 : EdgeFunction.ok 200 = true.
Proof. reflexivity. Qed.

Lemma ok_not_error (code : Z) :
  code ∈ [400; 402; 429; 500] -> EdgeFunction.ok code = false.
Proof.
  intros Hin. repeat (apply elem_of_cons in Hin as [->|Hin]; [reflexivity|]).
  now apply elem_of_nil in Hin.
Qed.

(** X14: whatever the request, the key and the answer of the completion
    endpoint, an edge function answers with one of five statuses; an answer
    with another status than 200 carries an [error] message and nothing
    else; and an answer with status 200 to a request that is not a
    preflight carries the study content parsed from a completion that the
    endpoint delivered with a success status, for a request that passed the
    checks. *)
Theorem X14_edge_function_replies `{JSRuntime} (fn : EdgeFunction.name) (method : string)
    (request : js_error + jsval) (api_key : option string)
    (upstream : js_error + EdgeFunction.Upstream) :
  let r := EdgeFunction.handler fn method request api_key upstream in
  EdgeFunction.status r ∈ reply_statuses /\
  (EdgeFunction.status r <> 200 ->
     exists msg, r = EdgeFunction.error_reply (EdgeFunction.status r) msg) /\
  (EdgeFunction.status r = 200 -> method <> "OPTIONS" ->
     exists req up data,
       request = inr req /\ accepted fn req api_key /\
       upstream = inr up /\ EdgeFunction.ok (EdgeFunction.up_status up) = true /\
       EdgeFunction.up_json up = inr data /\
       EdgeFunction.parse_completion fn data = inr (EdgeFunction.body r)).
Proof.
  intros r. subst r. unfold EdgeFunction.handler, EdgeFunction.respond, reply_statuses.
  split_handler; cbn [EdgeFunction.status EdgeFunction.error_reply EdgeFunction.body];
    (split; [repeat first [apply list_elem_of_here | apply list_elem_of_further]|]);
    (split; [intros Hs; try (exfalso; apply Hs; reflexivity); eexists; reflexivity|]);
    intros Hs Hm; try discriminate.
  - apply String.eqb_eq in Heqb. contradiction.
  - subst. eexists _, _, _. split; [reflexivity|]. split.
    + eexists _, _, _. split; [eassumption|]. split.
      * intros Ht. rewrite Ht in *. discriminate.
      * split; [reflexivity|]. split; [discriminate|eassumption].
    + split; [reflexivity|]. split; [now destruct (EdgeFunction.ok _)|].
      split; [eassumption|]. assumption.
Qed.

Lemma X14_edge_function_replies_witness :
  EdgeFunction.status
    (EdgeFunction.handler (H := Sample.runtime) EdgeFunction.process_material "POST"
       (inr (JObj [("content", JStr "Osmosis moves water.")])) (Some "secret")
       (inr {| EdgeFunction.up_status := 503; EdgeFunction.up_text := inr "busy";
               EdgeFunction.up_json := inl (Error "Unexpected token") |})) = 500 /\
  exists msg,
    EdgeFunction.handler (H := Sample.runtime) EdgeFunction.process_material "POST"
      (inr (JObj [("content", JStr "Osmosis moves water.")])) (Some "secret")
      (inr {| EdgeFunction.up_status := 503; EdgeFunction.up_text := inr "busy";
              EdgeFunction.up_json := inl (Error "Unexpected token") |})
    = EdgeFunction.error_reply 500 msg.
Proof.
  split; [reflexivity|].
  destruct (X14_edge_function_replies (H := Sample.runtime) EdgeFunction.process_material
              "POST" (inr (JObj [("content", JStr "Osmosis moves water.")])) (Some "secret")
              (inr {| EdgeFunction.up_status := 503; EdgeFunction.up_text := inr "busy";
                      EdgeFunction.up_json := inl (Error "Unexpected token") |}))
    as (_ & Herr & _).
  exact (Herr ltac:(discriminate)).
Defined.

(** X15: an edge function answers with status 400 exactly when the body
    of a request that is not a preflight could be read and its required
    field is missing, falsy or a string of white space only; the answer then
    carries the message of the missing input, whatever the key and the
    completion endpoint are. *)
Theorem X15_status_400_is_blank_input `{JSRuntime} (fn : EdgeFunction.name) (method : string)
    (request : js_error + jsval) (api_key : option string)
    (upstream : js_error + EdgeFunction.Upstream) :
  let r := EdgeFunction.handler fn method request api_key upstream in
  let refused :=
    method <> "OPTIONS" /\
    exists req input,
      request = inr req /\ get req (EdgeFunction.required_field fn) = Some input /\
      missing_or_blank input = true in
  (EdgeFunction.status r = 400 <-> refused) /\
  (refused -> r = EdgeFunction.error_reply 400 (EdgeFunction.required_message fn)).
Proof.
  intros r refused. subst r refused.
  unfold EdgeFunction.handler, EdgeFunction.respond, missing_or_blank.
  split; [split|].
  - split_handler; cbn [EdgeFunction.status EdgeFunction.error_reply]; intros Hs;
      try discriminate;
      (split; [intros ->; discriminate|]);
      eexists _, _; (split; [reflexivity|]); (split; [eassumption|]);
      cbn [negb orb]; try reflexivity;
      match goal with Hn : negb (truthy _) = _ |- _ => rewrite Hn end;
      first [reflexivity | assumption].
  - intros (Hm & req & input & -> & Hget & Hblank).
    destruct (String.eqb_spec method "OPTIONS") as [|_]; [contradiction|].
    rewrite Hget.
    destruct (negb (truthy input)) eqn:Ht; [reflexivity|].
    destruct input; try discriminate. cbn [orb] in Hblank. rewrite Hblank. reflexivity.
  - intros (Hm & req & input & -> & Hget & Hblank).
    destruct (String.eqb_spec method "OPTIONS") as [|_]; [contradiction|].
    rewrite Hget.
    destruct (negb (truthy input)) eqn:Ht; [reflexivity|].
    destruct input; try discriminate. cbn [orb] in Hblank. rewrite Hblank. reflexivity.
Qed.

Lemma X15_status_400_is_blank_input_witness :
  EdgeFunction.handler (H := Sample.runtime) EdgeFunction.generate_from_topic "POST"
    (inr (JObj [("subject", JStr "Osmosis")])) None (inl (Error "Failed to fetch"))
  = EdgeFunction.error_reply 400 "Topic is required".
Proof.
  apply (X15_status_400_is_blank_input (H := Sample.runtime)).
  split; [discriminate|]. eexists _, _. repeat split; reflexivity.
Defined.

(** X16: a request body that cannot be checked is answered with status
    500, not 400: a body that is not JSON with the message of the parser, a
    body that is [null] with the message of the failed destructuring, and a
    required field that is truthy but not a string (a number, [true], an
    array, an object) with the message that [trim] is not a function. *)
Theorem X16_malformed_request_is_500 `{JSRuntime} (fn : EdgeFunction.name) (method : string)
    (api_key : option string) (upstream : js_error + EdgeFunction.Upstream) :
  method <> "OPTIONS" ->
  (forall e, EdgeFunction.handler fn method (inl e) api_key upstream
             = EdgeFunction.error_reply 500 (message e)) /\
  (forall req, nullish req = true ->
     EdgeFunction.handler fn method (inr req) api_key upstream
     = EdgeFunction.error_reply 500
         (message (cannot_destructure req (EdgeFunction.required_field fn)))) /\
  (forall req input,
     get req (EdgeFunction.required_field fn) = Some input ->
     truthy input = true -> (forall s, input <> JStr s) ->
     EdgeFunction.handler fn method (inr req) api_key upstream
     = EdgeFunction.error_reply 500 (EdgeFunction.required_field fn +:+ ".trim is not a function")).
Proof.
  intros Hm. unfold EdgeFunction.handler, EdgeFunction.respond.
  destruct (String.eqb_spec method "OPTIONS") as [|_]; [contradiction|].
  split; [reflexivity|]. split.
  - intros req Hn. destruct req; try discriminate; reflexivity.
  - intros req input Hget Ht Hs. rewrite Hget, Ht. cbn [negb].
    destruct input; try discriminate; try (destruct fn; reflexivity).
    exfalso. exact (Hs _ eq_refl).
Qed.

Lemma X16_malformed_request_is_500_witness :
  EdgeFunction.handler (H := Sample.runtime) EdgeFunction.process_material "POST"
    (inr (JObj [("content", JArr [JStr "Osmosis"])])) (Some "secret")
    (inl (Error "Failed to fetch"))
  = EdgeFunction.error_reply 500 "content.trim is not a function".
Proof.
  destruct (X16_malformed_request_is_500 (H := Sample.runtime) EdgeFunction.process_material
              "POST" (Some "secret") (inl (Error "Failed to fetch")) ltac:(discriminate))
    as (_ & _ & Htrim).
  apply (Htrim _ (JArr [JStr "Osmosis"])); [reflexivity|reflexivity|discriminate].
Defined.



(** ** The page and the edge function together *)

Lemma drop_spaces_split (l : list ascii) :
  exists ws, forallb js_space ws = true /\ l = ws ++ drop_spaces l /\
             (drop_spaces l = [] \/ starts_dark (drop_spaces l)).
Proof.
  induction l as [|c l (ws & Hws & Hl & Hd)]; [exists []; auto|].
  simpl. destruct (js_space c) eqn:Hc.
  - exists (c :: ws). simpl. rewrite Hc, Hws. split; [reflexivity|]. split; [|exact Hd].
    now rewrite <- Hl.
  - exists []. split; [reflexivity|]. split; [reflexivity|]. right. exact Hc.
Qed.

Lemma trim_chars_idempotent (l : list ascii) : trim_chars (trim_chars l) = trim_chars l.
Proof.
  unfold trim_chars at 2 3.
  destruct (drop_spaces_split l) as (_ & _ & _ & Hd).
  destruct (drop_spaces_split (rev (drop_spaces l))) as (ws & Hws & Hl & He).
  set (d := drop_spaces l) in *. set (e := drop_spaces (rev d)) in *.
  destruct He as [He|He]; [now rewrite He|].
  assert (Hd' : d = rev e ++ rev ws).
  { rewrite <- (rev_involutive d), Hl, rev_app_distr. reflexivity. }
  assert (Hre : starts_dark (rev e)).
  { destruct (rev e) as [|c r] eqn:Hr.
    - destruct e; [contradiction|]. apply (f_equal (@length _)) in Hr.
      rewrite length_rev in Hr. discriminate.
    - rewrite Hd' in Hd. destruct Hd as [Hd|Hd]; [discriminate|exact Hd]. }
  rewrite <- (app_nil_r (rev e)) at 1.
  apply (trim_chars_core [] (rev e) []); [reflexivity|reflexivity|exact Hre|].
  now rewrite rev_involutive.
Qed.

Lemma trim_idempotent (s : string) : trim (trim s) = trim s.
Proof.
  unfold trim. rewrite list_ascii_of_string_of_list_ascii.
  now rewrite trim_chars_idempotent.
Qed.

Lemma truthy_not_empty (s : string) : s <> "" -> truthy (JStr s) = true.
Proof. destruct s; [contradiction|reflexivity]. Qed.

Lemma reply_to_trimmed_input `{JSRuntime} (fn : EdgeFunction.name) (request : jsval)
    (input : string) (api_key : option string)
    (upstream : js_error + EdgeFunction.Upstream) :
  get request (EdgeFunction.required_field fn) = Some (JStr (trim input)) ->
  trim input <> "" ->
  let r := EdgeFunction.handler fn "POST" (inr request) api_key upstream in
  EdgeFunction.status r <> 400 /\
  (EdgeFunction.status r <> 200 -> EdgeFunction.invoke_fate r = Fails non_2xx).
Proof.
  intros Hget Hne r. subst r. unfold EdgeFunction.handler, EdgeFunction.respond.
  cbn [String.eqb Ascii.eqb Bool.eqb]. rewrite Hget, (truthy_not_empty _ Hne).
  rewrite trim_idempotent. cbn [negb].
  destruct (String.eqb_spec (trim input) "") as [|_]; [contradiction|].
  split_handler; cbn [EdgeFunction.status EdgeFunction.error_reply];
    (split; [discriminate|]); intros Hs; try reflexivity.
  exfalso. apply Hs. reflexivity.
Qed.

(** X18: the page and the edge function together. The request the page
    sends for an input that is not blank is never answered with status 400,
    since the page has trimmed and checked the input itself; and whenever
    the edge function answers it with another status than 200, the page
    writes nothing and shows the message of the failed invocation, not the
    message the edge function put in its answer. *)
Theorem X18_page_request_is_never_refused `{JSRuntime} (user : option string)
    (w : Materials.World) (api_key : option string)
    (upstream : js_error + EdgeFunction.Upstream) :
  let topic := Materials.topic (ui w) in
  let text := Materials.text (ui w) in
  let topic_body := [("topic", trim topic)] in
  let text_body := [("content", trim text); ("title", substring0 100 (trim text) +:+ "...")] in
  let reply fn body :=
    EdgeFunction.handler fn "POST" (inr (body_json body)) api_key upstream in
  let by_topic := reply EdgeFunction.generate_from_topic topic_body in
  let by_text := reply EdgeFunction.process_material text_body in
  let next := fate_of w (length (requests w)) in
  (trim topic <> "" ->
     EdgeFunction.status by_topic <> 400 /\
     (EdgeFunction.status by_topic <> 200 -> next = EdgeFunction.invoke_fate by_topic ->
        let w' := snd (Materials.handleTopicGenerate user w) in
        backend w' = backend w /\
        requests w' = requests w ++ [Materials.invoke EdgeFunction.generate_from_topic
                                       topic_body] /\
        effects w' = effects w ++ [console_error "Error generating from topic:" non_2xx;
                                   toast_error (message non_2xx)])) /\
  (trim text <> "" ->
     EdgeFunction.status by_text <> 400 /\
     (EdgeFunction.status by_text <> 200 -> next = EdgeFunction.invoke_fate by_text ->
        let w' := snd (Materials.handleTextSubmit user w) in
        backend w' = backend w /\
        requests w' = requests w ++ [Materials.invoke EdgeFunction.process_material
                                       text_body] /\
        effects w' = effects w ++ [console_error "Error processing material:" non_2xx;
                                   toast_error (message non_2xx)])).
Proof.
  intros topic text topic_body text_body reply by_topic by_text next.
  split; intros Hne.
  - destruct (reply_to_trimmed_input EdgeFunction.generate_from_topic (body_json topic_body)
                topic api_key upstream eq_refl Hne) as [H400 H200].
    split; [exact H400|]. intros Hs Hnext.
    assert (Hfate : fate_of w (length (requests w)) = Fails non_2xx)
      by (etransitivity; [exact Hnext|exact (H200 Hs)]).
    destruct (handleTopicGenerate_fails user w _ Hne Hfate) as (Hb & Hr & Hfx & _).
    auto.
  - destruct (reply_to_trimmed_input EdgeFunction.process_material (body_json text_body)
                text api_key upstream eq_refl Hne) as [H400 H200].
    split; [exact H400|]. intros Hs Hnext.
    assert (Hfate : fate_of w (length (requests w)) = Fails non_2xx)
      by (etransitivity; [exact Hnext|exact (H200 Hs)]).
    destruct (handleTextSubmit_fails user w _ Hne Hfate) as (Hb & Hr & Hfx & _).
    auto.
Qed.

Lemma X18_page_request_is_never_refused_witness :
  let w := SampleMaterials.page (SampleMaterials.typed "" " Osmosis ") SampleMaterials.osmosis
             (fun _ => Fails non_2xx) in
  let w' := snd (Materials.handleTopicGenerate (H := Sample.runtime) (Some "u1") w) in
  EdgeFunction.status
    (EdgeFunction.handler (H := Sample.runtime) EdgeFunction.generate_from_topic "POST"
       (inr (body_json [("topic", "Osmosis")])) None (inl (Error "Failed to fetch"))) <> 400 /\
  backend w' = backend w /\
  effects w' = [console_error "Error generating from topic:" non_2xx;
                toast_error "Edge Function returned a non-2xx status code"].
Proof.
  intros w w'.
  destruct (X18_page_request_is_never_refused (H := Sample.runtime) (Some "u1") w None
              (inl (Error "Failed to fetch"))) as [Htopic _].
  destruct (Htopic ltac:(discriminate)) as [H400 Hshown].
  split; [exact H400|].
  destruct (Hshown ltac:(discriminate) eq_refl) as (Hb & _ & Hfx).
  split; [exact Hb|exact Hfx].
Defined.
(** ** Error results after the material insert *)

Ltac fanout_step :=
  cbv beta iota;
  cbn [fate_of requests backend ui effects timers data error snd fst
       Materials.add_material Materials.add_note Materials.add_flashcards
       Materials.add_quiz Materials.add_questions
       Materials.materials Materials.notes Materials.flashcards
       Materials.quizzes Materials.questions Materials.next_id
       Materials.generated Materials.fresh_id].

Ltac unfold_fanout :=
  cbv [Materials.save_derived_content Materials.save_notes Materials.save_flashcards
       Materials.save_quiz try_catch bind ret await throw perform prop text_of
       Materials.id_of save_failed].

Lemma saveMaterialAndContent_no_reject `{JSRuntime} (uid : string)
    (materialTitle : jsval) (materialContent sourceType : string)
    (generatedData : jsval) (title : string) (w : Materials.World) :
  let t := Materials.saveMaterialAndContent (Some uid) materialTitle materialContent
             sourceType generatedData in
  let material := Materials.Material.Make uid materialTitle materialContent sourceType
                    (field generatedData "summary") in
  nullish generatedData = false ->
  ToString materialTitle = Returns title ->
  Forall (fun c => nullish c = false) (Materials.items_of (field generatedData "flashcards")) ->
  Forall (fun q => nullish q = false)
    (Materials.items_of (field generatedData "quiz_questions")) ->
  fate_of w (length (requests w)) = Succeeds ->
  (forall k e, fate_of w k <> Rejects e) ->
  fst (t w) = Returns (JBool true) /\
  Materials.materials (backend (snd (t w)))
    = Materials.materials (backend w) ++ [(Materials.fresh_id (backend w), material)] /\
  (requests w ++ [Materials.insert_material material]) `prefix_of` requests (snd (t w)) /\
  ui (snd (t w)) = ui w /\ effects (snd (t w)) = effects w /\ timers (snd (t w)) = timers w.
Proof.
  intros t material Hdata Htitle Hcards Hqs Hfirst Hnorej. subst t.
  rewrite (saveMaterialAndContent_head uid materialTitle materialContent sourceType
             generatedData _ w (get_field _ _ Hdata)).
  rewrite Hfirst. fold material. unfold_fanout.
  rewrite !(get_field generatedData _ Hdata). rewrite !truthy_array, ?Htitle.
  pose proof (fun mid => flashcard_row_pure uid mid _ Hcards) as Hfc.
  pose proof (fun qid => question_row_pure qid _ Hqs) as Hqr.
  destruct (truthy (js_or (field generatedData "key_points") (field generatedData "examples")));
    destruct (Array_isArray (field generatedData "flashcards"));
    destruct (Array_isArray (field generatedData "quiz_questions"));
    repeat (fanout_step;
            try rewrite (Array_map_pure _ _ _ _ (Hfc _));
            try rewrite (Array_map_pure _ _ _ _ (Hqr _));
            try match goal with
                | |- context [fate_of w ?k] =>
                    let F := fresh "F" in
                    destruct (fate_of w k) eqn:F; [| |exfalso; exact (Hnorej _ _ F)]
                end);
    (split; [reflexivity|]); (split; [reflexivity|]);
    (split; [|repeat split; reflexivity]);
    rewrite <- ?app_assoc; apply prefix_app, prefix_cons, prefix_nil.
Qed.

(** X19: once the material row is stored, an error result of a later
    insert is not noticed. With well-formed study content, a title that
    converts to a string and no rejected request, the fan-out returns [true] and the material row is stored,
    whatever the later inserts resolve with; when every later insert
    resolves with an error, the material row is the only row written, the
    insert of the questions is not even sent, and the fan-out still returns
    [true], without a log line or a notification. *)
Theorem X19_error_results_are_not_noticed `{JSRuntime} (uid : string)
    (materialTitle : jsval) (materialContent sourceType : string)
    (generatedData : jsval) (title : string) (w : Materials.World) :
  let t := Materials.saveMaterialAndContent (Some uid) materialTitle materialContent
             sourceType generatedData in
  let b := backend w in
  let b' := backend (snd (t w)) in
  let mid := Materials.fresh_id b in
  let key_points := field generatedData "key_points" in
  let examples := field generatedData "examples" in
  let cards := field generatedData "flashcards" in
  let quiz_questions := field generatedData "quiz_questions" in
  let material := Materials.Material.Make uid materialTitle materialContent sourceType
                    (field generatedData "summary") in
  let note := Materials.Note.Make uid mid (title +:+ " - Notes")
                (field generatedData "summary") key_points examples in
  let quiz := Materials.NewQuiz.Make uid mid (title +:+ " - Quiz") in
  nullish generatedData = false ->
  ToString materialTitle = Returns title ->
  Forall (fun c => nullish c = false) (Materials.items_of cards) ->
  Forall (fun q => nullish q = false) (Materials.items_of quiz_questions) ->
  fate_of w (length (requests w)) = Succeeds ->
  (forall k e, fate_of w k <> Rejects e) ->
  fst (t w) = Returns (JBool true) /\
  Materials.materials b' = Materials.materials b ++ [(mid, material)] /\
  effects (snd (t w)) = effects w /\
  ((forall k, (length (requests w) < k)%nat -> exists e, fate_of w k = Fails e) ->
   Materials.notes b' = Materials.notes b /\
   Materials.flashcards b' = Materials.flashcards b /\
   Materials.quizzes b' = Materials.quizzes b /\
   Materials.questions b' = Materials.questions b /\
   requests (snd (t w)) =
     requests w
     ++ [Materials.insert_material material]
     ++ (if truthy (js_or key_points examples) then [Materials.insert_note note] else [])
     ++ (if Array_isArray cards
         then [Materials.insert_flashcards
                 (map (flashcard_of uid mid) (Materials.items_of cards))]
         else [])
     ++ (if Array_isArray quiz_questions then [Materials.insert_quiz quiz] else [])).
Proof.
  intros t b b' mid key_points examples cards quiz_questions material note quiz
    Hdata Htitle Hcards Hqs Hfirst Hnorej.
  destruct (saveMaterialAndContent_no_reject uid materialTitle materialContent sourceType
              generatedData title w Hdata Htitle Hcards Hqs Hfirst Hnorej)
    as (Hret & Hmat & _ & _ & Hfx & _).
  split; [exact Hret|]. split; [exact Hmat|]. split; [exact Hfx|].
  intros Hfail. subst b' t.
  rewrite (saveMaterialAndContent_head uid materialTitle materialContent sourceType
             generatedData _ w (get_field _ _ Hdata)).
  rewrite Hfirst. fold material b mid. unfold_fanout.
  rewrite !(get_field generatedData _ Hdata). fold key_points examples cards quiz_questions.
  rewrite !truthy_array, ?Htitle.
  pose proof (flashcard_row_pure uid mid _ Hcards) as Hfc.
  destruct (truthy (js_or key_points examples));
    destruct (Array_isArray cards);
    destruct (Array_isArray quiz_questions);
    repeat (fanout_step;
            try rewrite (Array_map_pure _ _ _ _ Hfc);
            try match goal with
                | |- context [fate_of w ?k] =>
                    let e := fresh "e" in
                    let F := fresh "F" in
                    destruct (Hfail k) as [e F];
                    [rewrite ?length_app; simpl; lia|rewrite F]
                end);
    rewrite <- ?app_assoc; repeat split; reflexivity.
Qed.

Lemma X19_error_results_are_not_noticed_witness :
  let w := SampleMaterials.page (SampleMaterials.typed "" "Osmosis") SampleMaterials.osmosis
             (fun k => match k with O => Succeeds | _ => Fails (Error "permission denied") end) in
  let t := Materials.saveMaterialAndContent (H := Sample.runtime) (Some "u1")
             (JStr "Osmosis") "Osmosis" "ai_generated" SampleMaterials.osmosis in
  fst (t w) = Returns (JBool true) /\
  length (Materials.materials (backend (snd (t w)))) = 1%nat /\
  Materials.notes (backend (snd (t w))) = [] /\
  Materials.flashcards (backend (snd (t w))) = [] /\
  length (requests (snd (t w))) = 4%nat.
Proof.
  intros w t.
  destruct (X19_error_results_are_not_noticed (H := Sample.runtime) "u1" (JStr "Osmosis")
              "Osmosis" "ai_generated" SampleMaterials.osmosis "Osmosis" w eq_refl eq_refl)
    as (Hret & Hmat & _ & Hlater).
  - repeat constructor.
  - repeat constructor.
  - reflexivity.
  - intros [|k] e; discriminate.
  - destruct Hlater as (Hn & Hf & _ & _ & Hreq).
    { intros [|k] Hk; [simpl in Hk; lia|]. eexists. reflexivity. }
    fold t in Hret, Hmat, Hn, Hf, Hreq.
    split; [exact Hret|]. rewrite Hmat, Hn, Hf, Hreq. repeat split; reflexivity.
Defined.

(** ** Generation without a signed-in user, and with no content *)

Ltac unfold_handler :=
  cbv [bind get_ui try_catch finally await modify_ui perform throw ret setTimeout prop
       Materials.generate].

(** X20: without a signed-in user the fan-out returns at once, but the
    handlers do not look at what it returns: the edge function is invoked,
    nothing is stored, no notification is shown, and the run still ends with
    the line that all is done and with the success callback registered. *)
Theorem X20_signed_out_generation_reports_success `{JSRuntime} (w : Materials.World) :
  let topic := Materials.topic (ui w) in
  let text := Materials.text (ui w) in
  let topic_body := [("topic", trim topic)] in
  let text_body := [("content", trim text); ("title", substring0 100 (trim text) +:+ "...")] in
  fate_of w (length (requests w)) = Succeeds ->
  (trim topic <> "" ->
   nullish (Materials.generated (backend w) EdgeFunction.generate_from_topic topic_body)
     = false ->
   let w' := snd (Materials.handleTopicGenerate None w) in
   backend w' = backend w /\
   requests w' = requests w ++ [Materials.invoke EdgeFunction.generate_from_topic topic_body] /\
   effects w' = effects w /\
   timers w' = timers w ++ [(1500, Materials.topic_done)] /\
   Materials.progress (ui w') =
     ["Generating content from AI..."; "Content generated! Saving to your workspace...";
      Materials.all_done]) /\
  (trim text <> "" ->
   let w' := snd (Materials.handleTextSubmit None w) in
   backend w' = backend w /\
   requests w' = requests w ++ [Materials.invoke EdgeFunction.process_material text_body] /\
   effects w' = effects w /\
   timers w' = timers w ++ [(1500, Materials.text_done)] /\
   Materials.progress (ui w') =
     ["Analyzing your material..."; "Creating study materials..."; Materials.all_done]).
Proof.
  intros topic text topic_body text_body Hfate.
  subst topic text topic_body text_body. split.
  - intros Hne Hdata. unfold Materials.handleTopicGenerate. unfold_handler.
    destruct (String.eqb_spec (trim (Materials.topic (ui w))) "") as [|_]; [contradiction|].
    cbn [fate_of requests]. rewrite Hfate.
    cbn [error data default backend snd fst]. unfold default, id.
    rewrite (get_field _ "title" Hdata).
    destruct (backend w). repeat split; reflexivity.
  - intros Hne. unfold Materials.handleTextSubmit. unfold_handler.
    destruct (String.eqb_spec (trim (Materials.text (ui w))) "") as [|_]; [contradiction|].
    cbn [fate_of requests]. rewrite Hfate.
    destruct (backend w). repeat split; reflexivity.
Qed.

Lemma X20_signed_out_generation_reports_success_witness :
  let w := SampleMaterials.page (SampleMaterials.typed "Water moves." "Osmosis")
             SampleMaterials.osmosis (fun _ => Succeeds) in
  let w' := snd (Materials.handleTextSubmit (H := Sample.runtime) None w) in
  Materials.materials (backend w') = [] /\
  length (requests w') = 1%nat /\
  timers w' = [(1500, Materials.text_done)].
Proof.
  intros w w'.
  destruct (X20_signed_out_generation_reports_success (H := Sample.runtime) w eq_refl)
    as [_ Htext].
  destruct (Htext ltac:(discriminate)) as (Hb & Hr & _ & Ht & _).
  fold w' in Hb, Hr, Ht. rewrite Hb, Hr, Ht. repeat split; reflexivity.
Defined.

(** X21: an invocation that succeeds with no content ([null]) is caught as
    a type error before anything is written. The topic handler fails on
    reading the title, the text handler on reading the summary inside the
    fan-out, which logs the error and throws it again; both show the message
    of the type error and send no insert. *)
Theorem X21_null_content_writes_nothing `{JSRuntime} (uid : string) (w : Materials.World) :
  let topic := Materials.topic (ui w) in
  let text := Materials.text (ui w) in
  let topic_body := [("topic", trim topic)] in
  let text_body := [("content", trim text); ("title", substring0 100 (trim text) +:+ "...")] in
  fate_of w (length (requests w)) = Succeeds ->
  (trim topic <> "" ->
   forall content, nullish content = true ->
   Materials.generated (backend w) EdgeFunction.generate_from_topic topic_body = content ->
   let w' := snd (Materials.handleTopicGenerate (Some uid) w) in
   backend w' = backend w /\
   requests w' = requests w ++ [Materials.invoke EdgeFunction.generate_from_topic topic_body] /\
   effects w' = effects w ++ [console_error "Error generating from topic:"
                                (cannot_read content "title");
                              toast_error (message (cannot_read content "title"))] /\
   timers w' = timers w) /\
  (trim text <> "" ->
   forall content, nullish content = true ->
   Materials.generated (backend w) EdgeFunction.process_material text_body = content ->
   let w' := snd (Materials.handleTextSubmit (Some uid) w) in
   backend w' = backend w /\
   requests w' = requests w ++ [Materials.invoke EdgeFunction.process_material text_body] /\
   effects w' = effects w ++ [console_error "Error saving to database:"
                                (cannot_read content "summary");
                              console_error "Error processing material:"
                                (cannot_read content "summary");
                              toast_error (message (cannot_read content "summary"))] /\
   timers w' = timers w).
Proof.
  intros topic text topic_body text_body Hfate.
  subst topic text topic_body text_body. split.
  - intros Hne content Hnull Hdata. unfold Materials.handleTopicGenerate. unfold_handler.
    destruct (String.eqb_spec (trim (Materials.topic (ui w))) "") as [|_]; [contradiction|].
    cbn [fate_of requests]. rewrite Hfate.
    cbn [error data default backend snd fst]. unfold default, id.
    rewrite Hdata.
    destruct content; try discriminate; cbn; rewrite <- ?app_assoc;
      destruct (backend w); repeat split; reflexivity.
  - intros Hne content Hnull Hdata. unfold Materials.handleTextSubmit. unfold_handler.
    destruct (String.eqb_spec (trim (Materials.text (ui w))) "") as [|_]; [contradiction|].
    cbn [fate_of requests]. rewrite Hfate.
    cbn [error data default backend snd fst]. unfold default, id.
    rewrite Hdata.
    unfold Materials.saveMaterialAndContent. unfold_handler.
    destruct content; try discriminate; cbn; rewrite <- ?app_assoc;
      destruct (backend w); repeat split; reflexivity.
Qed.

Lemma X21_null_content_writes_nothing_witness :
  let w := SampleMaterials.page (SampleMaterials.typed "Water moves." "Osmosis") JNull
             (fun _ => Succeeds) in
  let w' := snd (Materials.handleTopicGenerate (H := Sample.runtime) (Some "u1") w) in
  Materials.materials (backend w') = [] /\
  length (requests w') = 1%nat /\
  toast_error "Cannot read properties of null (reading 'title')" ∈ effects w'.
Proof.
  intros w w'.
  destruct (X21_null_content_writes_nothing (H := Sample.runtime) "u1" w eq_refl)
    as [Htopic _].
  destruct (Htopic ltac:(discriminate) JNull eq_refl eq_refl) as (Hb & Hr & Hfx & _).
  fold w' in Hb, Hr, Hfx. rewrite Hb, Hr, Hfx. split; [reflexivity|]. split; [reflexivity|].
  apply elem_of_cons. right. apply list_elem_of_singleton. reflexivity.
Defined.

(** ** A malformed entry in the generated flashcards *)

Lemma Array_map_throws {U B R A} (f : jsval -> task U B R A) (g : jsval -> A)
    (good rest : list jsval) (bad : jsval) (e : js_error) (w : world U B R) :
  Forall (fun i => forall v, f i v = (Returns (g i), v)) good ->
  (forall v, f bad v = (Throws e, v)) ->
  Array_map f (good ++ bad :: rest) w = (Throws e, w).
Proof.
  intros Hgood Hbad. induction Hgood as [|i good Hi _ IH]; simpl.
  - unfold bind at 1. now rewrite Hbad.
  - unfold bind at 1. rewrite Hi. unfold bind at 1. now rewrite IH.
Qed.

Lemma flashcard_row_throws (uid mid : string) (bad : jsval) (v : Materials.World) :
  nullish bad = true ->
  Materials.flashcard_row uid mid bad v = (Throws (cannot_read bad "question"), v).
Proof. destruct bad; try discriminate; reflexivity. Qed.

(** X22: an entry of the generated flashcards that is [null] or
    [undefined] stops the fan-out with a type error after the material row,
    and the note when there is one, have been stored: no flashcard of the
    list is inserted, not even those before the bad entry, the quiz is not
    reached, and the rows already stored stay. The title is one that
    converts to a string. *)
Theorem X22_null_flashcard_leaves_partial_save `{JSRuntime} (uid : string)
    (materialTitle : jsval) (materialContent sourceType : string)
    (generatedData : jsval) (title : string) (good rest : list jsval) (bad : jsval)
    (w : Materials.World) :
  let t := Materials.saveMaterialAndContent (Some uid) materialTitle materialContent
             sourceType generatedData in
  let b := backend w in
  let b' := backend (snd (t w)) in
  let mid := Materials.fresh_id b in
  let summary := field generatedData "summary" in
  let key_points := field generatedData "key_points" in
  let examples := field generatedData "examples" in
  let material := Materials.Material.Make uid materialTitle materialContent sourceType summary in
  let note := Materials.Note.Make uid mid (title +:+ " - Notes")
                summary key_points examples in
  nullish generatedData = false ->
  ToString materialTitle = Returns title ->
  field generatedData "flashcards" = JArr (good ++ bad :: rest) ->
  Forall (fun c => nullish c = false) good ->
  nullish bad = true ->
  (forall k, fate_of w k = Succeeds) ->
  fst (t w) = Throws (cannot_read bad "question") /\
  Materials.materials b' = Materials.materials b ++ [(mid, material)] /\
  Materials.notes b' =
    Materials.notes b ++ (if truthy (js_or key_points examples) then [note] else []) /\
  Materials.flashcards b' = Materials.flashcards b /\
  Materials.quizzes b' = Materials.quizzes b /\
  Materials.questions b' = Materials.questions b /\
  requests (snd (t w)) =
    requests w
    ++ [Materials.insert_material material]
    ++ (if truthy (js_or key_points examples) then [Materials.insert_note note] else []) /\
  effects (snd (t w)) =
    effects w ++ [console_error "Error saving to database:" (cannot_read bad "question")].
Proof.
  intros t b b' mid summary key_points examples material note Hdata Htitle Hcards Hgood Hbad
    Hall.
  subst b' t.
  rewrite (saveMaterialAndContent_head uid materialTitle materialContent sourceType
             generatedData _ w (get_field _ _ Hdata)).
  rewrite Hall. fold summary material b mid. unfold_fanout.
  rewrite !(get_field generatedData _ Hdata). fold key_points examples.
  rewrite Hcards, ?Htitle. cbn [truthy Array_isArray andb Materials.items_of].
  pose proof (flashcard_row_pure uid mid _ Hgood) as Hfc.
  pose proof (fun v => flashcard_row_throws uid mid bad v Hbad) as Hthrow.
  destruct (truthy (js_or key_points examples));
    repeat (fanout_step; try rewrite Hall;
            try rewrite (Array_map_throws _ _ _ _ _ _ _ Hfc Hthrow));
    rewrite <- ?app_assoc, ?app_nil_r; repeat split; reflexivity.
Qed.

Lemma X22_null_flashcard_leaves_partial_save_witness :
  let content :=
    JObj [("summary", JStr "Short."); ("key_points", JArr [JStr "Water moves."]);
          ("flashcards",
           JArr [SampleMaterials.card "What is osmosis?" "Diffusion of water." []; JNull])] in
  let w := SampleMaterials.page (SampleMaterials.typed "" "Osmosis") content
             (fun _ => Succeeds) in
  let t := Materials.saveMaterialAndContent (H := Sample.runtime) (Some "u1")
             (JStr "Osmosis") "Osmosis" "ai_generated" content in
  fst (t w) = Throws (Error "Cannot read properties of null (reading 'question')") /\
  length (Materials.materials (backend (snd (t w)))) = 1%nat /\
  length (Materials.notes (backend (snd (t w)))) = 1%nat /\
  Materials.flashcards (backend (snd (t w))) = [].
Proof.
  intros content w t.
  destruct (X22_null_flashcard_leaves_partial_save (H := Sample.runtime) "u1" (JStr "Osmosis")
              "Osmosis" "ai_generated" content "Osmosis"
              [SampleMaterials.card "What is osmosis?" "Diffusion of water." []] [] JNull w
              eq_refl eq_refl eq_refl ltac:(repeat constructor) eq_refl ltac:(reflexivity))
    as (Hthrow & Hm & Hn & Hf & _).
  fold t in Hthrow, Hm, Hn, Hf. rewrite Hthrow, Hm, Hn, Hf. repeat split; reflexivity.
Defined.

(** ** What a successful generation stores *)

Lemma generation_stores `{JSRuntime} (uid : string) (w : Materials.World)
    (fn : EdgeFunction.name) (body : list (string * string))
    (title_of : jsval -> completion jsval) (content fallback label source first second : string)
    (done : Materials.State -> Materials.State * list effect) (title : jsval)
    (title_text : string) :
  let t := generation_run (Some uid) fn body title_of content fallback label source first
             second done in
  let generated := Materials.generated (backend w) fn body in
  let row := Materials.Material.Make uid title content source (field generated "summary") in
  (forall k, fate_of w k = Succeeds) ->
  nullish generated = false ->
  Forall (fun c => nullish c = false) (Materials.items_of (field generated "flashcards")) ->
  Forall (fun q => nullish q = false) (Materials.items_of (field generated "quiz_questions")) ->
  title_of generated = Returns title ->
  ToString title = Returns title_text ->
  Materials.materials (backend (snd (t w)))
    = Materials.materials (backend w) ++ [(Materials.fresh_id (backend w), row)] /\
  (requests w ++ [Materials.invoke fn body; Materials.insert_material row])
    `prefix_of` requests (snd (t w)) /\
  timers (snd (t w)) = timers w ++ [(1500, done)] /\
  effects (snd (t w)) = effects w.
Proof.
  intros t generated row Hall Hdata Hcards Hqs Htitle Htext. subst t. unfold generation_run.
  cbv [bind try_catch finally await modify_ui perform throw ret setTimeout Materials.generate].
  cbn [fate_of requests ui backend effects timers]. rewrite Hall.
  cbn [fate_of requests ui backend effects timers error data fst snd].
  unfold default, id. fold generated. rewrite Htitle.
  match goal with
  | |- context [Materials.saveMaterialAndContent (Some uid) title content source generated ?v] =>
      destruct (saveMaterialAndContent_no_reject uid title content source generated
                  title_text v Hdata Htext Hcards Hqs (Hall _)
                  ltac:(intros k e; cbn [fate_of]; now rewrite Hall))
        as (Hret & Hm & Hreq & _ & Hfx & Htm);
      destruct (Materials.saveMaterialAndContent (Some uid) title content source generated v)
        as [[r|e] v1]
  end; cbn [fst snd ui timers effects backend requests] in *; [|discriminate].
  rewrite Hm, Htm, Hfx. split; [reflexivity|]. split; [|split; reflexivity].
  now rewrite <- app_assoc in Hreq.
Qed.

(** X23: what a generation that goes through stores, the title being one
    that converts to a string (a pasted text always gives one). The material row
    holds the input as it was typed, not the trimmed input that was sent to
    the edge function: for a topic, the title is the generated title, or the
    topic when there is none, and the content is the topic; for a pasted
    text, the title is the first 100 code units of the text as typed followed
    by three dots, also for a short text, and the content is the text. The
    insert of the material is the request that follows the invocation, and
    the success callback is registered without a notification. *)
Theorem X23_generation_stores_what_was_typed `{JSRuntime} (uid : string)
    (w : Materials.World) :
  let topic := Materials.topic (ui w) in
  let text := Materials.text (ui w) in
  let topic_body := [("topic", trim topic)] in
  let text_body := [("content", trim text); ("title", substring0 100 (trim text) +:+ "...")] in
  let well_formed content :=
    nullish content = false /\
    Forall (fun c => nullish c = false) (Materials.items_of (field content "flashcards")) /\
    Forall (fun q => nullish q = false) (Materials.items_of (field content "quiz_questions")) in
  let stored (w' : Materials.World) fn body row done :=
    Materials.materials (backend w')
      = Materials.materials (backend w) ++ [(Materials.fresh_id (backend w), row)] /\
    (requests w ++ [Materials.invoke fn body; Materials.insert_material row])
      `prefix_of` requests w' /\
    timers w' = timers w ++ [(1500, done)] /\
    effects w' = effects w in
  (forall k, fate_of w k = Succeeds) ->
  (trim topic <> "" ->
   forall content title,
     Materials.generated (backend w) EdgeFunction.generate_from_topic topic_body = content ->
     well_formed content ->
     ToString (js_or (field content "title") (JStr topic)) = Returns title ->
     stored (snd (Materials.handleTopicGenerate (Some uid) w))
       EdgeFunction.generate_from_topic topic_body
       (Materials.Material.Make uid (js_or (field content "title") (JStr topic)) topic
          "ai_generated" (field content "summary"))
       Materials.topic_done) /\
  (trim text <> "" ->
   forall content,
     Materials.generated (backend w) EdgeFunction.process_material text_body = content ->
     well_formed content ->
     stored (snd (Materials.handleTextSubmit (Some uid) w))
       EdgeFunction.process_material text_body
       (Materials.Material.Make uid (JStr (substring0 100 text +:+ "...")) text "paste"
          (field content "summary"))
       Materials.text_done).
Proof.
  intros topic text topic_body text_body well_formed stored Hall.
  subst topic text topic_body text_body well_formed stored. cbv beta.
  split.
  - intros Hne content title Hgen (Hdata & Hcards & Hqs) Htitle. subst content.
    rewrite handleTopicGenerate_run by exact Hne.
    apply (generation_stores uid w) with (title_text := title); try assumption.
    unfold topic_title. now rewrite (get_field _ "title" Hdata).
  - intros Hne content Hgen (Hdata & Hcards & Hqs). subst content.
    rewrite handleTextSubmit_run by exact Hne.
    apply (generation_stores uid w)
      with (title_text := substring0 100 (Materials.text (ui w)) +:+ "...");
      try assumption; reflexivity.
Qed.

Lemma X23_generation_stores_what_was_typed_witness :
  let w := SampleMaterials.page (SampleMaterials.typed " Water moves. " "Osmosis")
             SampleMaterials.osmosis (fun _ => Succeeds) in
  let w' := snd (Materials.handleTextSubmit (H := Sample.runtime) (Some "u1") w) in
  map (fun r => (Materials.Material.title (snd r), Materials.Material.content (snd r)))
    (Materials.materials (backend w'))
    = [(JStr " Water moves. ...", " Water moves. ")] /\
  requests w' !! 0%nat
    = Some (Materials.invoke EdgeFunction.process_material
              [("content", "Water moves."); ("title", "Water moves....")]).
Proof.
  intros w w'.
  destruct (X23_generation_stores_what_was_typed (H := Sample.runtime) "u1" w
              ltac:(reflexivity)) as [_ Htext].
  destruct (Htext ltac:(discriminate) SampleMaterials.osmosis eq_refl) as (Hm & _).
  { split; [reflexivity|]. split; repeat constructor. }
  fold w' in Hm. rewrite Hm. split; reflexivity.
Defined.
(** ** The tutor page *)

Ltac unfold_send :=
  unfold Tutor.handleSend;
  cbv [bind get_ui try_catch finally await modify_ui perform throw ret Tutor.ask].

Lemma or_else_not_empty (text : option string) (fallback : string) :
  fallback <> "" -> Tutor.or_else text fallback <> "".
Proof.
  intros Hf. unfold Tutor.or_else. destruct text as [s|]; [|exact Hf].
  destruct (String.eqb_spec s ""); assumption.
Qed.

Lemma errorContent_apology (e : js_error) :
  Tutor.errorContent e ∈ apologies /\ Tutor.errorContent e <> "".
Proof.
  unfold Tutor.errorContent, apologies.
  destruct (_ || _); [|destruct (includes _ "timeout"); [|destruct (_ || _)]];
    (split; [|discriminate]);
    repeat first [apply list_elem_of_here | apply list_elem_of_further].
Qed.

Ltac tutor_state :=
  cbv [Tutor.setLoading Tutor.pushMessage Tutor.setInput Tutor.setMessages Tutor.setMode
       Tutor.messages Tutor.input Tutor.mode Tutor.loading
       ui backend requests effects timers fate_of];
  rewrite <- ?app_assoc, ?app_nil_r; cbn [app].

Lemma reply_text_cases (body : jsval) (v : Tutor.World) :
  (exists t, Tutor.reply_text body v = (Returns t, v) /\
             forall text, get body "reply" = Some (JStr text) -> t = Some (trim text)) \/
  (exists e, Tutor.reply_text body v = (Throws e, v) /\
             forall text, get body "reply" <> Some (JStr text)).
Proof.
  unfold Tutor.reply_text.
  destruct body; try (left; exists None; split; [reflexivity|]; intros ? [=]).
  cbn [get]. set (r := default JUndefined (own_property props "reply")).
  change (default JUndefined (Some r)) with r.
  destruct r;
    try (left; eexists; split; [reflexivity|]; intros ? Hg; inversion Hg; subst; reflexivity);
    right; eexists; (split; [reflexivity|]); intros ? [=].
Qed.

Lemma handleSend_sent (w : Tutor.World) :
  sendable (ui w) = true ->
  let s := ui w in
  let asked := {| Tutor.role := Tutor.user; Tutor.content := trim (Tutor.input s) |} in
  exists (shown : string) (logs : list effect),
    shown <> "" /\
    forallb is_log logs = true /\
    Tutor.handleSend w =
      (Returns tt,
       MkWorld
         (Tutor.Build_State
            (Tutor.messages s
             ++ [asked; {| Tutor.role := Tutor.assistant; Tutor.content := shown |}])
            "" (Tutor.mode s) false)
         (backend w)
         (requests w ++ [Tutor.invoke (Tutor.messages s ++ [asked]) (Tutor.mode s)])
         (effects w ++ logs) (timers w) (fate_of w)) /\
    match fate_of w (length (requests w)) with
    | Succeeds =>
        forall text,
          get (Tutor.answer (backend w) (Tutor.messages s ++ [asked]) (Tutor.mode s)) "reply"
            = Some (JStr text) ->
          shown = Tutor.or_else (Some (trim text)) Tutor.no_reply /\ logs = []
    | Fails e =>
        shown = Tutor.errorContent e /\
        logs = [console_error "AI Tutor Error:" e;
                console_error "Error communicating with AI:" e]
    | Rejects e =>
        shown = Tutor.errorContent e /\ logs = [console_error "Error communicating with AI:" e]
    end.
Proof.
  intros Hs s asked. subst s. unfold sendable in Hs. apply andb_prop in Hs as [Hin Hl].
  apply negb_true_iff in Hin, Hl. unfold_send. rewrite Hin, Hl. cbn [orb].
  cbn [fate_of requests ui backend effects timers].
  destruct (fate_of w (length (requests w))) as [|e|e];
    cbn [fate_of requests ui backend effects timers error data fst snd].
  - fold asked.
    change (default JNull (Some ?x)) with x.
    set (body := Tutor.answer (backend w) (Tutor.messages (ui w) ++ [asked])
                   (Tutor.mode (ui w))).
    match goal with
    | |- context [Tutor.reply_text body ?v] =>
        destruct (reply_text_cases body v) as [(t & -> & Ht)|(e & -> & He)]
    end.
    + exists (Tutor.or_else t Tutor.no_reply), [].
      split; [apply or_else_not_empty; discriminate|]. split; [reflexivity|].
      split; [|intros text Hg; now rewrite (Ht text Hg)].
      tutor_state. reflexivity.
    + exists (Tutor.errorContent e), [console_error "Error communicating with AI:" e].
      split; [apply errorContent_apology|]. split; [reflexivity|].
      split; [|intros text Hg; destruct (He text Hg)].
      tutor_state. reflexivity.
  - exists (Tutor.errorContent e), [console_error "AI Tutor Error:" e;
                                     console_error "Error communicating with AI:" e].
    split; [apply errorContent_apology|]. split; [reflexivity|].
    split; [|split; reflexivity]. tutor_state. reflexivity.
  - exists (Tutor.errorContent e), [console_error "Error communicating with AI:" e].
    split; [apply errorContent_apology|]. split; [reflexivity|].
    split; [|split; reflexivity]. tutor_state. reflexivity.
Qed.

(** X24: a send is refused, with nothing changed and nothing sent, when
    the input is blank or an answer is awaited. A send that is taken never
    throws and ends with exactly two more messages, the trimmed input of the
    user and one message of the assistant that is not empty, with the input
    cleared, [loading] false again and the mode kept; it sends one request,
    which carries the whole conversation with the new message and the mode,
    and it shows no notification: a failure is only logged and answered in
    the conversation. *)
Theorem X24_send_adds_one_exchange (w : Tutor.World) :
  let s := ui w in
  let w' := snd (Tutor.handleSend w) in
  let asked := {| Tutor.role := Tutor.user; Tutor.content := trim (Tutor.input s) |} in
  (sendable s = false -> Tutor.handleSend w = (Returns tt, w)) /\
  (sendable s = true ->
   fst (Tutor.handleSend w) = Returns tt /\
   (exists shown,
      shown <> "" /\
      Tutor.messages (ui w') =
        Tutor.messages s
        ++ [asked; {| Tutor.role := Tutor.assistant; Tutor.content := shown |}]) /\
   Tutor.input (ui w') = "" /\
   Tutor.loading (ui w') = false /\
   Tutor.mode (ui w') = Tutor.mode s /\
   requests w' = requests w ++ [Tutor.invoke (Tutor.messages s ++ [asked]) (Tutor.mode s)] /\
   backend w' = backend w /\
   timers w' = timers w /\
   exists logs, effects w' = effects w ++ logs /\ forallb is_log logs = true).
Proof.
  intros s w' asked. split.
  - unfold sendable. intros Hs. unfold Tutor.handleSend, bind at 1, get_ui. fold s.
    destruct (String.eqb (trim (Tutor.input s)) ""); [reflexivity|].
    destruct (Tutor.loading s); [reflexivity|discriminate].
  - intros Hs. destruct (handleSend_sent w Hs) as (shown & logs & Hne & Hlogs & Hrun & _).
    subst w'. rewrite Hrun. cbn [fst snd ui backend requests effects timers
                                  Tutor.messages Tutor.input Tutor.mode Tutor.loading].
    split; [reflexivity|]. split; [exists shown; split; [exact Hne|reflexivity]|].
    repeat (split; [reflexivity|]). exists logs. split; [reflexivity|exact Hlogs].
Qed.

Lemma X24_send_adds_one_exchange_witness :
  let w := SampleTutor.page (Tutor.Build_State [] "  What is osmosis? " Tutor.examcoach false)
             (JStr " Diffusion of water. ") (fun _ => Succeeds) in
  Tutor.messages (ui (snd (Tutor.handleSend w)))
    = [{| Tutor.role := Tutor.user; Tutor.content := "What is osmosis?" |};
       {| Tutor.role := Tutor.assistant; Tutor.content := "Diffusion of water." |}] /\
  requests (snd (Tutor.handleSend w))
    = [Tutor.invoke [{| Tutor.role := Tutor.user; Tutor.content := "What is osmosis?" |}]
         Tutor.examcoach].
Proof.
  intros w.
  destruct (X24_send_adds_one_exchange w) as [_ Htaken].
  destruct (Htaken eq_refl) as (_ & _ & _ & _ & _ & Hreq & _).
  split; [reflexivity|exact Hreq].
Defined.

(** ** The conversation *)

Lemma exchanges_snoc (ms : list Tutor.Message) (asked shown : string) :
  exchanges ms = true -> asked <> "" -> shown <> "" ->
  exchanges (ms ++ [{| Tutor.role := Tutor.user; Tutor.content := asked |};
                    {| Tutor.role := Tutor.assistant; Tutor.content := shown |}]) = true.
Proof.
  intros Hms Ha Hs.
  assert (Hall : forall n l, (length l <= n)%nat -> exchanges l = true ->
                 exchanges (l ++ [{| Tutor.role := Tutor.user; Tutor.content := asked |};
                                  {| Tutor.role := Tutor.assistant; Tutor.content := shown |}])
                 = true).
  { induction n as [|n IH]; intros l Hlen Hl.
    - destruct l; [|simpl in Hlen; lia]. simpl.
      destruct (String.eqb_spec asked ""); [contradiction|].
      destruct (String.eqb_spec shown ""); [contradiction|]. reflexivity.
    - destruct l as [|u [|a rest]]; [apply (IH []); [simpl; lia|reflexivity]|discriminate|].
      simpl in Hl |- *. destruct (Tutor.role u), (Tutor.role a); try discriminate.
      apply andb_prop in Hl as [Hc Hrest]. rewrite Hc. cbn [andb].
      apply IH; [simpl in Hlen; lia|exact Hrest]. }
  exact (Hall _ ms (Nat.le_refl _) Hms).
Qed.

Lemma step_keeps_conversation (o : Tutor.Op) (w : Tutor.World) :
  let w' := snd (Tutor.step o w) in
  exchanges (Tutor.messages (ui w)) = true -> Tutor.loading (ui w) = false ->
  exchanges (Tutor.messages (ui w')) = true /\
  Tutor.loading (ui w') = false /\
  (exists l r, Tutor.messages (ui w') = Tutor.messages (ui w) ++ l /\
               requests w' = requests w ++ r /\
               length l = (2 * length r)%nat).
Proof.
  intros w' Hex Hl. subst w'. destruct o as [value|m|]; cbn [Tutor.step].
  - cbn. repeat split; [exact Hex|exact Hl|]. exists [], []. now rewrite !app_nil_r.
  - cbn. repeat split; [exact Hex|exact Hl|]. exists [], []. now rewrite !app_nil_r.
  - destruct (sendable (ui w)) eqn:Hs.
    + destruct (handleSend_sent w Hs) as (shown & logs & Hne & _ & Hrun & _).
      rewrite Hrun. cbn [snd ui requests Tutor.messages Tutor.loading].
      split; [|split; [reflexivity|eexists _, _; repeat split; reflexivity]].
      apply exchanges_snoc; [exact Hex| |exact Hne].
      unfold sendable in Hs. apply andb_prop in Hs as [Hin _].
      apply negb_true_iff in Hin. now destruct (String.eqb_spec (trim (Tutor.input (ui w))) "").
    + assert (Hrun : Tutor.handleSend w = (Returns tt, w)).
      { unfold sendable in Hs. unfold Tutor.handleSend, bind at 1, get_ui.
        destruct (String.eqb (trim (Tutor.input (ui w))) ""); [reflexivity|].
        destruct (Tutor.loading (ui w)); [reflexivity|discriminate]. }
      rewrite Hrun. cbn [snd]. repeat split; [exact Hex|exact Hl|].
      exists [], []. now rewrite !app_nil_r.
Qed.

(** X25: whatever the user types, chooses and sends, and however the
    requests end, the conversation stays a sequence of exchanges, a message
    of the user that is not empty followed by a message of the assistant that
    is not empty; earlier messages are never changed or removed; every
    request sent has added exactly two messages; and no answer is awaited at
    the end. *)
Theorem X25_conversation_is_exchanges (ops : list Tutor.Op) (w : Tutor.World) :
  let w' := Tutor.run ops w in
  exchanges (Tutor.messages (ui w)) = true -> Tutor.loading (ui w) = false ->
  exchanges (Tutor.messages (ui w')) = true /\
  Tutor.loading (ui w') = false /\
  Tutor.messages (ui w) `prefix_of` Tutor.messages (ui w') /\
  requests w `prefix_of` requests w' /\
  (length (Tutor.messages (ui w')) - length (Tutor.messages (ui w))
   = 2 * (length (requests w') - length (requests w)))%nat.
Proof.
  intros w'. subst w'. revert w. induction ops as [|o ops IH]; intros w Hex Hl.
  - cbn. repeat split; try assumption; try reflexivity. lia.
  - cbn [Tutor.run fold_left]. fold (Tutor.run ops (snd (Tutor.step o w))).
    destruct (step_keeps_conversation o w Hex Hl) as (Hex1 & Hl1 & l & r & Hm & Hr & Hlen).
    destruct (IH _ Hex1 Hl1) as (Hex2 & Hl2 & [l2 Hm2] & [r2 Hr2] & Hlen2).
    split; [exact Hex2|]. split; [exact Hl2|].
    rewrite Hm2, Hr2 in Hlen2 |- *. rewrite Hm, Hr in Hlen2 |- *.
    split; [exists (l ++ l2); now rewrite <- app_assoc|].
    split; [exists (r ++ r2); now rewrite <- app_assoc|].
    rewrite !length_app in *. lia.
Qed.

Lemma X25_conversation_is_exchanges_witness :
  let w := SampleTutor.page Tutor.initial (JNum 4) (fun _ => Succeeds) in
  let w' := Tutor.run [Tutor.Typing "2 + 2?"; Tutor.Send; Tutor.Send;
                       Tutor.ChooseMode Tutor.stepbystep; Tutor.Typing " why? "; Tutor.Send] w in
  exchanges (Tutor.messages (ui w')) = true /\
  length (Tutor.messages (ui w')) = 4%nat /\
  length (requests w') = 2%nat.
Proof.
  intros w w'.
  destruct (X25_conversation_is_exchanges
              [Tutor.Typing "2 + 2?"; Tutor.Send; Tutor.Send;
               Tutor.ChooseMode Tutor.stepbystep; Tutor.Typing " why? "; Tutor.Send] w
              eq_refl eq_refl) as (Hex & _).
  split; [exact Hex|]. split; reflexivity.
Defined.

(** ** The text shown for an error *)

Lemma prefix_inv (p s : string) : String.prefix p s = true -> exists t, s = p +:+ t.
Proof.
  revert s. induction p as [|a p IH]; intros s Hp; [exists s; reflexivity|].
  destruct s as [|b s]; [discriminate|]. simpl in Hp.
  destruct (ascii_dec a b) as [->|]; [|discriminate].
  destruct (IH s Hp) as [t ->]. exists t. reflexivity.
Qed.

Lemma prefix_append (p t : string) : String.prefix p (p +:+ t) = true.
Proof.
  induction p as [|a p IH]; [destruct t; reflexivity|]. simpl.
  destruct (ascii_dec a a); [exact IH|contradiction].
Qed.

Lemma includes_append (a t sub : string) :
  includes t sub = true -> includes (a +:+ t) sub = true.
Proof.
  intros Ht. induction a as [|c a IH]; [exact Ht|].
  simpl. rewrite IH. apply orb_true_r.
Qed.

Lemma includes_prefix (p t : string) : includes (p +:+ t) p = true.
Proof.
  pose proof (prefix_append p t) as Hp.
  destruct (p +:+ t); cbn [includes]; now rewrite Hp.
Qed.

Lemma unauthorized_is_auth (m : string) :
  includes m "unauthorized" = true -> includes m "auth" = true.
Proof.
  induction m as [|c m IH]; intros Hm; cbn [includes] in Hm.
  - apply orb_prop in Hm as [Hm|Hm]; discriminate.
  - apply orb_prop in Hm as [Hm|Hm].
    + apply prefix_inv in Hm as [t Ht]. rewrite Ht.
      change ("unauthorized" +:+ t) with ("un" +:+ ("auth" +:+ ("orized" +:+ t))).
      apply includes_append, includes_prefix.
    + cbn [includes]. rewrite (IH Hm). apply orb_true_r.
Qed.

(** X26: the text shown for an error depends on its message alone, by
    the first of three tests that holds: the connection text exactly when
    the message mentions "network" or "fetch"; if not, the text about the
    delay exactly when it mentions "timeout"; if not, the text about the
    session exactly when it mentions "auth", the test for "unauthorized"
    never deciding since such a message mentions "auth" too; and the general
    text exactly when it mentions none of them. That text is what the
    assistant answers when the request fails or rejects. *)
Theorem X26_error_text_by_first_match (e : js_error) :
  let m := message e in
  let connection := includes m "network" || includes m "fetch" in
  let delay := includes m "timeout" in
  let session := includes m "auth" in
  (includes m "unauthorized" = true -> session = true) /\
  (Tutor.errorContent e = Tutor.connection_issue <-> connection = true) /\
  (Tutor.errorContent e = Tutor.taking_longer <-> connection = false /\ delay = true) /\
  (Tutor.errorContent e = Tutor.need_login <->
     connection = false /\ delay = false /\ session = true) /\
  (Tutor.errorContent e = Tutor.cannot_process <->
     connection = false /\ delay = false /\ session = false) /\
  (forall w : Tutor.World,
     sendable (ui w) = true ->
     fate_of w (length (requests w)) = Fails e \/ fate_of w (length (requests w)) = Rejects e ->
     last (Tutor.messages (ui (snd (Tutor.handleSend w))))
       = Some {| Tutor.role := Tutor.assistant; Tutor.content := Tutor.errorContent e |}).
Proof.
  intros m connection delay session. subst connection delay session.
  split; [apply unauthorized_is_auth|].
  assert (Hlast : forall w : Tutor.World,
            sendable (ui w) = true ->
            fate_of w (length (requests w)) = Fails e \/
            fate_of w (length (requests w)) = Rejects e ->
            last (Tutor.messages (ui (snd (Tutor.handleSend w))))
            = Some {| Tutor.role := Tutor.assistant;
                      Tutor.content := Tutor.errorContent e |}).
  { intros w Hs Hfate.
    destruct (handleSend_sent w Hs) as (shown & logs & _ & _ & Hrun & Hshown).
    rewrite Hrun. cbn [snd ui Tutor.messages].
    rewrite last_app. cbn [last].
    destruct Hfate as [Hf|Hf]; rewrite Hf in Hshown; destruct Hshown as [-> _]; reflexivity. }
  assert (Hor : includes m "unauthorized" || includes m "auth" = includes m "auth").
  { destruct (includes m "unauthorized") eqn:Hu; [|reflexivity].
    now rewrite (unauthorized_is_auth m Hu). }
  unfold Tutor.errorContent at 1 2 3 4. fold m. rewrite Hor.
  cbv [Tutor.connection_issue Tutor.taking_longer Tutor.need_login Tutor.cannot_process].
  destruct (includes m "network" || includes m "fetch");
    [|destruct (includes m "timeout"); [|destruct (includes m "auth")]];
    repeat (split; [solve [intuition (first [reflexivity | discriminate])]|]);
    exact Hlast.
Qed.

Lemma X26_error_text_by_first_match_witness :
  let w := SampleTutor.page (Tutor.Build_State [] "What is osmosis?" Tutor.socratic false)
             JNull (fun _ => Rejects (Error "Failed to fetch: timeout")) in
  last (Tutor.messages (ui (snd (Tutor.handleSend w))))
    = Some {| Tutor.role := Tutor.assistant; Tutor.content := Tutor.connection_issue |}.
Proof.
  intros w.
  destruct (X26_error_text_by_first_match (Error "Failed to fetch: timeout"))
    as (_ & _ & _ & _ & _ & Hlast).
  exact (Hlast w eq_refl ltac:(right; reflexivity)).
Defined.
